(** * Student dashboard: score engine and rule-based assistant

    A shallow embedding of [src/js/model.js] (classes [StudentModel] and
    [AssistantModel]) together with the helpers of [Utils] they call, and
    the properties the specification states of them.  Further parts cover
    the rest of the model (deleting, clearing, undoing, searching), the
    validators and the escaping of [Utils], the formatting of a chat
    message ([src/js/assistantView.js]), the activity log
    ([src/js/activityModel.js]) and the rows of the students table
    ([src/js/controller.js]), with properties read off the code.

    Modelling conventions.
    - A JavaScript Number is an IEEE-754 binary64 value: Rocq's primitive
      [float].  Arithmetic and comparisons are the primitive ones, so NaN,
      the infinities and rounding behave as they do in the engine.  Text is
      read into a Number, and a Number written as text, with correct
      rounding and the shortest digits that read back.
    - A JavaScript string is a [string] whose characters are read as ASCII
      code units: white space, letter case and word characters are the
      ASCII ones.
    - Objects live in a heap of records; an array of objects is a list of
      heap locations.  Arrays of primitives (tags, score histories) are
      immutable list values: the source only ever replaces them.
    - Records are typed: a name or an id is a string, a score history is
      not an array or is an array of Numbers and, where JSON wrote a Number
      that is not finite, of [null].  The store holds objects; the one
      place where something else can enter it, a failing import, is
      modelled as such.  A method that can throw returns a [result]. *)

Set Warnings "-inexact-float".
From Stdlib Require Import ZArith Floats Ascii String Lia.
From stdpp Require Import base option list.

Local Open Scope string_scope.
Local Open Scope Z_scope.

(** ** JavaScript built-ins used by the source *)
Module Js.

(** *** Characters and strings *)

Definition code (c : ascii) : Z := Z.of_N (N_of_ascii c).

Definition is_digit (c : ascii) : bool := (48 <=? code c) && (code c <=? 57).

(** [\w] of a regular expression: [A-Za-z0-9_]. *)
Definition is_word (c : ascii) : bool :=
  is_digit c
  || ((65 <=? code c) && (code c <=? 90))
  || ((97 <=? code c) && (code c <=? 122))
  || (code c =? 95).

(** White space and line terminators (TAB, LF, VT, FF, CR, SP). *)
Definition is_space (c : ascii) : bool :=
  ((9 <=? code c) && (code c <=? 13)) || (code c =? 32).

Definition is_line_terminator (c : ascii) : bool :=
  (code c =? 10) || (code c =? 13).

Definition lower_char (c : ascii) : ascii :=
  if (65 <=? code c) && (code c <=? 90)
  then ascii_of_N (Z.to_N (code c + 32)) else c.

Fixpoint toLowerCase (s : string) : string :=
  match s with
  | EmptyString => EmptyString
  | String c s' => String (lower_char c) (toLowerCase s')
  end.

Fixpoint trimStart (s : string) : string :=
  match s with
  | String c s' => if is_space c then trimStart s' else s
  | EmptyString => EmptyString
  end.

(** [trimEnd] keeps a character when it is not white space or when something
    is kept after it. *)
Fixpoint trimEnd (s : string) : string :=
  match s with
  | EmptyString => EmptyString
  | String c s' =>
      match trimEnd s' with
      | EmptyString => if is_space c then EmptyString else String c EmptyString
      | t => String c t
      end
  end.

Definition trim (s : string) : string := trimEnd (trimStart s).

Definition startsWith (s p : string) : bool := String.prefix p s.

(** [s.includes(key)] *)
Fixpoint includes (s key : string) : bool :=
  String.prefix key s ||
  match s with
  | EmptyString => false
  | String _ s' => includes s' key
  end.

(** [arr.join(sep)] on an array of strings. *)
Definition join (sep : string) (l : list string) : string := String.concat sep l.

(** Longest prefix of characters satisfying [p], and the rest. *)
Fixpoint span (p : ascii -> bool) (s : string) : string * string :=
  match s with
  | String c s' =>
      if p c then let '(a, b) := span p s' in (String c a, b)
      else (EmptyString, s)
  | EmptyString => (EmptyString, EmptyString)
  end.

(** *** Numbers *)

Abbreviation number := float (only parsing).

Definition NaN : number := nan.
Definition isNaN (x : number) : bool := is_nan x.

(** The Number nearest to the rational [n/d] (ties to even, overflow to
    infinity), signed by [neg]. *)
Definition Q2F (neg : bool) (n d : positive) : number :=
  SF2Prim (SFdiv prec emax (S754_finite neg n 0) (S754_finite false d 0)).

(** The Number nearest to an integer. *)
Definition Z2F (n : Z) : number :=
  match n with
  | Z0 => 0%float
  | Zpos p => Q2F false p 1
  | Zneg p => Q2F true p 1
  end.

Definition of_nat (n : nat) : number := Z2F (Z.of_nat n).

(** [Math.round]: the integer nearest to [x], ties towards +infinity; the
    sign of a zero result follows [x]. *)
Definition Math_round (x : number) : number :=
  match Prim2SF x with
  | S754_finite s m e =>
      let v := if s then Zneg m else Zpos m in
      let n := if 0 <=? e then v * 2 ^ e
               else Z.shiftr (2 * v + 2 ^ (- e)) (1 - e) in
      if n =? 0 then (if s then (-0)%float else 0%float) else Z2F n
  | _ => x
  end.

Definition Math_abs (x : number) : number := abs x.

(** [Math.pow(x, 2)], taken as the correctly rounded square. *)
Definition Math_pow2 (x : number) : number := (x * x)%float.

(** [Math.max] of two Numbers: NaN is contagious, and [+0] is above [-0]. *)
Definition Math_max2 (x y : number) : number :=
  if isNaN x then x else if isNaN y then y
  else if (x <? y)%float then y
  else if (y <? x)%float then x
  else match Prim2SF x with S754_zero true => y | _ => x end.

(** [x || 0] on a Number: NaN and the zeros are falsy. *)
Definition or_zero (x : number) : number :=
  if isNaN x || (x =? 0)%float then 0%float else x.

(** *** Decimal text to Number *)

Definition digit_val (c : ascii) : Z := code c - 48.

Fixpoint digits_val (acc : Z) (s : string) : Z :=
  match s with
  | EmptyString => acc
  | String c s' => digits_val (10 * acc + digit_val c) s'
  end.

(** The Number for [m * 10^e] with [m >= 0]. *)
Definition dec2F (neg : bool) (m e : Z) : number :=
  match m with
  | Zpos p =>
      if 0 <=? e then Q2F neg (p * Z.to_pos (10 ^ e)) 1
      else Q2F neg p (Z.to_pos (10 ^ (- e)))
  | _ => if neg then (-0)%float else 0%float
  end.

(** An optional leading sign; [true] is negative. *)
Definition read_sign (s : string) : bool * string :=
  match s with
  | String "-" s' => (true, s')
  | String "+" s' => (false, s')
  | _ => (false, s)
  end.

(** [ExponentPart] of a decimal literal, when one is present and complete. *)
Definition read_exponent (s : string) : Z :=
  match s with
  | String c s' =>
      if (code c =? 101) || (code c =? 69) then
        let '(neg, s'') := read_sign s' in
        match span is_digit s'' with
        | (EmptyString, _) => 0
        | (ds, _) => if neg then - digits_val 0 ds else digits_val 0 ds
        end
      else 0
  | EmptyString => 0
  end.

(** [parseFloat] on a string: the longest prefix that is a
    [StrDecimalLiteral], after leading white space. *)
Definition parseFloat_string (s : string) : number :=
  let '(neg, u) := read_sign (trimStart s) in
  if startsWith u "Infinity" then (if neg then neg_infinity else infinity)
  else
    let '(ip, r1) := span is_digit u in
    match r1 with
    | String "." r2 =>
        let '(fp, r3) := span is_digit r2 in
        match ip, fp with
        | EmptyString, EmptyString => NaN
        | _, _ =>
            dec2F neg (digits_val 0 (ip ++ fp))
                  (read_exponent r3 - Z.of_nat (String.length fp))
        end
    | _ =>
        match ip with
        | EmptyString => NaN
        | _ => dec2F neg (digits_val 0 ip) (read_exponent r1)
        end
    end.

(** [parseInt(s, 10)] on a string. *)
Definition parseInt10_string (s : string) : number :=
  let '(neg, u) := read_sign (trimStart s) in
  match span is_digit u with
  | (EmptyString, _) => NaN
  | (ds, _) => dec2F neg (digits_val 0 ds) 0
  end.

Definition is_hex (c : ascii) : bool :=
  is_digit c
  || ((65 <=? code c) && (code c <=? 70))
  || ((97 <=? code c) && (code c <=? 102)).

Definition hex_val (c : ascii) : Z :=
  if is_digit c then code c - 48
  else if code c <=? 70 then code c - 55 else code c - 87.

Fixpoint hex_digits_val (acc : Z) (s : string) : Z :=
  match s with
  | EmptyString => acc
  | String c s' => hex_digits_val (16 * acc + hex_val c) s'
  end.

(** [parseInt(s)] with no radix: base 16 after a [0x] prefix, else base 10. *)
Definition parseInt_string (s : string) : number :=
  let '(neg, u) := read_sign (trimStart s) in
  match u with
  | String "0" (String x h) =>
      if (code x =? 120) || (code x =? 88) then
        match span is_hex h with
        | (EmptyString, _) => NaN
        | (ds, _) => dec2F neg (hex_digits_val 0 ds) 0
        end
      else parseInt10_string s
  | _ => parseInt10_string s
  end.

(** *** Number to decimal text *)

Definition digit_char (d : Z) : ascii := ascii_of_N (Z.to_N (48 + d)).

Fixpoint Z_digits (fuel : nat) (n : Z) (acc : string) : string :=
  match fuel with
  | O => acc
  | S f =>
      let acc' := String (digit_char (n mod 10)) acc in
      if n / 10 =? 0 then acc' else Z_digits f (n / 10) acc'
  end.

(** Decimal digits of a non-negative integer. *)
Definition nat_digits (n : Z) : string :=
  Z_digits (S (Z.to_nat (Z.log2 n))) n EmptyString.

Definition Z_toString (n : Z) : string :=
  if n <? 0 then String "-" (nat_digits (- n)) else nat_digits n.

Fixpoint zeros (n : nat) : string :=
  match n with O => EmptyString | S n' => String "0" (zeros n') end.

Fixpoint take_str (n : nat) (s : string) : string :=
  match n, s with
  | S n', String c s' => String c (take_str n' s')
  | _, _ => EmptyString
  end.

Fixpoint drop_str (n : nat) (s : string) : string :=
  match n, s with
  | S n', String _ s' => drop_str n' s'
  | _, _ => s
  end.

Section Shortest.
(** The positive finite Number [x], whose exact value is [num/den]. *)
Variable x : number.
Variables num den : Z.

(** [num/den < 10^n] *)
Definition below_pow10 (n : Z) : bool :=
  if 0 <=? n then num <? den * 10 ^ n else num * 10 ^ (- n) <? den.

Fixpoint first_pow10 (fuel : nat) (n : Z) : Z :=
  match fuel with
  | O => n
  | S f => if below_pow10 n then n else first_pow10 f (n + 1)
  end.

(** The decimal exponent [n]: [10^(n-1) <= num/den < 10^n]. *)
Definition decimal_exponent : Z :=
  first_pow10 8 ((Z.log2 num - Z.log2 den) * 30103 / 100000 - 1).

Definition reads_back (s e : Z) : bool := (dec2F false s e =? x)%float.

(** With [k] digits: the [k]-digit integer [s] and exponent [n] such that
    [s * 10^(n-k)] reads back as [x], nearest to [x] when two do. *)
Definition candidate (n k : Z) : option (Z * Z) :=
  let e := n - k in
  let N := num * 10 ^ Z.max (- e) 0 in
  let D := den * 10 ^ Z.max e 0 in
  let lo := N / D in
  let r := N mod D in
  let hi := lo + 1 in
  let pick_hi := if hi =? 10 ^ k then (hi / 10, n + 1) else (hi, n) in
  match reads_back lo e, reads_back hi e with
  | true, true =>
      match 2 * r ?= D with
      | Lt => Some (lo, n)
      | Gt => Some pick_hi
      | Eq => if Z.even lo then Some (lo, n) else Some pick_hi
      end
  | true, false => Some (lo, n)
  | false, true => Some pick_hi
  | false, false => None
  end.

Fixpoint shortest_from (fuel : nat) (n k : Z) : Z * Z * Z :=
  match fuel with
  | O => (num * 10 ^ Z.max (k - n) 0 / (den * 10 ^ Z.max (n - k) 0), n, k)
  | S f =>
      match candidate n k with
      | Some (s, n') => (s, n', k)
      | None => shortest_from f n (k + 1)
      end
  end.

(** Digits [s], exponent [n] and digit count [k] of Number::toString. *)
Definition shortest : Z * Z * Z := shortest_from 17 decimal_exponent 1.
End Shortest.

Definition format_digits (ds : string) (n k : Z) : string :=
  if (k <=? n) && (n <=? 21) then ds ++ zeros (Z.to_nat (n - k))
  else if (0 <? n) && (n <=? 21) then
    take_str (Z.to_nat n) ds ++ "." ++ drop_str (Z.to_nat n) ds
  else if (-6 <? n) && (n <=? 0) then "0." ++ zeros (Z.to_nat (- n)) ++ ds
  else
    let e := n - 1 in
    let es := (if e <? 0 then "-" else "+") ++ nat_digits (Z.abs e) in
    if k =? 1 then ds ++ "e" ++ es
    else take_str 1 ds ++ "." ++ drop_str 1 ds ++ "e" ++ es.

(** [Number::toString(x)] in radix 10. *)
Definition Number_toString (x : number) : string :=
  match Prim2SF x with
  | S754_nan => "NaN"
  | S754_zero _ => "0"
  | S754_infinity s => if s then "-Infinity" else "Infinity"
  | S754_finite s m e =>
      let num := Zpos m * 2 ^ Z.max e 0 in
      let den := 2 ^ Z.max (- e) 0 in
      let '(d, n, k) := shortest (abs x) num den in
      (if s then "-" else "") ++ format_digits (nat_digits d) n k
  end.

(** *** Values held in record fields *)

Inductive value :=
| JUndefined
| JNull
| JNum (x : number)
| JStr (s : string).

Definition ToString (v : value) : string :=
  match v with
  | JUndefined => "undefined"
  | JNull => "null"
  | JNum x => Number_toString x
  | JStr s => s
  end.

Definition parseFloat (v : value) : number := parseFloat_string (ToString v).
Definition parseInt10 (v : value) : number := parseInt10_string (ToString v).
Definition parseInt (v : value) : number := parseInt_string (ToString v).

(** [JSON.parse(JSON.stringify(v))] on a field value: non-finite Numbers
    are written as [null], and a negative zero as [0]. *)
Definition json_roundtrip (v : value) : value :=
  match v with
  | JNum x =>
      match Prim2SF x with
      | S754_finite _ _ _ => JNum x
      | S754_zero _ => JNum 0%float
      | _ => JNull
      end
  | _ => v
  end.

(** An element of an array of scores.  The model pushes Numbers; an array
    read back by [JSON.parse] holds [null] ([None]) where the Number
    written was not finite. *)
Abbreviation entry := (option number) (only parsing).

(** What the source does with an element of an array of scores: it reads
    it in arithmetic ([ToNumber], which takes [null] to [+0]), compares it
    with [null], and pushes a Number. *)
Class Score (A : Type) := {
  ToNumber : A -> number;
  is_null : A -> bool;
  of_number : number -> A
}.

#[export] Instance Score_entry : Score entry :=
  {| ToNumber e := match e with Some x => x | None => 0%float end;
     is_null e := match e with Some _ => false | None => true end;
     of_number x := Some x |}.

#[export] Instance Score_number : Score number :=
  {| ToNumber x := x; is_null _ := false; of_number x := x |}.

(** [JSON.parse(JSON.stringify(e))] on an element of an array of scores. *)
Definition json_entry (e : entry) : entry :=
  match e with
  | Some x =>
      match Prim2SF x with
      | S754_finite _ _ _ => Some x
      | S754_zero _ => Some 0%float
      | _ => None
      end
  | None => None
  end.

End Js.

(** ** Regular expressions

    A backtracking matcher with the priorities of the ECMAScript one:
    leftmost start position first, alternatives left to right, greedy
    repetition.  It serves [RegExp.prototype.test] and the capture groups
    read off [String.prototype.match]. *)
Module Regex.
Import Js.

Inductive regex :=
| Eps
| Chr (c : ascii)
| Class (p : ascii -> bool)
| WordB
| Seq (r1 r2 : regex)
| Alt (r1 r2 : regex)
| Star (r : regex)
| Group (i : nat) (r : regex).

(** A position in the subject: the character before it, the text after it,
    and the groups captured so far (latest first). *)
Record pos := {
  before : option ascii;
  rest : string;
  caps : list (nat * string)
}.

Definition word_before (p : pos) : bool :=
  match before p with Some c => is_word c | None => false end.

Definition word_after (p : pos) : bool :=
  match rest p with String c _ => is_word c | EmptyString => false end.

Definition advance (p : pos) (c : ascii) (s : string) : pos :=
  {| before := Some c; rest := s; caps := caps p |}.

(** The text consumed between positions [p] and [q] of one subject. *)
Definition consumed (p q : pos) : string :=
  take_str (String.length (rest p) - String.length (rest q)) (rest p).

Definition capture (i : nat) (p q : pos) : pos :=
  {| before := before q; rest := rest q;
     caps := (i, consumed p q) :: caps q |}.

(** The loop of a greedy [r*]: one more round of [body] when it consumes
    something and the rest then matches, else stop here.  [fuel] bounds the
    rounds by the length of the text left. *)
Fixpoint star_loop
    (body : pos -> (pos -> option (list (nat * string)))
            -> option (list (nat * string)))
    (k : pos -> option (list (nat * string)))
    (fuel : nat) (p : pos) : option (list (nat * string)) :=
  match fuel with
  | O => k p
  | S fuel' =>
      match body p (fun q =>
              if (String.length (rest q) <? String.length (rest p))%nat
              then star_loop body k fuel' q else None) with
      | Some c => Some c
      | None => k p
      end
  end.

(** [rmatch r p k]: match [r] at [p], then continue with [k]. *)
Fixpoint rmatch (r : regex) (p : pos)
    (k : pos -> option (list (nat * string))) : option (list (nat * string)) :=
  match r with
  | Eps => k p
  | Chr c =>
      match rest p with
      | String d s => if Ascii.eqb c d then k (advance p d s) else None
      | EmptyString => None
      end
  | Class f =>
      match rest p with
      | String d s => if f d then k (advance p d s) else None
      | EmptyString => None
      end
  | WordB => if xorb (word_before p) (word_after p) then k p else None
  | Seq r1 r2 => rmatch r1 p (fun q => rmatch r2 q k)
  | Alt r1 r2 =>
      match rmatch r1 p k with
      | Some c => Some c
      | None => rmatch r2 p k
      end
  | Star r1 => star_loop (rmatch r1) k (String.length (rest p)) p
  | Group i r1 => rmatch r1 p (fun q => k (capture i p q))
  end.

(** Try every start position from the left. *)
Fixpoint search (r : regex) (b : option ascii) (s : string)
    : option (list (nat * string)) :=
  match rmatch r {| before := b; rest := s; caps := [] |}
          (fun q => Some (caps q)) with
  | Some c => Some c
  | None =>
      match s with
      | String c s' => search r (Some c) s'
      | EmptyString => None
      end
  end.

(** [s.match(r)]: the captures of the first match, if any. *)
Definition exec (r : regex) (s : string) : option (list (nat * string)) :=
  search r None s.

(** [r.test(s)] *)
Definition test (r : regex) (s : string) : bool :=
  match exec r s with Some _ => true | None => false end.

(** [m[i]] of a match result; [None] is [undefined]. *)
Fixpoint group (i : nat) (c : list (nat * string)) : option string :=
  match c with
  | [] => None
  | (j, s) :: c' => if (i =? j)%nat then Some s else group i c'
  end.

(** Pattern syntax. *)
Fixpoint lit (s : string) : regex :=
  match s with
  | EmptyString => Eps
  | String c EmptyString => Chr c
  | String c s' => Seq (Chr c) (lit s')
  end.

Fixpoint cat (l : list regex) : regex :=
  match l with
  | [] => Eps
  | [r] => r
  | r :: l' => Seq r (cat l')
  end.

Fixpoint alt (l : list regex) : regex :=
  match l with
  | [] => Class (fun _ => false)
  | [r] => r
  | r :: l' => Alt r (alt l')
  end.

Definition plus (r : regex) : regex := Seq r (Star r).
Definition opt (r : regex) : regex := Alt r Eps.
Definition dot : regex := Class (fun c => negb (is_line_terminator c)).
Definition space : regex := Class is_space.
Definition digit : regex := Class is_digit.
Definition word : regex := Class is_word.

End Regex.

(** ** The student model ([class StudentModel]) *)
Module Model.
Import Js.

(** A student record.  Numeric fields hold whatever the form or an imported
    file put there (usually text), so they are [value]s.  [tags] and
    [performanceHistory] are [None] when the property is not an array.
    Time stamps and contact fields play no part in the logic below and are
    left out. *)
Record Student := mkStudent {
  id : string;
  firstName : string;
  lastName : string;
  email : string;
  department : string;
  year : string;
  gender : string;
  status : string;
  gpa : value;
  attendance : value;
  assignmentScore : value;
  tags : option (list string);
  performanceHistory : option (list entry)
}.

Definition set_history (s : Student) (h : option (list entry)) : Student :=
  mkStudent (id s) (firstName s) (lastName s) (email s) (department s)
            (year s) (gender s) (status s) (gpa s) (attendance s)
            (assignmentScore s) (tags s) h.

Definition set_tags (s : Student) (t : option (list string)) : Student :=
  mkStudent (id s) (firstName s) (lastName s) (email s) (department s)
            (year s) (gender s) (status s) (gpa s) (attendance s)
            (assignmentScore s) t (performanceHistory s).

(** [arr.slice(-n)]: the last [n] elements, all of them when there are fewer. *)
Definition slice_last {A} (n : nat) (l : list A) : list A :=
  drop (length l - n) l.

(** [calculatePerformanceScore(gpa, attendance, assignmentScore)] *)
Definition calculatePerformanceScore (gpa attendance assignmentScore : value)
    : number :=
  let g := parseFloat gpa in
  let a := parseFloat attendance in
  let as_ := parseFloat assignmentScore in
  let score := ((if isNaN g then 0 else g) * 10 * 0.5 +
                (if isNaN a then 0 else a) * 0.3 +
                (if isNaN as_ then 0 else as_) * 0.2)%float in
  (Math_round (score * 100) / 100)%float.

Definition score_of (s : Student) : number :=
  calculatePerformanceScore (gpa s) (attendance s) (assignmentScore s).

(** [_ensurePerformanceHistory(student)] *)
Definition _ensurePerformanceHistory (s : Student) : list entry :=
  let history := match performanceHistory s with Some h => h | None => [] end in
  let currentScore := score_of s in
  let history :=
    match history with [] => [Some currentScore] | _ => history end in
  slice_last 5 history.

Inductive Trend := up | down | stable.
Inductive Consistency := high | low.

(** [arr[i]] on an array of scores, as arithmetic reads it; out of range
    reads [undefined], which arithmetic turns into NaN. *)
Definition at_index `{Score A} (arr : list A) (i : nat) : number :=
  match arr !! i with Some x => ToNumber x | None => NaN end.

(** [getPerformanceTrend(performanceHistory)] *)
Definition getPerformanceTrend `{Score A} (performanceHistory : option (list A))
    : Trend :=
  let arr := match performanceHistory with
             | Some h => slice_last 3 h
             | None => []
             end in
  if (length arr <? 2)%nat then stable
  else
    let first := at_index arr 0 in
    let last := at_index arr (length arr - 1) in
    let diff := (last - first)%float in
    if (0.05 <? diff)%float then up
    else if (diff <? -0.05)%float then down
    else stable.

(** [arr.reduce((a, b) => a + b, 0)] *)
Definition sum `{Score A} (arr : list A) : number :=
  fold_left (fun a b => (a + ToNumber b)%float) arr 0%float.

(** [getPerformanceConsistency(performanceHistory)] *)
Definition getPerformanceConsistency `{Score A}
    (performanceHistory : option (list A)) : Consistency :=
  let arr := match performanceHistory with
             | Some h => slice_last 5 h
             | None => []
             end in
  if (length arr <? 2)%nat then high
  else
    let mean := (sum arr / of_nat (length arr))%float in
    let variance :=
      (fold_left (fun sum v => sum + Math_pow2 (ToNumber v - mean)) arr 0
       / of_nat (length arr))%float in
    if (variance <=? 2)%float then high else low.

(** The history written by [updateStudent] (its lines on [prevHistory]):
    the previous history with the new score pushed when there is no last
    score, when the last element is [null], or when the score moved by
    more than 0.001; cut to its last five. *)
Definition appendSample `{Score A} (prev : option (list A)) (newScore : number)
    : list A :=
  let prevHistory := match prev with Some h => h | None => [] end in
  let lastScore := last prevHistory in
  match lastScore with
  | None => slice_last 5 (prevHistory ++ [of_number newScore])
  | Some lastScore =>
      if is_null lastScore
         || (0.001 <? Math_abs (newScore - ToNumber lastScore))%float
      then slice_last 5 (prevHistory ++ [of_number newScore])
      else slice_last 5 prevHistory
  end.

(** [getPerformanceAnalysis(student)]: the labels of the detail view. *)
Record Analysis := {
  trend : Trend;
  trendLabel : string;
  consistency : Consistency;
  consistencyLabel : string;
  history : list entry
}.

Definition getPerformanceAnalysis (s : Student) : Analysis :=
  let history := _ensurePerformanceHistory s in
  let trend := getPerformanceTrend (Some history) in
  let consistency := getPerformanceConsistency (Some history) in
  let trendLabel :=
    match trend with
    | up =>
        let n := Nat.min 3 (length history) in
        if (2 <=? n)%nat
        then "Performance is improving over last "
             ++ Z_toString (Z.of_nat n) ++ " update"
             ++ (if (1 <? n)%nat then "s" else "") ++ "."
        else "Performance is improving."
    | down => "Performance shows slight decline."
    | stable => "Performance is stable."
    end in
  let consistencyLabel :=
    match consistency with
    | high => "Highly Consistent"
    | low => "Inconsistent Performance"
    end in
  {| trend := trend; trendLabel := trendLabel; consistency := consistency;
     consistencyLabel := consistencyLabel; history := history |}.

(** *** The store

    Student objects live in [heap]; a location is an index into it.
    [students] is the array [this.students]; [students_db] is the entry of
    [localStorage] under the model's storage key, as [JSON.parse] reads it
    back ([None] when the key is absent). *)

Abbreviation loc := nat (only parsing).

Record State := mkState {
  heap : list Student;
  students : list loc;
  nextId : number;
  students_db : option (list Student)
}.

Definition blank : Student :=
  mkStudent "" "" "" "" "" "" "" "" JUndefined JUndefined JUndefined None None.

Definition read (h : list Student) (l : loc) : Student := default blank (h !! l).

(** The records of the store, in array order. *)
Definition records (st : State) : list Student :=
  map (read (heap st)) (students st).

(** [Utils.deepClone(s)]: a record after [JSON.stringify] and [JSON.parse].
    Strings and arrays of strings come back as they were; a Number, in a
    field or in the history, comes back as JSON writes it. *)
Definition deepClone (s : Student) : Student :=
  mkStudent (id s) (firstName s) (lastName s) (email s) (department s)
            (year s) (gender s) (status s)
            (json_roundtrip (gpa s)) (json_roundtrip (attendance s))
            (json_roundtrip (assignmentScore s))
            (tags s) (map json_entry <$> performanceHistory s).

(** [saveToStorage()] *)
Definition saveToStorage (st : State) : State :=
  mkState (heap st) (students st) (nextId st)
          (Some (map deepClone (records st))).

(** One turn of the loop of [_migratePerformanceHistory]: the migrated
    record, and whether [changed] is set. *)
Definition migrate_record (s : Student) : Student * bool :=
  match performanceHistory s with
  | Some (x :: h) => (set_history s (Some (slice_last 5 (x :: h))), false)
  | _ => (set_history s (Some [Some (score_of s)]), true)
  end.

Fixpoint migrate_each (ls : list loc) (h : list Student) (changed : bool)
    : list Student * bool :=
  match ls with
  | [] => (h, changed)
  | l :: ls' =>
      let '(s', c) := migrate_record (read h l) in
      migrate_each ls' (<[l := s']> h) (changed || c)
  end.

(** [_migratePerformanceHistory()] *)
Definition _migratePerformanceHistory (st : State) : State :=
  let '(h, changed) := migrate_each (students st) (heap st) false in
  let st' := mkState h (students st) (nextId st) (students_db st) in
  if changed then saveToStorage st' else st'.

(** [parts[parts.length - 1]] of [s.split('-')] *)
Fixpoint last_segment (acc s : string) : string :=
  match s with
  | EmptyString => acc
  | String c s' =>
      if Ascii.eqb c "-" then last_segment "" s'
      else last_segment (acc ++ String c "") s'
  end.

(** [_getNextAvailableId()] *)
Definition _getNextAvailableId (st : State) : number :=
  match students st with
  | [] => 1%float
  | _ =>
      let max :=
        fold_left (fun max s =>
                     if String.eqb (id s) "" then max
                     else
                       let num := parseInt10_string (last_segment "" (id s)) in
                       if negb (isNaN num) && (max <? num)%float then num
                       else max)
                  (records st) 0%float in
      (max + 1)%float
  end.

Definition set_nextId (st : State) (n : number) : State :=
  mkState (heap st) (students st) n (students_db st).

(** [Utils.normalizeTag] and [Utils.normalizeTags] *)
Definition PREDEFINED_TAGS : list string :=
  [ "Scholarship Candidate"; "Sports Captain"; "Placement Ready";
    "Needs Attention"; "Dean's List"; "Research Assistant"; "Club Leader";
    "Mentorship Program" ].

Definition normalizeTag (tag : string) : string :=
  let t := trim tag in
  if String.eqb t "" then ""
  else
    match find (fun p => String.eqb (toLowerCase p) (toLowerCase t))
               PREDEFINED_TAGS with
    | Some found => found
    | None => t
    end.

(** Keep the first occurrence of each element. *)
Fixpoint dedupe (seen l : list string) : list string :=
  match l with
  | [] => []
  | t :: l' =>
      if existsb (String.eqb t) seen then dedupe seen l'
      else t :: dedupe (t :: seen) l'
  end.

Definition normalizeTags (tags : list string) : list string :=
  dedupe [] (List.filter (fun t => negb (String.eqb t ""))
                         (map normalizeTag tags)).

(** [emailExists(email, excludeId)] *)
Definition emailExists (st : State) (mail : string) (excludeId : option string)
    : bool :=
  existsb (fun s =>
             let excluded :=
               match excludeId with
               | Some e => negb (String.eqb e "") && String.eqb (id s) e
               | None => false
               end in
             if excluded then false
             else negb (String.eqb (email s) "")
                  && String.eqb (toLowerCase (email s)) (toLowerCase mail))
          (records st).

(** [arr.findIndex(p)] *)
Fixpoint findIndex {A} (p : A -> bool) (l : list A) : option nat :=
  match l with
  | [] => None
  | x :: l' => if p x then Some O else S <$> findIndex p l'
  end.

(** The outcome of a method that may throw. *)
Inductive result (A : Type) :=
| Ok (a : A)
| Throw (msg : string).
Arguments Ok {A} a.
Arguments Throw {A} msg.

(** The fields of the registration form handed to [addStudent]. *)
Record StudentData := {
  d_firstName : string;
  d_lastName : string;
  d_email : string;
  d_department : string;
  d_year : string;
  d_gender : string;
  d_gpa : value;
  d_attendance : value;
  d_assignmentScore : value;
  d_tags : option (list string)
}.

(** The fields of the edit form handed to [updateStudent]; [None] is a key
    that is absent.  [u_tags] is [Some None] for a value that is not an
    array. *)
Record Updates := {
  u_firstName : option string;
  u_lastName : option string;
  u_email : option string;
  u_department : option string;
  u_year : option string;
  u_gender : option string;
  u_gpa : option value;
  u_attendance : option value;
  u_assignmentScore : option value;
  u_tags : option (option (list string))
}.

(** [{ ...student, ...updates }] *)
Definition merge (s : Student) (u : Updates) : Student :=
  mkStudent (id s)
            (default (firstName s) (u_firstName u))
            (default (lastName s) (u_lastName u))
            (default (email s) (u_email u))
            (default (department s) (u_department u))
            (default (year s) (u_year u))
            (default (gender s) (u_gender u))
            (status s)
            (default (gpa s) (u_gpa u))
            (default (attendance s) (u_attendance u))
            (default (assignmentScore s) (u_assignmentScore u))
            (default (tags s) (u_tags u))
            (performanceHistory s).

Definition normalize_update_tags (u : Updates) : Updates :=
  {| u_firstName := u_firstName u; u_lastName := u_lastName u;
     u_email := u_email u; u_department := u_department u;
     u_year := u_year u; u_gender := u_gender u; u_gpa := u_gpa u;
     u_attendance := u_attendance u;
     u_assignmentScore := u_assignmentScore u;
     u_tags := match u_tags u with
               | Some (Some t) => Some (Some (normalizeTags t))
               | other => other
               end |}.

(** [updateStudent(id, updates)] *)
Definition updateStudent (sid : string) (updates : Updates) (st : State)
    : result loc * State :=
  match findIndex (fun s => String.eqb (id s) sid) (records st) with
  | None => (Throw "Student not found", st)
  | Some index =>
      let old := read (heap st) (default O (students st !! index)) in
      let clash :=
        match u_email updates with
        | Some e =>
            negb (String.eqb e "") && negb (String.eqb e (email old))
            && emailExists st e (Some sid)
        | None => false
        end in
      if clash then (Throw "Email already registered", st)
      else
        let updates := normalize_update_tags updates in
        let merged := merge old updates in
        let newScore := score_of merged in
        let merged :=
          set_history merged
            (Some (appendSample (performanceHistory merged) newScore)) in
        let l := length (heap st) in
        let st' := mkState (heap st ++ [merged]) (<[index := l]> (students st))
                           (nextId st) (students_db st) in
        (Ok l, saveToStorage st')
  end.

(** The model as [importFromJSON] leaves it.  [half_migrated elements st]:
    [this.students] is the array [elements], in which [None] is an element
    that is not an object; the id counter and the stored list are those of
    [st].  This model follows such a store no further. *)
Inductive Imported :=
| objects_only (st : State)
| half_migrated (elements : list (option Student)) (st : State).

Coercion objects_only : State >-> Imported.

(** The objects of an array, when all its elements are objects. *)
Fixpoint all_objects (elements : list (option Student)) : option (list Student) :=
  match elements with
  | [] => Some []
  | Some s :: rest => (fun l => s :: l) <$> all_objects rest
  | None :: _ => None
  end.

(** The loop of [_migratePerformanceHistory] over an array with an element
    that is not an object: reading [performanceHistory] of [null], or
    writing it on a Number or a string (the class body is strict code),
    throws, and the loop ends there. *)
Fixpoint migrate_until_throw (elements : list (option Student))
    : list (option Student) :=
  match elements with
  | Some s :: rest => Some (migrate_record s).1 :: migrate_until_throw rest
  | _ => elements
  end.

(** [importFromJSON(data)]; [data] is [data.students] when that is an
    array.  The array becomes [this.students] before it is migrated, and
    [catch] swallows what the migration throws: the method then answers
    [false] with the array in place, migrated as far as the loop came,
    the id counter not computed and nothing saved.  When every element is
    an object nothing throws, and the objects become the store's own. *)
Definition importFromJSON (data : option (list (option Student))) (st : State)
    : bool * Imported :=
  match data with
  | None => (false, objects_only st)
  | Some elements =>
      match all_objects elements with
      | Some recs =>
          let st1 := mkState (heap st ++ recs)
                             (seq (length (heap st)) (length recs))
                             (nextId st) (students_db st) in
          let st2 := _migratePerformanceHistory st1 in
          let st3 := set_nextId st2 (_getNextAvailableId st2) in
          (true, objects_only (saveToStorage st3))
      | None => (false, half_migrated (migrate_until_throw elements) st)
      end
  end.

(** [new StudentModel()] over the stored list. *)
Definition construct (stored : option (list Student)) : State :=
  let recs := default [] stored in
  let st1 := mkState recs (seq 0 (length recs)) 0%float stored in
  let st2 := _migratePerformanceHistory st1 in
  set_nextId st2 (_getNextAvailableId st2).

Section Environment.
(** [validateStudent] reads the clock (through [Utils.isValidDOB]) and
    form fields outside this model, and [Utils.generateStudentID] reads
    the current year: both are taken from the environment. *)
Variable validateStudent : StudentData -> bool.
Variable generateStudentID : number -> string.

(** [addStudent(studentData)] *)
Definition addStudent (studentData : StudentData) (st : State)
    : result loc * State :=
  if negb (validateStudent studentData) then (Throw "Invalid student data", st)
  else if emailExists st (d_email studentData) None
  then (Throw "Email already registered", st)
  else
    let tags := normalizeTags (default [] (d_tags studentData)) in
    let student :=
      mkStudent (generateStudentID (nextId st))
                (d_firstName studentData) (d_lastName studentData)
                (d_email studentData) (d_department studentData)
                (d_year studentData) (d_gender studentData) "Active"
                (d_gpa studentData) (d_attendance studentData)
                (d_assignmentScore studentData) (Some tags) None in
    let initialScore := score_of student in
    let student := set_history student (Some [Some initialScore]) in
    let l := length (heap st) in
    let st' := mkState (heap st ++ [student]) (students st ++ [l])
                       (nextId st + 1)%float (students_db st) in
    (Ok l, saveToStorage st').

(** The states a model goes through while its array holds objects: built
    over some stored list, then any run of [addStudent], [updateStudent]
    and [importFromJSON] (an import whose migration throws ends the
    run). *)
Inductive reachable : State -> Prop :=
| reach_construct stored : reachable (construct stored)
| reach_add data st : reachable st -> reachable (addStudent data st).2
| reach_update sid u st : reachable st -> reachable (updateStudent sid u st).2
| reach_import data st b st' :
    reachable st -> importFromJSON data st = (b, objects_only st') ->
    reachable st'.
End Environment.

(** [getAllStudents()]: a deep clone of the array, then one fresh object
    per record with its tags normalized and its history present. *)
Definition present (s : Student) : Student :=
  set_history
    (set_tags s (Some (normalizeTags (default [] (tags s)))))
    (Some (_ensurePerformanceHistory s)).

Definition getAllStudents (st : State) : list loc * State :=
  let clones := map deepClone (records st) in
  let l1 := length (heap st) in
  let h1 := (heap st ++ clones)%list in
  let shown := map present (map (read h1) (seq l1 (length clones))) in
  let l2 := length h1 in
  (seq l2 (length shown),
   mkState (h1 ++ shown) (students st) (nextId st) (students_db st)).

(** [getStudentById(id)] *)
Definition getStudentById (sid : string) (st : State) : option loc * State :=
  match List.find (fun s => String.eqb (id s) sid) (records st) with
  | None => (None, st)
  | Some s =>
      let clone := deepClone s in
      (Some (length (heap st)),
       mkState (heap st ++ [present clone]) (students st) (nextId st)
               (students_db st))
  end.

(** *** Statistics ([Utils.calculateStats] and the distributions) *)

(** Occurrence counts per key, in order of first occurrence. *)
Fixpoint bump (k : string) (m : list (string * nat)) : list (string * nat) :=
  match m with
  | [] => [(k, 1%nat)]
  | (k', n) :: m' =>
      if String.eqb k k' then (k', S n) :: m' else (k', n) :: bump k m'
  end.

Definition count_by (key : Student -> string) (l : list Student)
    : list (string * nat) :=
  fold_left (fun m s => bump (key s) m) l [].

(** A key that is an array index: canonical decimal text below [2^32 - 1]. *)
Definition array_index (k : string) : option Z :=
  match k with
  | EmptyString => None
  | String c k' =>
      if forallb is_digit (list_ascii_of_string k)
         && (negb (Ascii.eqb c "0") || String.eqb k' "")
         && (digits_val 0 k <? 2 ^ 32 - 1)
      then Some (digits_val 0 k) else None
  end.

Fixpoint insert_by_index {A} (i : Z) (x : A) (l : list (Z * A)) : list (Z * A) :=
  match l with
  | [] => [(i, x)]
  | (j, y) :: l' =>
      if i <? j then (i, x) :: l else (j, y) :: insert_by_index i x l'
  end.

(** [Object.entries(o)] for an object built by assignments in the order of
    [m]: array-index keys first, ascending, then the others as inserted. *)
Definition Object_entries {A} (m : list (string * A)) : list (string * A) :=
  let indexed :=
    fold_left (fun acc kv =>
                 match array_index kv.1 with
                 | Some i => insert_by_index i kv acc
                 | None => acc
                 end) m [] in
  (map snd indexed ++
   List.filter (fun kv => match array_index kv.1 with
                          | Some _ => false
                          | None => true
                          end) m)%list.

Definition distribution (key : Student -> string) (l : list Student)
    : list (string * nat) :=
  Object_entries (count_by key l).

Definition count {A} (p : A -> bool) (l : list A) : nat :=
  length (List.filter p l).

Definition getGPADistribution (l : list Student) : list (string * nat) :=
  let g s := parseFloat (gpa s) in
  [ ("3.5-4.0", count (fun s => (3.5 <=? g s)%float) l);
    ("3.0-3.5", count (fun s => negb (3.5 <=? g s)%float
                                && (3.0 <=? g s)%float) l);
    ("2.5-3.0", count (fun s => negb (3.5 <=? g s)%float
                                && negb (3.0 <=? g s)%float
                                && (2.5 <=? g s)%float) l);
    ("2.0-2.5", count (fun s => negb (3.5 <=? g s)%float
                                && negb (3.0 <=? g s)%float
                                && negb (2.5 <=? g s)%float) l) ].

Definition getAttendanceDistribution (l : list Student) : list (string * nat) :=
  let a s := parseInt (attendance s) in
  [ ("90-100%", count (fun s => (90 <=? a s)%float) l);
    ("80-90%", count (fun s => negb (90 <=? a s)%float
                               && (80 <=? a s)%float) l);
    ("70-80%", count (fun s => negb (90 <=? a s)%float
                               && negb (80 <=? a s)%float
                               && (70 <=? a s)%float) l);
    ("Below 70%", count (fun s => negb (90 <=? a s)%float
                                  && negb (80 <=? a s)%float
                                  && negb (70 <=? a s)%float) l) ].

(** The result of [getStatistics()].  [registrationTrend] buckets enrolment
    dates against the clock and is left out; nothing below reads it. *)
Record Statistics := {
  totalStudents : nat;
  activeStudents : nat;
  departmentCount : nat;
  avgAttendance : number;
  departmentDistribution : list (string * nat);
  yearDistribution : list (string * nat);
  genderDistribution : list (string * nat);
  gpaDistribution : list (string * nat);
  attendanceDistribution : list (string * nat)
}.

(** [getStatistics()]: computed over [this.students] itself, by reading. *)
Definition getStatistics (st : State) : Statistics :=
  let l := records st in
  {| totalStudents := length l;
     activeStudents := count (fun s => String.eqb (status s) "Active") l;
     departmentCount := length (dedupe [] (map department l));
     avgAttendance :=
       if (0 <? length l)%nat
       then Math_round
              (fold_left (fun sum s => sum + parseInt (attendance s)) l 0
               / of_nat (length l))%float
       else 0%float;
     departmentDistribution := distribution department l;
     yearDistribution := distribution year l;
     genderDistribution := distribution gender l;
     gpaDistribution := getGPADistribution l;
     attendanceDistribution := getAttendanceDistribution l |}.

End Model.

(** ** The assistant ([class AssistantModel]) *)
Module Assistant.
Import Js Regex Model.

Definition riskAttendanceThreshold : number := 70%float.
Definition riskGPAThreshold : number := 2.5%float.

(** [getStudents()] and [getStats()]; the global [model] is defined. *)
Definition getStudents (st : State) : list loc * State := getAllStudents st.
Definition getStats (st : State) : Statistics := getStatistics st.

(** [students.filter(p)] over objects read from the heap. *)
Definition filter_objects (p : Student -> bool) (r : list loc * State)
    : list loc * State :=
  (List.filter (fun l => p (read (heap r.2) l)) r.1, r.2).

Definition is_at_risk (s : Student) : bool :=
  let att := parseInt10 (attendance s) in
  let gpa := parseFloat (gpa s) in
  (negb (isNaN att) && (att <? riskAttendanceThreshold)%float)
  || (negb (isNaN gpa) && (gpa <? riskGPAThreshold)%float).

(** [getAtRiskStudents()] *)
Definition getAtRiskStudents (st : State) : list loc * State :=
  filter_objects is_at_risk (getStudents st).

(** [getStudentsByDepartment(deptName)] *)
Definition getStudentsByDepartment (deptName : string) (st : State)
    : list loc * State :=
  let students := getStudents st in
  let term := toLowerCase (trim deptName) in
  if String.eqb term "" then students
  else filter_objects
         (fun s => includes (toLowerCase (department s)) term) students.

(** [getHighestGPAStudents()] *)
Definition getHighestGPAStudents (st : State) : list loc * State :=
  let students := getStudents st in
  match students.1 with
  | [] => ([], students.2)
  | _ =>
      let maxGpa :=
        fold_left Math_max2
          (map (fun l => or_zero (parseFloat (gpa (read (heap students.2) l))))
               students.1)
          neg_infinity in
      filter_objects (fun s => (parseFloat (gpa s) =? maxGpa)%float) students
  end.

(** [getLowAttendanceStudents(threshold)] *)
Definition getLowAttendanceStudents (threshold : option number) (st : State)
    : list loc * State :=
  let t := match threshold with
           | Some x => parseInt10 (JNum x)
           | None => 70%float
           end in
  filter_objects
    (fun s => let att := parseInt10 (attendance s) in
              negb (isNaN att) && (att <? t)%float)
    (getStudents st).

Definition is_placement_ready (s : Student) : bool :=
  let placementTag := "Placement Ready" in
  let hasTag :=
    match tags s with
    | Some ts => existsb (fun t => String.eqb (toLowerCase t)
                                              (toLowerCase placementTag)) ts
    | None => false
    end in
  let gpa := or_zero (parseFloat (gpa s)) in
  let att := or_zero (parseInt10 (attendance s)) in
  let highPerformer := (3.5 <=? gpa)%float && (85 <=? att)%float in
  hasTag || highPerformer.

(** [getPlacementReadyStudents()] *)
Definition getPlacementReadyStudents (st : State) : list loc * State :=
  filter_objects is_placement_ready (getStudents st).

(** [findStudentByName(firstName)] *)
Definition findStudentByName (name : string) (st : State)
    : option loc * State :=
  let term := toLowerCase (trim name) in
  if String.eqb term "" then (None, st)
  else
    let students := getStudents st in
    (List.find (fun l => let s := read (heap students.2) l in
                         includes (toLowerCase (firstName s)) term
                         || includes (toLowerCase (lastName s)) term)
               students.1,
     students.2).

(** [getStudentTrendSummary(student)] *)
Definition getStudentTrendSummary (s : Student) : string :=
  let history := _ensurePerformanceHistory s in
  let trend := getPerformanceTrend (Some history) in
  let name := trim (firstName s ++ " " ++ lastName s) in
  match trend with
  | up => name ++ " is improving. Performance has gone up over recent updates."
  | down => name ++ " shows a declining trend in the last few records. Consider reaching out."
  | stable => name ++ " has been stable recently with no significant change in performance."
  end.

(** The first entry with the largest count: [dist.slice().sort(...)[0]]
    under a stable sort. *)
Fixpoint top_count (best : string * nat) (l : list (string * nat))
    : string * nat :=
  match l with
  | [] => best
  | d :: l' => top_count (if (best.2 <? d.2)%nat then d else best) l'
  end.

Definition show_nat (n : nat) : string := Z_toString (Z.of_nat n).

(** [getDepartmentComparison()] *)
Definition getDepartmentComparison (st : State)
    : string * list (string * nat) :=
  let stats := getStats st in
  match departmentDistribution stats with
  | [] => ("No department data available.", [])
  | d :: dist' =>
      let dist := d :: dist' in
      let total := fold_left (fun s d => (s + d.2)%nat) dist O in
      let top := top_count d dist' in
      ("There are " ++ show_nat (length dist) ++ " department(s) with "
       ++ show_nat total ++ " total students. "
       ++ top.1 ++ " has the most students (" ++ show_nat top.2 ++ ").",
       dist)
  end.

(** [getOverallPerformanceSummary()] *)
Definition getOverallPerformanceSummary (st : State) : string * State :=
  let students := getStudents st in
  let stats := getStats students.2 in
  match students.1 with
  | [] => ("There are no students in the system yet. Add students to see analytics.",
           students.2)
  | _ =>
      let atRisk := getAtRiskStudents students.2 in
      let placementReady := getPlacementReadyStudents atRisk.2 in
      let msg :=
        "You have **" ++ show_nat (totalStudents stats) ++ "** students across **"
        ++ show_nat (departmentCount stats) ++ "** departments. "
        ++ "Average attendance is **" ++ Number_toString (avgAttendance stats)
        ++ "%**. " in
      let msg :=
        if (0 <? length atRisk.1)%nat
        then msg ++ show_nat (length atRisk.1)
                 ++ " student(s) are currently at risk (low GPA or attendance). "
        else msg in
      let msg :=
        if (0 <? length placementReady.1)%nat
        then msg ++ show_nat (length placementReady.1)
                 ++ " are placement-ready or high performers."
        else msg ++ "Consider tagging placement-ready students for tracking." in
      (msg, placementReady.2)
  end.

Definition dquote : string := String (ascii_of_N 34) "".

(** [getAutoAlertSuggestion()] *)
Definition getAutoAlertSuggestion (st : State) : option string * State :=
  let atRisk := getAtRiskStudents st in
  match atRisk.1 with
  | [] => (None, atRisk.2)
  | _ =>
      let n := length atRisk.1 in
      (Some ("There " ++ (if (n =? 1)%nat then "is" else "are") ++ " **"
             ++ show_nat n ++ "** student" ++ (if (n =? 1)%nat then "" else "s")
             ++ " needing mentor attention. Ask me " ++ dquote
             ++ "Who is at risk?" ++ dquote
             ++ " or use **/risk** to see them."),
       atRisk.2)
  end.

(** *** Interpreting a query *)

Module Intent.
Inductive t :=
| summary
| at_risk
| department
| highest_gpa
| low_attendance
| placement_ready
| student_trend
| department_comparison
| alerts
| unknown.
End Intent.

(** The [params] object: a key that is absent is [None]. *)
Record Params := {
  p_department : option string;
  p_threshold : option number;
  p_firstName : option string
}.

Definition no_params : Params :=
  {| p_department := None; p_threshold := None; p_firstName := None |}.

Record Interpreted := {
  intent : Intent.t;
  params : Params;
  rawQuery : string
}.

(** The patterns of [interpretQuery].  They carry the flag [i] and are
    tested against lowercased text, so characters compare exactly. *)
Definition re_at_risk : regex :=
  alt [ cat [WordB; lit "how many"; WordB; Star dot; WordB;
             opt (Group 1 (lit "at ")); lit "risk"; WordB];
        cat [WordB; lit "at risk"; WordB];
        cat [WordB; lit "students at risk"; WordB];
        cat [WordB; lit "risk count"; WordB] ].

Definition re_department : regex :=
  alt [ cat [WordB; lit "show"; WordB; Star dot; WordB; lit "engineering"; WordB];
        cat [WordB; lit "engineering"; plus space; lit "students"; WordB];
        cat [WordB;
             Group 1 (alt [cat [lit "computer"; plus space; lit "science"];
                           lit "business"; lit "arts"; lit "science"]);
             plus space; lit "students"; WordB] ].

Definition re_highest_gpa : regex :=
  alt [ cat [WordB; lit "who"; plus space; lit "has"; plus space;
             opt (Group 1 (cat [lit "the"; plus space]));
             lit "highest"; plus space; lit "gpa"; WordB];
        cat [WordB; lit "highest"; plus space; lit "gpa"; WordB];
        cat [WordB; lit "top"; plus space; lit "gpa"; WordB];
        cat [WordB; lit "best"; plus space; lit "gpa"; WordB] ].

Definition re_low_attendance : regex :=
  alt [ cat [WordB; lit "attendance"; plus space; lit "below"; plus space;
             Group 1 (plus digit); Star space; opt (Chr "%")];
        cat [WordB; lit "below"; plus space; Group 2 (plus digit); Star space;
             Chr "%"; Star space; lit "attendance"; WordB];
        cat [WordB; lit "low"; plus space; lit "attendance"; WordB] ].

Definition re_threshold : regex :=
  cat [Group 1 (plus digit); Star space; opt (Chr "%")].

Definition re_summary : regex :=
  alt [ cat [WordB; lit "overall"; plus space; lit "performance"; plus space;
             lit "summary"; WordB];
        cat [WordB; lit "performance"; plus space; lit "summary"; WordB];
        cat [WordB; lit "summary"; WordB] ].

Definition re_placement : regex :=
  alt [ cat [WordB; lit "placement"; plus space; lit "ready"; WordB];
        cat [WordB; lit "placement"; plus space; lit "students"; WordB] ].

Definition re_trend : regex :=
  alt [ cat [WordB; lit "is"; plus space; Group 1 (plus word); plus space;
             lit "improving"; WordB];
        cat [WordB; Group 2 (plus word); plus space; lit "improvement"; WordB];
        cat [WordB; lit "how"; plus space; lit "is"; plus space;
             Group 3 (plus word); plus space; lit "doing"; WordB] ].

Definition re_trend_name : regex :=
  alt [ cat [WordB; opt (Group 1 (cat [lit "is"; plus space]));
             Group 2 (plus word); plus space; lit "improving"; WordB];
        cat [WordB; Group 3 (plus word); plus space; lit "improvement"; WordB];
        cat [WordB; lit "how"; plus space; lit "is"; plus space;
             Group 4 (plus word); plus space; lit "doing"; WordB] ].

Definition re_comparison : regex :=
  alt [ cat [WordB; lit "department"; plus space; lit "comparison"; WordB];
        cat [WordB; lit "compare"; plus space; lit "departments"; WordB];
        cat [WordB; lit "which"; plus space; lit "department"; plus space;
             lit "has"; plus space; lit "most"; WordB] ].

Definition re_alerts : regex :=
  alt [ cat [WordB; lit "alert"; opt (Chr "s"); WordB];
        cat [WordB; lit "attention"; WordB];
        cat [WordB; lit "need"; plus space; lit "mentor"; WordB] ].

(** The keyword table of [_extractDepartment], in the order of its keys. *)
Definition department_map : list (string * string) :=
  [ ("engineering", "Engineering");
    ("computer science", "Computer Science");
    ("cs", "Computer Science");
    ("business", "Business");
    ("arts", "Arts");
    ("science", "Science") ].

(** [_extractDepartment(lower)] *)
Definition _extractDepartment (lower : string) : string :=
  match List.find (fun kv => includes lower kv.1) (Object_entries department_map) with
  | Some kv => kv.2
  | None => "Engineering"
  end.

(** A captured group that is present and not empty: the operands of [||]. *)
Definition truthy (g : option string) : option string :=
  match g with
  | Some s => if String.eqb s "" then None else Some s
  | None => None
  end.

(** [interpretQuery(rawQuery)] *)
Definition interpretQuery (rawQuery : string) : Interpreted :=
  let q := trim rawQuery in
  let lower := toLowerCase q in
  let answer i p := {| intent := i; params := p; rawQuery := q |} in
  if String.eqb lower "/summary" then answer Intent.summary no_params
  else if String.eqb lower "/risk" then answer Intent.at_risk no_params
  else if String.eqb lower "/top" then answer Intent.highest_gpa no_params
  else if String.eqb lower "/alerts" then answer Intent.alerts no_params
  else if test re_at_risk lower then answer Intent.at_risk no_params
  else if test re_department lower then
    let dept := _extractDepartment lower in
    answer Intent.department
           {| p_department := Some dept; p_threshold := None;
              p_firstName := None |}
  else if test re_highest_gpa lower then answer Intent.highest_gpa no_params
  else if test re_low_attendance lower then
    let threshold :=
      match exec re_threshold lower with
      | Some m => parseInt10_string (default "" (group 1 m))
      | None => 70%float
      end in
    answer Intent.low_attendance
           {| p_department := None; p_threshold := Some threshold;
              p_firstName := None |}
  else if test re_summary lower && negb (startsWith lower "/")
  then answer Intent.summary no_params
  else if test re_placement lower then answer Intent.placement_ready no_params
  else if test re_trend lower then
    let name :=
      match exec re_trend_name lower with
      | Some m =>
          match truthy (group 2 m), truthy (group 3 m), truthy (group 4 m) with
          | Some n, _, _ => n
          | None, Some n, _ => n
          | None, None, Some n => n
          | None, None, None => ""
          end
      | None => ""
      end in
    answer Intent.student_trend
           {| p_department := None; p_threshold := None;
              p_firstName := Some name |}
  else if test re_comparison lower
  then answer Intent.department_comparison no_params
  else if test re_alerts lower then answer Intent.alerts no_params
  else answer Intent.unknown no_params.

(** *** Answering *)

Inductive Action :=
| filter_at_risk
| filter_department (department : string)
| filter_tag (tag : string).

Record Response := {
  text : string;
  action : option Action
}.

Definition say (t : string) : Response := {| text := t; action := None |}.

(** [`${s.firstName} ${s.lastName} (${s.id})`] *)
Definition name_and_id (s : Student) : string :=
  firstName s ++ " " ++ lastName s ++ " (" ++ id s ++ ")".

Definition objects (r : list loc * State) : list Student :=
  map (read (heap r.2)) r.1.

Definition help_text : string :=
  "I can help with:

• **At risk** — " ++ dquote ++ "How many students are at risk?" ++ dquote ++ " or /risk
" ++ "• **Department** — " ++ dquote ++ "Show Engineering students" ++ dquote ++ "
" ++ "• **Top performer** — " ++ dquote ++ "Who has highest GPA?" ++ dquote ++ " or /top
" ++ "• **Attendance** — " ++ dquote ++ "Students with attendance below 70%" ++ dquote ++ "
" ++ "• **Summary** — " ++ dquote ++ "Overall performance summary" ++ dquote ++ " or /summary
" ++ "• **Placement** — " ++ dquote ++ "Show placement ready students" ++ dquote ++ "
" ++ "• **Trend** — " ++ dquote ++ "Is Rahul improving?" ++ dquote ++ "
" ++ "• **Departments** — " ++ dquote ++ "Department comparison" ++ dquote ++ "
" ++ "• **Alerts** — /alerts".

Definition newline : string := "
".

(** [getResponse(interpreted)] *)
Definition getResponse (interpreted : Interpreted) (st : State)
    : Response * State :=
  let params := params interpreted in
  match intent interpreted with
  | Intent.summary =>
      let r := getOverallPerformanceSummary st in
      (say r.1, r.2)
  | Intent.at_risk =>
      let list := getAtRiskStudents st in
      match list.1 with
      | [] => (say "No students are currently at risk. Great job!", list.2)
      | _ =>
          let names := map name_and_id (take 10 (objects list)) in
          let more :=
            if (10 <? length list.1)%nat
            then " ... and " ++ show_nat (length list.1 - 10) ++ " more."
            else "" in
          let text :=
            "**" ++ show_nat (length list.1)
            ++ "** student(s) are at risk (attendance < 70% or GPA < 2.5):"
            ++ newline ++ newline
            ++ join newline names ++ more ++ newline ++ newline
            ++ "I can apply the " ++ dquote ++ "Needs Attention" ++ dquote
            ++ " filter on the Students page if you’d like." in
          ({| text := text; action := Some filter_at_risk |}, list.2)
      end
  | Intent.department =>
      let dept := match truthy (p_department params) with
                  | Some d => d
                  | None => "Engineering"
                  end in
      let list := getStudentsByDepartment dept st in
      match list.1 with
      | [] => (say ("No students found in **" ++ dept ++ "**."), list.2)
      | _ =>
          let text :=
            "Found **" ++ show_nat (length list.1) ++ "** student(s) in **"
            ++ dept ++ "**:" ++ newline ++ newline
            ++ join newline (map name_and_id (take 8 (objects list)))
            ++ (if (8 <? length list.1)%nat
                then newline ++ "... and " ++ show_nat (length list.1 - 8)
                     ++ " more."
                else "")
            ++ newline ++ newline ++ "I can show them on the Students page." in
          ({| text := text; action := Some (filter_department dept) |}, list.2)
      end
  | Intent.highest_gpa =>
      let list := getHighestGPAStudents st in
      match objects list with
      | [] => (say "No student data available.", list.2)
      | first :: _ =>
          let names := map name_and_id (objects list) in
          (say ("Highest GPA is **" ++ ToString (gpa first) ++ "** — "
                ++ join ", " names ++ "."),
           list.2)
      end
  | Intent.low_attendance =>
      let threshold := default 70%float (p_threshold params) in
      let list := getLowAttendanceStudents (Some threshold) st in
      match list.1 with
      | [] => (say ("No students have attendance below "
                    ++ Number_toString threshold ++ "%."),
               list.2)
      | _ =>
          (say ("**" ++ show_nat (length list.1)
                ++ "** student(s) have attendance below **"
                ++ Number_toString threshold ++ "%**:" ++ newline ++ newline
                ++ join newline
                     (map (fun s => firstName s ++ " " ++ lastName s ++ " — "
                                    ++ ToString (attendance s) ++ "%")
                          (take 8 (objects list)))
                ++ (if (8 <? length list.1)%nat
                    then newline ++ "... and " ++ show_nat (length list.1 - 8)
                         ++ " more."
                    else "")),
           list.2)
      end
  | Intent.placement_ready =>
      let list := getPlacementReadyStudents st in
      match list.1 with
      | [] => (say ("No placement-ready students found. Tag students as "
                    ++ dquote ++ "Placement Ready" ++ dquote
                    ++ " or look for GPA ≥ 3.5 and attendance ≥ 85%."),
               list.2)
      | _ =>
          let text :=
            "**" ++ show_nat (length list.1) ++ "** placement-ready student(s):"
            ++ newline ++ newline
            ++ join newline (map name_and_id (take 8 (objects list)))
            ++ (if (8 <? length list.1)%nat
                then newline ++ "... and " ++ show_nat (length list.1 - 8)
                     ++ " more."
                else "") in
          ({| text := text; action := Some (filter_tag "Placement Ready") |},
           list.2)
      end
  | Intent.student_trend =>
      let firstName := trim (default "" (p_firstName params)) in
      if String.eqb firstName ""
      then (say ("Please mention a student's first name, e.g. " ++ dquote
                 ++ "Is Rahul improving?" ++ dquote), st)
      else
        let found := findStudentByName firstName st in
        match found.1 with
        | None => (say ("I couldn't find a student named " ++ dquote
                        ++ firstName ++ dquote ++ ". Try another name."),
                   found.2)
        | Some l => (say (getStudentTrendSummary (read (heap found.2) l)),
                     found.2)
        end
  | Intent.department_comparison =>
      let '(summary, distribution) := getDepartmentComparison st in
      let lines :=
        match distribution with
        | [] => ""
        | _ => newline ++ newline
               ++ join newline
                    (map (fun d => "• " ++ d.1 ++ ": " ++ show_nat d.2)
                         distribution)
        end in
      (say (summary ++ lines), st)
  | Intent.alerts =>
      let r := getAutoAlertSuggestion st in
      match r.1 with
      | Some suggestion => (say suggestion, r.2)
      | None => (say "No urgent alerts. All students are within safe thresholds.",
                 r.2)
      end
  | Intent.unknown => (say help_text, st)
  end.

End Assistant.

(** ** The specification's vocabulary

    Definitions that follow the words of the specification; the theorems
    below compare them with the embedding of the source. *)
Module Spec.
Import Js Regex Model Assistant.

(** An input that fails to parse as a number is treated as 0. *)
Definition numeric_or_zero (v : value) : number :=
  if isNaN (parseFloat v) then 0%float else parseFloat v.

(** Rounding to two decimal places: scale by 100, round to the nearest
    integer, scale back. *)
Definition round2 (x : number) : number := (Math_round (x * 100) / 100)%float.

(** The classification of a difference between two samples. *)
Definition trend_of_difference (d : number) : Trend :=
  if (0.05 <? d)%float then up
  else if (d <? -0.05)%float then down
  else stable.

(** [classifyTrend]: take the last three samples at most; with fewer than
    two the trend is stable, else compare the first and the last of them. *)
Definition classifyTrend (history : list number) : Trend :=
  let window := slice_last 3 history in
  match window, last window with
  | first :: _ :: _, Some latest => trend_of_difference (latest - first)%float
  | _, _ => stable
  end.

(** Population variance: the mean of the squared deviations from the mean. *)
Definition mean (w : list number) : number :=
  (Model.sum w / of_nat (length w))%float.

Definition population_variance (w : list number) : number :=
  mean (map (fun v => Math_pow2 (v - mean w)%float) w).

(** [classifyConsistency]: take the last five samples at most; with fewer
    than two the consistency is high, else it is high exactly when the
    population variance is at most 2. *)
Definition classifyConsistency (history : list number) : Consistency :=
  let window := slice_last 5 history in
  if (length window <? 2)%nat then high
  else if (population_variance window <=? 2)%float then high else low.

(** A history as the data model wants it: present, not empty, at most five
    long. *)
Definition history_ok (s : Student) : Prop :=
  exists h, performanceHistory s = Some h /\ h <> [] /\ (length h <= 5)%nat.

(** Every location of the store is allocated, and its record has a proper
    history. *)
Definition store_invariant (st : State) : Prop :=
  Forall (fun l => (l < length (heap st))%nat /\ history_ok (read (heap st) l))
         (students st).

(** [new] keeps the newest entries of [old]: what is missing was at the
    oldest end, and only as much as exceeded five. *)
Definition keeps_newest {A} (old new : list A) : Prop :=
  exists evicted,
    old = (evicted ++ new)%list /\ length evicted = (length old - 5)%nat.

(** A record as an import file may hold it, with seven scores. *)
Definition seven_scores : Student :=
  mkStudent "STU-2024-007" "Ira" "Sen" "ira.sen@university.edu" "Physics"
            "2" "Female" "Active" (JNum 3.1) (JNum 80) (JNum 70) None
            (Some [Some 1; Some 2; Some 3; Some 4; Some 5; Some 6; Some 7]%float).

(** Every location of the store is an object of the heap. *)
Definition allocated (st : State) : Prop :=
  Forall (fun l => (l < length (heap st))%nat) (students st).

(** Nothing a caller could observe of the model changed between [st] and
    [st']: the same array of the same objects, each with the same content,
    the same counter and the same stored text.  Objects may have been
    allocated since. *)
Definition unchanged (st st' : State) : Prop :=
  students st' = students st
  /\ nextId st' = nextId st
  /\ students_db st' = students_db st
  /\ exists fresh, heap st' = (heap st ++ fresh)%list.

(** The at-risk rule in the specification's words: attendance below 70 or
    GPA below 2.5. *)
Definition at_risk (s : Student) : bool :=
  (parseInt10 (attendance s) <? 70)%float || (parseFloat (gpa s) <? 2.5)%float.

(** The record as the assistant is shown it. *)
Definition snapshot (s : Student) : Student := present (deepClone s).

(** The first run of digits of a text. *)
Fixpoint first_digit_run (s : string) : option string :=
  match s with
  | EmptyString => None
  | String c s' =>
      if is_digit c then Some (span is_digit s).1 else first_digit_run s'
  end.

(** The threshold a text gives: the integer of its first digit run, as a
    Number; 70 when it has no digit. *)
Definition threshold_of (lower : string) : number :=
  match first_digit_run lower with
  | Some ds => Z2F (digits_val 0 ds)
  | None => 70%float
  end.

(** The first keyword of the table, in table order, that occurs in the
    text gives the department; "Engineering" when none occurs. *)
Fixpoint canonical_department (table : list (string * string)) (lower : string)
    : string :=
  match table with
  | [] => "Engineering"
  | (keyword, name) :: table' =>
      if includes lower keyword then name
      else canonical_department table' lower
  end.

(** No rule tested before the department rule takes the text. *)
Definition reaches_department_rule (lower : string) : bool :=
  negb (String.eqb lower "/summary") && negb (String.eqb lower "/risk")
  && negb (String.eqb lower "/top") && negb (String.eqb lower "/alerts")
  && negb (test re_at_risk lower).

(** No rule tested before the attendance rule takes the text. *)
Definition reaches_attendance_rule (lower : string) : bool :=
  reaches_department_rule lower
  && negb (test re_department lower) && negb (test re_highest_gpa lower).

(** The position after the longest run of characters satisfying [f]. *)
Fixpoint run_end (f : ascii -> bool) (b : option ascii) (s : string)
    : option ascii * string :=
  match s with
  | String d s' => if f d then run_end f (Some d) s' else (b, s)
  | EmptyString => (b, s)
  end.

Definition skip (f : ascii -> bool) (p : pos) : pos :=
  {| before := (run_end f (before p) (rest p)).1;
     rest := (run_end f (before p) (rest p)).2;
     caps := caps p |}.

(** A store with one student at GPA 2.0 and attendance 60%. *)
Definition one_at_risk : State :=
  construct
    (Some [ mkStudent "STU-2025-001" "Asha" "Rao" "asha.rao@university.edu"
                      "Engineering" "2nd Year" "Female" "Active"
                      (JStr "2.0") (JStr "60") (JStr "70") (Some []) None ]).

(** An edit that raises the attendance of a student. *)
Definition sample_update : Updates :=
  {| u_firstName := None; u_lastName := None; u_email := None;
     u_department := None; u_year := None; u_gender := None;
     u_gpa := None; u_attendance := Some (JStr "75");
     u_assignmentScore := None; u_tags := None |}.

(** A store with eleven students, all at risk. *)
Definition struggling (n : string) : Student :=
  mkStudent ("STU-2025-0" ++ n) ("Student" ++ n) "Doe"
            ("student" ++ n ++ "@university.edu") "Arts" "1st Year" "Male"
            "Active" (JStr "2.1") (JStr "55") (JStr "40") None None.

Definition eleven_at_risk : State :=
  construct
    (Some (map struggling
               ["01"; "02"; "03"; "04"; "05"; "06"; "07"; "08"; "09"; "10";
                "11"]%string)).

End Spec.

(** ** Further helpers of [Utils] ([src/js/assistantView.js]) *)
Module Utils.
Import Js Regex Model.

(** [s.replace(/c/g, by)] for a pattern that is the one character [c] and
    a replacement text without [$]. *)
Fixpoint replace_char (c : ascii) (by_ : string) (s : string) : string :=
  match s with
  | EmptyString => EmptyString
  | String d s' =>
      if Ascii.eqb d c then by_ ++ replace_char c by_ s'
      else String d (replace_char c by_ s')
  end.

Definition quote_char : ascii := ascii_of_N 34.

(** [Utils.escapeHtml(str)] *)
Definition escapeHtml (str : value) : string :=
  match str with
  | JUndefined | JNull => ""
  | _ =>
      let s := ToString str in
      replace_char "'" "&#39;"
        (replace_char quote_char "&quot;"
           (replace_char ">" "&gt;"
              (replace_char "<" "&lt;"
                 (replace_char "&" "&amp;" s))))
  end.

(** A value in the condition of an [if] or the left of [&&]. *)
Definition is_truthy (v : value) : bool :=
  match v with
  | JUndefined | JNull => false
  | JNum x => negb (isNaN x || (x =? 0)%float)
  | JStr s => negb (String.eqb s "")
  end.

(** [Utils.searchArray(array, searchTerm, fields)]; a field is given by the
    function that reads it off an item. *)
Definition searchArray {A} (array : list A) (searchTerm : string)
    (fields : list (A -> value)) : list A :=
  let term := toLowerCase searchTerm in
  List.filter
    (fun item =>
       existsb (fun field =>
                  let value := field item in
                  is_truthy value
                  && includes (toLowerCase (ToString value)) term)
               fields)
    array.

(** The conditions the students table hands to [Utils.filterArray]: the
    keys [department], [year], [gender] and [tag], each absent ([None]) or
    holding the text of its selector. *)
Record Conditions := {
  c_department : option string;
  c_year : option string;
  c_gender : option string;
  c_tag : option string
}.

(** One key of [Object.keys(conditions).every(...)] for a field compared
    with [===]. *)
Definition field_condition (condition : option string) (field : string)
    : bool :=
  match condition with
  | None => true
  | Some c => if String.eqb c "" then true else String.eqb field c
  end.

(** The key [tag]. *)
Definition tag_condition (condition : option string)
    (tags : option (list string)) : bool :=
  match condition with
  | None => true
  | Some c =>
      if String.eqb c "" then true
      else
        let filterTag := toLowerCase (trim c) in
        if String.eqb filterTag "" then true
        else
          match tags with
          | Some ts => existsb (fun t => String.eqb (toLowerCase t) filterTag) ts
          | None => false
          end
  end.

Definition every_condition (conditions : Conditions) (item : Student) : bool :=
  field_condition (c_department conditions) (department item)
  && field_condition (c_year conditions) (year item)
  && field_condition (c_gender conditions) (gender item)
  && tag_condition (c_tag conditions) (tags item).

(** [Utils.filterArray(array, conditions)] *)
Definition filterArray (array : list Student) (conditions : Conditions)
    : list Student :=
  List.filter (every_condition conditions) array.

(** [/^r$/.test(s)]: a match of [r] from the start of the text to its
    end. *)
Definition test_whole (r : regex) (s : string) : bool :=
  match rmatch r {| before := None; rest := s; caps := [] |}
          (fun q => if String.eqb (rest q) "" then Some (caps q) else None) with
  | Some _ => true
  | None => false
  end.

(** [r{n,}] *)
Fixpoint at_least (n : nat) (r : regex) : regex :=
  match n with
  | O => Star r
  | S n' => Seq r (at_least n' r)
  end.

(** [[^\s@]] *)
Definition email_char (c : ascii) : bool :=
  negb (is_space c || Ascii.eqb c "@").

(** [Utils.isValidEmail(email)]: [/^[^\s@]+@[^\s@]+\.[^\s@]+$/] *)
Definition isValidEmail (email : string) : bool :=
  test_whole (cat [plus (Class email_char); Chr "@"; plus (Class email_char);
                   Chr "."; plus (Class email_char)])
             email.

(** [[\d\s\-\+\(\)]] *)
Definition phone_char (c : ascii) : bool :=
  is_digit c || is_space c || Ascii.eqb c "-" || Ascii.eqb c "+"
  || Ascii.eqb c "(" || Ascii.eqb c ")".

(** [s.replace(/\s/g, '')] *)
Fixpoint remove_spaces (s : string) : string :=
  match s with
  | EmptyString => EmptyString
  | String c s' =>
      if is_space c then remove_spaces s' else String c (remove_spaces s')
  end.

(** [Utils.isValidPhone(phone)]: [/^[\d\s\-\+\(\)]{10,}$/] on the text
    without its white space. *)
Definition isValidPhone (phone : string) : bool :=
  test_whole (at_least 10 (Class phone_char)) (remove_spaces phone).

(** [Utils.isValidGPA(gpa)] *)
Definition isValidGPA (gpa : value) : bool :=
  let num := parseFloat gpa in
  negb (isNaN num) && (0 <=? num)%float && (num <=? 4)%float.

(** [Utils.isValidAttendance(attendance)] *)
Definition isValidAttendance (attendance : value) : bool :=
  let num := parseInt attendance in
  negb (isNaN num) && (0 <=? num)%float && (num <=? 100)%float.

(** [Utils.isValidAssignmentScore(score)] *)
Definition isValidAssignmentScore (score : value) : bool :=
  let num := parseFloat score in
  negb (isNaN num) && (0 <=? num)%float && (num <=? 100)%float.

(** [s.padStart(n, c)] *)
Definition padStart (n : nat) (c : ascii) (s : string) : string :=
  string_of_list_ascii (repeat c (n - String.length s)) ++ s.

(** [Utils.generateStudentID(index)] in the year [year]. *)
Definition generateStudentID (year : number) (index : number) : string :=
  let number := padStart 3 "0" (Number_toString index) in
  "STU-" ++ Number_toString year ++ "-" ++ number.

End Utils.

(** ** Deleting, clearing and undoing ([class StudentModel], continued) *)
Module Store.
Import Js Model Utils.

(** The entry of [localStorage] under the undo key, as [JSON.parse] reads
    it back: [nextId] is [None] when it reads [null].  [savedAt] is never
    read and is left out. *)
Record Backup := {
  b_students : list Student;
  b_nextId : option number;
  b_action : string;
  b_deletedId : option string
}.

(** The model object and the undo entry of [localStorage] ([None] when the
    key is absent).  Writing to [localStorage] is taken to succeed. *)
Record Storage := mkStorage {
  model : State;
  students_undo_backup : option Backup
}.

(** [saveUndoBackup(action, deletedId)] *)
Definition saveUndoBackup (action : string) (deletedId : option string)
    (s : Storage) : Storage :=
  let st := model s in
  mkStorage st
    (Some {| b_students := map deepClone (map deepClone (records st));
             b_nextId := match json_roundtrip (JNum (nextId st)) with
                         | JNum x => Some x
                         | _ => None
                         end;
             b_action := action;
             b_deletedId := match deletedId with
                            | Some d => if String.eqb d "" then None else Some d
                            | None => None
                            end |}).

(** [restoreUndoBackup()]: the objects read from the backup become the
    store's own. *)
Definition restoreUndoBackup (s : Storage) : bool * Storage :=
  match students_undo_backup s with
  | None => (false, s)
  | Some backup =>
      let st := model s in
      let st1 := mkState (heap st ++ b_students backup)
                         (seq (length (heap st)) (length (b_students backup)))
                         (nextId st) (students_db st) in
      let st2 := set_nextId st1 (match b_nextId backup with
                                 | Some n => n
                                 | None => _getNextAvailableId st1
                                 end) in
      (true, mkStorage (saveToStorage st2) None)
  end.

(** [hasUndoBackup()] *)
Definition hasUndoBackup (s : Storage) : bool :=
  match students_undo_backup s with Some _ => true | None => false end.

(** [deleteStudent(id)] *)
Definition deleteStudent (sid : string) (s : Storage) : result bool * Storage :=
  match findIndex (fun x => String.eqb (id x) sid) (records (model s)) with
  | None => (Throw "Student not found", s)
  | Some index =>
      let s1 := saveUndoBackup "delete" (Some sid) s in
      let st := model s1 in
      let st' := mkState (heap st) (delete index (students st)) (nextId st)
                         (students_db st) in
      (Ok true, mkStorage (saveToStorage st') (students_undo_backup s1))
  end.

(** [clearAllData()] *)
Definition clearAllData (s : Storage) : Storage :=
  let s1 := saveUndoBackup "clear" None s in
  let st := model s1 in
  let st' := mkState (heap st) [] 1%float (students_db st) in
  mkStorage (saveToStorage st') (students_undo_backup s1).

(** [searchStudents(searchTerm)]: the matching objects of the store
    itself. *)
Definition searchStudents (searchTerm : string) (st : State) : list loc :=
  searchArray (students st) searchTerm
    [ (fun l => JStr (id (read (heap st) l)));
      (fun l => JStr (firstName (read (heap st) l)));
      (fun l => JStr (lastName (read (heap st) l)));
      (fun l => JStr (email (read (heap st) l))) ].

(** [filterStudents(filters)] *)
Definition filterStudents (filters : Conditions) (st : State) : list loc :=
  List.filter (fun l => every_condition filters (read (heap st) l))
              (students st).

(** [validateStudent(data)].  The source also checks the form fields this
    model does not carry (date of birth, telephone number, address
    lines); [others] is the outcome of those checks. *)
Definition validateStudent (others : bool) (data : StudentData) : bool :=
  let filled s := negb (String.eqb s "") && negb (String.eqb (trim s) "") in
  filled (d_firstName data)
  && filled (d_lastName data)
  && isValidEmail (d_email data)
  && negb (String.eqb (d_gender data) "")
  && negb (String.eqb (d_department data) "")
  && negb (String.eqb (d_year data) "")
  && isValidGPA (d_gpa data)
  && isValidAttendance (d_attendance data)
  && isValidAssignmentScore
       match d_assignmentScore data with
       | JUndefined | JNull | JStr "" => JNum NaN
       | score => score
       end
  && others.

End Store.

(** ** The chat history ([AssistantModel.loadHistory], [saveHistory]) *)
Module Chat.
Import Js Model.

Record Message := {
  role : string;
  content : string
}.

(** [saveHistory(messages)]: the new entry of [localStorage] under the
    assistant's key; [messages] is [None] when it is not an array. *)
Definition saveHistory (messages : option (list Message))
    : option (list Message) :=
  Some (match messages with
        | Some m => slice_last 100 m
        | None => []
        end).

(** [loadHistory()] over the entry ([None] when the key is absent). *)
Definition loadHistory (stored : option (list Message)) : list Message :=
  match stored with
  | Some m => m
  | None => []
  end.

End Chat.

(** ** The activity log ([class ActivityModel], [src/js/activityModel.js]) *)
Module Activity.
Import Js.

Record Activity := {
  a_id : string;
  actionType : string;
  studentName : string;
  description : string;
  timestamp : string
}.

Definition dash : string := "—".

(** [loadFromStorage()] over the entry of [localStorage] under the log's
    key ([None] when the key is absent). *)
Definition loadFromStorage (stored : option (list Activity)) : list Activity :=
  match stored with
  | Some l => l
  | None => []
  end.

(** [String(x || d).trim() || d] *)
Definition trimmed_or (d x : string) : string :=
  let t := trim (if String.eqb x "" then d else x) in
  if String.eqb t "" then d else t.

(** [log(actionType, studentName, description)]; the identifier and the
    time stamp are drawn from the clock and the random source, so they are
    arguments here.  Returns the activity and the new entry. *)
Definition log (generated_id now : string)
    (actionType studentName description : string)
    (stored : option (list Activity)) : Activity * option (list Activity) :=
  let activity :=
    {| a_id := generated_id;
       actionType := actionType;
       studentName := trimmed_or dash studentName;
       description := trim description;
       timestamp := now |} in
  let list := loadFromStorage stored in
  (activity, Some (activity :: list)).

(** [getAll()] *)
Definition getAll (stored : option (list Activity)) : list Activity :=
  loadFromStorage stored.

(** [clearAll()] *)
Definition clearAll (stored : option (list Activity)) : option (list Activity) :=
  Some [].

Record Filters := {
  f_actionType : string;
  f_dateGroup : string;
  f_search : string
}.

Section Clock.
(** Whether a time stamp is of today, of yesterday, or older depends on
    the clock. *)
Variable is_today is_yesterday is_older : string -> bool.

Definition in_date_group (dateGroup : string) (timestamp : string) : bool :=
  if String.eqb dateGroup "today" then is_today timestamp
  else if String.eqb dateGroup "yesterday" then is_yesterday timestamp
  else if String.eqb dateGroup "older" then is_older timestamp
  else true.

(** [getFiltered(filters)]; [None] is a missing argument. *)
Definition getFiltered (filters : option Filters)
    (stored : option (list Activity)) : list Activity :=
  let list := loadFromStorage stored in
  match filters with
  | None => list
  | Some filters =>
      let list :=
        if String.eqb (f_actionType filters) "" then list
        else List.filter
               (fun a => String.eqb (actionType a) (f_actionType filters)) list in
      let list :=
        if String.eqb (f_dateGroup filters) "" then list
        else List.filter
               (fun a => in_date_group (f_dateGroup filters) (timestamp a)) list in
      let list :=
        if negb (String.eqb (f_search filters) "")
           && negb (String.eqb (trim (f_search filters)) "")
        then
          let term := toLowerCase (trim (f_search filters)) in
          List.filter
            (fun a =>
               (negb (String.eqb (studentName a) "")
                && includes (toLowerCase (studentName a)) term)
               || (negb (String.eqb (description a) "")
                   && includes (toLowerCase (description a)) term))
            list
        else list in
      list
  end.
End Clock.

End Activity.
(** ** Formatting a chat message ([class AssistantView]) *)
Module AssistantView.
Import Js Regex Model Utils.






End AssistantView.

(** ** The students table ([StudentController.updateStudentsTable],
    [src/js/controller.js]) *)
Module Dashboard.
Import Js Model Utils Store.

(** The values of the search box and of the four selectors above the
    table. *)
Record Controls := {
  searchInput : string;
  departmentFilter : string;
  yearFilter : string;
  genderFilter : string;
  tagFilter : string
}.

(** The object [filters]: a key for each selector that is not empty. *)
Definition table_filters (v : Controls) : Conditions :=
  let key x := if String.eqb x "" then None else Some x in
  {| c_department := key (departmentFilter v);
     c_year := key (yearFilter v);
     c_gender := key (genderFilter v);
     c_tag := key (tagFilter v) |}.

Definition has_keys (c : Conditions) : bool :=
  match c_department c, c_year c, c_gender c, c_tag c with
  | None, None, None, None => false
  | _, _, _, _ => true
  end.

(** The rows [updateStudentsTable] hands to the sorting and the rendering
    that follow: all students, or the search result when there is a search
    term, then filtered. *)
Definition table_rows (v : Controls) (st : State) : list Student * State :=
  let all := getAllStudents st in
  let searchTerm := trim (searchInput v) in
  let students :=
    if String.eqb searchTerm "" then map (read (heap all.2)) all.1
    else map (read (heap all.2)) (searchStudents searchTerm all.2) in
  let filters := table_filters v in
  let students :=
    if has_keys filters then filterArray students filters else students in
  (students, all.2).

(** Controls that select the students tagged "Placement Ready". *)
Definition placement_controls : Controls :=
  {| searchInput := " "; departmentFilter := ""; yearFilter := "";
     genderFilter := ""; tagFilter := "Placement Ready" |}.

(** Controls that select the students of the department Engineering. *)
Definition engineering_controls : Controls :=
  {| searchInput := ""; departmentFilter := "Engineering"; yearFilter := "";
     genderFilter := ""; tagFilter := "" |}.

End Dashboard.

(** ** Shapes of texts

    Predicates on texts used to state what the helpers accept and
    produce. *)
Module Shapes.
Import Js Regex Model Utils.

(** The characters [escapeHtml] replaces, the ampersand apart. *)
Definition markup_chars : list ascii := ["<"; ">"; quote_char; "'"]%char.

(** Every character of [s] satisfies [f]. *)
Definition all_chars (f : ascii -> bool) (s : string) : bool :=
  forallb f (list_ascii_of_string s).

(** An e-mail address of the shape [local@domain.tld]: three non-empty
    parts without white space or [@], joined by an [@] and a dot. *)
Definition email_shape (s : string) : Prop :=
  exists a b c,
    s = (a ++ "@" ++ b ++ "." ++ c)%string
    /\ a <> "" /\ b <> "" /\ c <> ""
    /\ all_chars email_char a = true
    /\ all_chars email_char b = true
    /\ all_chars email_char c = true.




End Shapes.

(** ** Properties of the storage *)
Module StoreSpec.
Import Js Model Store Spec.

(** The model keeps the history invariant, and so do the records held in
    the undo backup. *)
Definition storage_invariant (s : Storage) : Prop :=
  store_invariant (model s)
  /\ match students_undo_backup s with
     | Some backup => Forall history_ok (b_students backup)
     | None => True
     end.

(** A Number that [JSON.stringify] writes and [JSON.parse] reads back as
    it is: finite and not a zero. *)
Definition json_stable (x : number) : bool :=
  match Prim2SF x with
  | S754_finite _ _ _ => true
  | _ => false
  end.

(** The number [_getNextAvailableId] reads off an id: the integer after
    its last hyphen. *)
Definition id_number (s : Student) : number :=
  parseInt10_string (last_segment "" (id s)).

(** The property names an object literal inherits: under such a key
    [o[k] || 0] reads the inherited property, not a count. *)
Definition inherited_keys : list string :=
  [ "constructor"; "__proto__"; "hasOwnProperty"; "isPrototypeOf";
    "propertyIsEnumerable"; "toLocaleString"; "toString"; "valueOf";
    "__defineGetter__"; "__defineSetter__"; "__lookupGetter__";
    "__lookupSetter__" ].

Definition own_key (k : string) : bool :=
  negb (existsb (String.eqb k) inherited_keys).

(** No department, year or gender of [l] is an inherited property name. *)
Definition plain_keys (l : list Student) : bool :=
  forallb (fun s => own_key (department s) && own_key (year s)
                    && own_key (gender s)) l.

(** [o[k] || 0] on an object that holds counts, for a key of its own. *)
Fixpoint count_of (k : string) (m : list (string * nat)) : nat :=
  match m with
  | [] => 0
  | (k', n) :: m' => if String.eqb k k' then n else count_of k m'
  end.

(** [d] lists, once each, the values [key] takes on [l], each with the
    number of records that have it. *)
Definition counts_by (key : Student -> string) (l : list Student)
    (d : list (string * nat)) : Prop :=
  NoDup (map fst d)
  /\ (forall k n, In (k, n) d
                  <-> (0 < n)%nat
                      /\ n = count (fun s => String.eqb (key s) k) l)
  /\ fold_left (fun n e => (n + e.2)%nat) d O = length l.

(** A storage holding one student and no backup. *)
Definition one_student : Storage := mkStorage one_at_risk None.

(** An edit whose grade point average is too large for the score to stay
    finite, and the store after it: the history of the student ends in
    [Infinity]. *)
Definition overflowing_update : Updates :=
  {| u_firstName := None; u_lastName := None; u_email := None;
     u_department := None; u_year := None; u_gender := None;
     u_gpa := Some (JStr "1e308"); u_attendance := None;
     u_assignmentScore := None; u_tags := None |}.

Definition overflowed : State :=
  (updateStudent "STU-2025-001" overflowing_update one_at_risk).2.

(** Three registration forms whose e-mail addresses differ in letter case
    only.  The first two pass the checks of [validateStudent]; the third
    has no assignment score and does not. *)
Definition first_form : StudentData :=
  {| d_firstName := "Ravi"; d_lastName := "Shah";
     d_email := "Ravi.Shah@university.edu"; d_department := "Arts";
     d_year := "1st Year"; d_gender := "Male"; d_gpa := JStr "3.1";
     d_attendance := JStr "88"; d_assignmentScore := JStr "75";
     d_tags := None |}.

Definition second_form : StudentData :=
  {| d_firstName := "R."; d_lastName := "Shah";
     d_email := "ravi.shah@UNIVERSITY.edu"; d_department := "Science";
     d_year := "2nd Year"; d_gender := "Male"; d_gpa := JStr "2.0";
     d_attendance := JStr "50"; d_assignmentScore := JStr "64.5";
     d_tags := None |}.

Definition third_form : StudentData :=
  {| d_firstName := "Ravi"; d_lastName := "Shah";
     d_email := "RAVI.SHAH@university.edu"; d_department := "Arts";
     d_year := "1st Year"; d_gender := "Male"; d_gpa := JStr "3.1";
     d_attendance := JStr "88"; d_assignmentScore := JStr "";
     d_tags := None |}.

(** Registering a student in 2025, on a form whose unmodelled fields pass
    their checks; the store once the first form is registered. *)
Definition register : StudentData -> State -> result loc * State :=
  addStudent (validateStudent true) (Utils.generateStudentID 2025).

Definition first_registered : State := (register first_form one_at_risk).2.

(** Three students: one tagged "Placement Ready", one who is not tagged
    but has the marks for it, and one who has neither. *)
Definition three_students : State :=
  construct
    (Some [ mkStudent "STU-2025-001" "Asha" "Rao" "asha.rao@university.edu"
                      "Engineering" "2nd Year" "Female" "Active"
                      (JStr "3.0") (JStr "80") (JStr "70")
                      (Some ["placement ready"]) None;
            mkStudent "STU-2025-002" "Bela" "Nair" "bela.nair@university.edu"
                      "Engineering" "3rd Year" "Female" "Active"
                      (JStr "3.8") (JStr "92") (JStr "85") (Some []) None;
            mkStudent "STU-2025-003" "Chen" "Li" "chen.li@university.edu"
                      "Science" "1st Year" "Male" "Active"
                      (JStr "2.9") (JStr "75") (JStr "60") None None ]).

End StoreSpec.

(** ** The order of Numbers

    The comparisons [<], [<=] and [===] of Numbers place every Number that
    is not NaN on one line, the two zeros at the same place. *)
Module FloatOrder.
Import Js.

Definition rank (f : spec_float) : option (Z * Z * Z) :=
  match f with
  | S754_nan => None
  | S754_infinity true => Some (-2, 0, 0)
  | S754_finite true m e => Some (-1, - e, Zneg m)
  | S754_zero _ => Some (0, 0, 0)
  | S754_finite false m e => Some (1, e, Zpos m)
  | S754_infinity false => Some (2, 0, 0)
  end.

Definition place (x : number) : option (Z * Z * Z) := rank (Prim2SF x).

Definition below (a b : Z * Z * Z) : Prop :=
  a.1.1 < b.1.1
  \/ (a.1.1 = b.1.1
      /\ (a.1.2 < b.1.2 \/ (a.1.2 = b.1.2 /\ a.2 < b.2))).

End FloatOrder.

(** ** What a pattern matches

    [matches r p q]: the pattern [r] can match the text from position [p]
    up to position [q].  A round of a repetition consumes at least one
    character. *)
Module RegexSpec.
Import Js Regex.

Inductive matches : regex -> pos -> pos -> Prop :=
| m_eps p : matches Eps p p
| m_chr c p s :
    rest p = String c s -> matches (Chr c) p (advance p c s)
| m_class f p d s :
    rest p = String d s -> f d = true -> matches (Class f) p (advance p d s)
| m_wordb p :
    xorb (word_before p) (word_after p) = true -> matches WordB p p
| m_seq r1 r2 p q q' :
    matches r1 p q -> matches r2 q q' -> matches (Seq r1 r2) p q'
| m_alt_l r1 r2 p q : matches r1 p q -> matches (Alt r1 r2) p q
| m_alt_r r1 r2 p q : matches r2 p q -> matches (Alt r1 r2) p q
| m_star_stop r p : matches (Star r) p p
| m_star_more r p q q' :
    matches r p q ->
    (String.length (rest q) < String.length (rest p))%nat ->
    matches (Star r) q q' -> matches (Star r) p q'
| m_group i r p q : matches r p q -> matches (Group i r) p (capture i p q).

(** The position at the start of a text. *)
Definition start (s : string) : pos :=
  {| before := None; rest := s; caps := [] |}.

End RegexSpec.

(** ** Verification *)

Import Js Regex Model Assistant Spec.
Local Open Scope list_scope.
Local Open Scope nat_scope.

(** *** Windows of a list *)

Lemma slice_last_split {A} (n : nat) (l : list A) :
  l = (take (length l - n) l ++ slice_last n l)%list.
Proof. unfold slice_last. symmetry. apply take_drop. Qed.

Lemma length_slice_last {A} (n : nat) (l : list A) :
  length (slice_last n l) = Nat.min n (length l).
Proof. unfold slice_last. rewrite length_drop. lia. Qed.

Lemma slice_last_short {A} (n : nat) (l : list A) :
  (length l <= n)%nat -> slice_last n l = l.
Proof.
  intros H. unfold slice_last.
  replace (length l - n)%nat with O by lia. reflexivity.
Qed.

Lemma slice_last_app {A} (n : nat) (old w : list A) :
  length w = n -> slice_last n (old ++ w) = w.
Proof.
  intros H. unfold slice_last. rewrite length_app, H.
  replace (length old + n - n)%nat with (length old) by lia.
  apply drop_app_length.
Qed.

Lemma slice_last_nonempty {A} (n : nat) (l : list A) :
  l <> [] -> (0 < n)%nat -> slice_last n l <> [].
Proof.
  intros Hl Hn Hs. apply (f_equal length) in Hs.
  rewrite length_slice_last in Hs. destruct l; [congruence | simpl in Hs; lia].
Qed.

Lemma at_index_last (l : list number) :
  at_index l (length l - 1) = default NaN (last l).
Proof.
  unfold at_index. rewrite last_lookup.
  replace (length l - 1)%nat with (Nat.pred (length l)) by lia. reflexivity.
Qed.

(** *** The score *)

Lemma parseFloat_zero : parseFloat (JNum 0%float) = 0%float.
Proof. vm_compute. reflexivity. Qed.

(** C1: [calculatePerformanceScore] is [gpa*10*0.5 + attendance*0.3 +
    assignmentScore*0.2] rounded to two decimals, over the inputs read by
    [parseFloat] with 0 for one that does not parse; an input that does not
    parse gives the score of 0 in its place.  The function is total and
    reads nothing but its arguments. *)
Theorem computeScore_formula (gpa attendance assignmentScore : value) :
  calculatePerformanceScore gpa attendance assignmentScore
  = round2 (numeric_or_zero gpa * 10 * 0.5
            + numeric_or_zero attendance * 0.3
            + numeric_or_zero assignmentScore * 0.2)%float
  /\ (isNaN (parseFloat gpa) = true ->
      calculatePerformanceScore gpa attendance assignmentScore
      = calculatePerformanceScore (JNum 0%float) attendance assignmentScore)
  /\ (isNaN (parseFloat attendance) = true ->
      calculatePerformanceScore gpa attendance assignmentScore
      = calculatePerformanceScore gpa (JNum 0%float) assignmentScore)
  /\ (isNaN (parseFloat assignmentScore) = true ->
      calculatePerformanceScore gpa attendance assignmentScore
      = calculatePerformanceScore gpa attendance (JNum 0%float))
  /\ calculatePerformanceScore (JStr "3.8") (JStr "92") (JStr "85") = 63.6%float
  /\ calculatePerformanceScore (JStr "3.777") (JStr "91.46") (JStr "77.7")
     = 61.86%float
  /\ calculatePerformanceScore (JStr "n/a") JUndefined JNull = 0%float.
Proof.
  split; [reflexivity |].
  split; [| split; [| split; [| split; [| split]]]].
  - intros H. unfold calculatePerformanceScore.
    rewrite H, parseFloat_zero. reflexivity.
  - intros H. unfold calculatePerformanceScore.
    rewrite H, parseFloat_zero. reflexivity.
  - intros H. unfold calculatePerformanceScore.
    rewrite H, parseFloat_zero. reflexivity.
  - vm_compute. reflexivity.
  - vm_compute. reflexivity.
  - vm_compute. reflexivity.
Qed.

(** C2 (as the code has it): [computeScore(3.8, 92, 85)] is 63.6, which is
    what the specification's own arithmetic gives. *)
Theorem computeScore_example :
  calculatePerformanceScore (JNum 3.8%float) (JNum 92%float) (JNum 85%float)
  = 63.6%float
  /\ (3.8 * 10 * 0.5 =? 19)%float = true
  /\ (85 * 0.2 =? 17)%float = true.
Proof. repeat split; vm_compute; reflexivity. Qed.

(** C2 fails as stated: the score of (3.8, 92, 85) is not 53.0. *)
Lemma computeScore_example_not_53 :
  (calculatePerformanceScore (JNum 3.8%float) (JNum 92%float) (JNum 85%float)
   =? 53.0)%float
  = false.
Proof. vm_compute. reflexivity. Qed.

(** *** The rolling history *)

(** C3: appending a sample.  An empty history becomes [[s]]; when the score
    moved by more than 0.001 from the last entry it is appended and the
    last five entries are kept, the oldest being dropped; otherwise the
    result is the last five entries of the history as it was. *)
Theorem appendSample_cases (s : number) :
  appendSample (Some []) s = [s]
  /\ (forall h latest, last h = Some latest ->
        (0.001 <? Math_abs (s - latest))%float = true ->
        appendSample (Some h) s = slice_last 5 (h ++ [s])%list
        /\ exists evicted,
             (h ++ [s] = evicted ++ appendSample (Some h) s)%list
             /\ length evicted = (length h + 1 - 5)%nat)
  /\ (forall h latest, last h = Some latest ->
        (0.001 <? Math_abs (s - latest))%float = false ->
        appendSample (Some h) s = slice_last 5 h
        /\ ((length h <= 5)%nat -> appendSample (Some h) s = h))
  /\ appendSample (Some [50%float]) 50.0004%float = [50%float]
  /\ appendSample (Some [10; 20; 30; 40; 50; 60]%float) 61%float
     = [30; 40; 50; 60; 61]%float.
Proof.
  split; [reflexivity |].
  split.
  { intros h latest Hlast Hfar. unfold appendSample. cbv beta iota zeta.
    rewrite Hlast. cbn [is_null ToNumber of_number Score_number orb].
    rewrite Hfar.
    split; [reflexivity |].
    exists (take (length (h ++ [s]) - 5) (h ++ [s])). split.
    - apply slice_last_split.
    - rewrite length_take, length_app. simpl. lia. }
  split.
  { intros h latest Hlast Hnear. unfold appendSample. cbv beta iota zeta.
    rewrite Hlast. cbn [is_null ToNumber of_number Score_number orb].
    rewrite Hnear.
    split; [reflexivity |]. apply slice_last_short. }
  split; vm_compute; reflexivity.
Qed.

(** *** Trend and consistency *)

Lemma trend_of_window (w : list number) :
  getPerformanceTrend (Some w) = classifyTrend w.
Proof.
  unfold getPerformanceTrend, classifyTrend.
  destruct (slice_last 3 w) as [|x [|y t]] eqn:E; try reflexivity.
  rewrite at_index_last.
  destruct (last (x :: y :: t)) as [latest|] eqn:L.
  - reflexivity.
  - apply last_None in L. discriminate.
Qed.

(** C5: the trend reads only the last three samples: with fewer than two
    it is stable, otherwise it is up when last - first exceeds 0.05, down
    when it is below -0.05, and stable in between. *)
Theorem classifyTrend_correct :
  (forall h, getPerformanceTrend (Some h) = classifyTrend h)
  /\ (forall older a b c,
        getPerformanceTrend (Some (older ++ [a; b; c])%list)
        = trend_of_difference (c - a)%float)
  /\ (forall a b, getPerformanceTrend (Some [a; b])
                  = trend_of_difference (b - a)%float)
  /\ (forall h, (length h < 2)%nat -> getPerformanceTrend (Some h) = stable)
  /\ getPerformanceTrend (Some [40; 45; 55]%float) = up
  /\ getPerformanceTrend (Some [50; 50]%float) = stable
  /\ getPerformanceTrend (Some [5%float]) = stable.
Proof.
  split; [exact trend_of_window |].
  split.
  { intros older a b c. rewrite trend_of_window. unfold classifyTrend.
    rewrite (slice_last_app 3 older [a; b; c]) by reflexivity. reflexivity. }
  split; [reflexivity |].
  split.
  { intros h Hlen. destruct h as [|x [|y t]]; [reflexivity | reflexivity |].
    simpl in Hlen. lia. }
  repeat split; vm_compute; reflexivity.
Qed.

Lemma fold_left_deviations (f : number -> number) (w : list number) (a : number) :
  fold_left (fun s v => (s + f v)%float) w a
  = fold_left (fun x y => (x + y)%float) (map f w) a.
Proof.
  revert a. induction w as [|v w IH]; intros a; simpl; [reflexivity | apply IH].
Qed.

Lemma variance_of_window (w : list number) :
  (fold_left (fun s v => s + Math_pow2 (v - Model.sum w / of_nat (length w))) w 0
   / of_nat (length w))%float
  = population_variance w.
Proof.
  unfold population_variance, mean, Model.sum.
  rewrite length_map.
  rewrite (fold_left_deviations
             (fun v => Math_pow2 (v - fold_left (fun a b => a + b) w 0
                                      / of_nat (length w))%float)).
  reflexivity.
Qed.

(** C6: consistency reads only the last five samples: with fewer than two
    it is high, otherwise it is high exactly when their population variance
    is at most 2, and low otherwise. *)
Theorem classifyConsistency_correct :
  (forall h, getPerformanceConsistency (Some h) = classifyConsistency h)
  /\ (forall older w, length w = 5%nat ->
        getPerformanceConsistency (Some (older ++ w)%list)
        = if (population_variance w <=? 2)%float then high else low)
  /\ (forall h, (2 <= length h <= 5)%nat ->
        getPerformanceConsistency (Some h)
        = if (population_variance h <=? 2)%float then high else low)
  /\ (forall h, (length h < 2)%nat -> getPerformanceConsistency (Some h) = high)
  /\ getPerformanceConsistency (Some [50; 50; 50; 50; 50]%float) = high
  /\ getPerformanceConsistency (Some [10; 90; 10; 90; 10]%float) = low.
Proof.
  assert (Hspec : forall h,
             getPerformanceConsistency (Some h) = classifyConsistency h).
  { intros h. unfold getPerformanceConsistency, classifyConsistency.
    destruct (length (slice_last 5 h) <? 2)%nat; [reflexivity |].
    rewrite variance_of_window. reflexivity. }
  split; [exact Hspec |].
  split.
  { intros older w Hw. rewrite Hspec. unfold classifyConsistency.
    rewrite (slice_last_app 5 older w Hw), Hw. reflexivity. }
  split.
  { intros h [Hlo Hhi]. rewrite Hspec. unfold classifyConsistency.
    rewrite (slice_last_short 5 h Hhi).
    destruct (Nat.ltb_spec (length h) 2); [lia | reflexivity]. }
  split.
  { intros h Hlen. rewrite Hspec. unfold classifyConsistency.
    rewrite (slice_last_short 5 h) by lia.
    destruct (Nat.ltb_spec (length h) 2); [reflexivity | lia]. }
  split; vm_compute; reflexivity.
Qed.

(** *** Reading the heap *)

Lemma read_app_l (h xs : list Student) (l : loc) :
  (l < length h)%nat -> read (h ++ xs) l = read h l.
Proof. intros H. unfold read. rewrite lookup_app_l by exact H. reflexivity. Qed.

Lemma read_app_new (h : list Student) (x : Student) :
  read (h ++ [x]) (length h) = x.
Proof. unfold read. rewrite list_lookup_middle by reflexivity. reflexivity. Qed.

Lemma read_insert_eq (h : list Student) (l : loc) (x : Student) :
  (l < length h)%nat -> read (<[l := x]> h) l = x.
Proof. intros H. unfold read. rewrite list_lookup_insert_eq by exact H. reflexivity. Qed.

Lemma read_insert_ne (h : list Student) (l l' : loc) (x : Student) :
  l <> l' -> read (<[l := x]> h) l' = read h l'.
Proof. intros H. unfold read. rewrite list_lookup_insert_ne by exact H. reflexivity. Qed.

Lemma read_fresh (h xs : list Student) :
  map (read (h ++ xs)) (seq (length h) (length xs)) = xs.
Proof.
  revert h. induction xs as [|x xs IH]; intros h; [reflexivity |].
  simpl. f_equal.
  - unfold read. rewrite list_lookup_middle by reflexivity. reflexivity.
  - specialize (IH (h ++ [x])). rewrite <- app_assoc, length_app in IH.
    simpl in IH. replace (length h + 1)%nat with (S (length h)) in IH by lia.
    exact IH.
Qed.

(** *** The history invariant *)

Lemma keeps_newest_slice {A} (l : list A) : keeps_newest l (slice_last 5 l).
Proof.
  exists (take (length l - 5) l). split.
  - apply slice_last_split.
  - rewrite length_take. lia.
Qed.

Lemma slice_last_ok {A} (l : list A) :
  l <> [] -> slice_last 5 l <> [] /\ (length (slice_last 5 l) <= 5)%nat.
Proof.
  intros H. split.
  - apply slice_last_nonempty; [exact H | lia].
  - rewrite length_slice_last. lia.
Qed.

Lemma migrate_record_ok (s : Student) : history_ok (migrate_record s).1.
Proof.
  unfold migrate_record, history_ok.
  destruct (performanceHistory s) as [[|x h]|]; simpl.
  - exists [Some (score_of s)]. repeat split; [discriminate | simpl; lia].
  - exists (slice_last 5 (x :: h)). split; [reflexivity |].
    apply slice_last_ok. discriminate.
  - exists [Some (score_of s)]. repeat split; [discriminate | simpl; lia].
Qed.

Lemma migrate_record_keeps_newest (s : Student) (old : list entry) :
  performanceHistory s = Some old -> old <> [] ->
  exists new, performanceHistory (migrate_record s).1 = Some new
              /\ keeps_newest old new.
Proof.
  intros H Hne. unfold migrate_record. rewrite H.
  destruct old as [|x h]; [congruence |].
  exists (slice_last 5 (x :: h)). split; [reflexivity | apply keeps_newest_slice].
Qed.

Lemma migrate_each_length (ls : list loc) (h : list Student) (c : bool) :
  length (migrate_each ls h c).1 = length h.
Proof.
  revert h c. induction ls as [|l ls IH]; intros h c; simpl; [reflexivity |].
  destruct (migrate_record (read h l)) as [s' c'].
  rewrite IH. apply length_insert.
Qed.

Lemma migrate_each_keeps_ok (ls : list loc) (h : list Student) (c : bool) (l : loc) :
  (l < length h)%nat -> history_ok (read h l) ->
  history_ok (read (migrate_each ls h c).1 l).
Proof.
  revert h c. induction ls as [|l0 ls IH]; intros h c Hl Hok; simpl; [exact Hok |].
  destruct (migrate_record (read h l0)) as [s' c'] eqn:E.
  apply IH; [rewrite length_insert; exact Hl |].
  destruct (decide (l0 = l)) as [->|Hne].
  - rewrite read_insert_eq by exact Hl.
    change s' with (s', c').1. rewrite <- E. apply migrate_record_ok.
  - rewrite read_insert_ne by exact Hne. exact Hok.
Qed.

Lemma migrate_each_ok (ls : list loc) (h : list Student) (c : bool) :
  Forall (fun l => (l < length h)%nat) ls ->
  Forall (fun l => (l < length (migrate_each ls h c).1)%nat
                   /\ history_ok (read (migrate_each ls h c).1 l)) ls.
Proof.
  revert h c. induction ls as [|l ls IH]; intros h c Hall; [constructor |].
  inversion Hall as [|? ? Hl Hls]; subst. simpl.
  destruct (migrate_record (read h l)) as [s' c'] eqn:E.
  constructor.
  - split; [rewrite migrate_each_length, length_insert; exact Hl |].
    apply migrate_each_keeps_ok; [rewrite length_insert; exact Hl |].
    rewrite read_insert_eq by exact Hl.
    change s' with (s', c').1. rewrite <- E. apply migrate_record_ok.
  - apply IH. rewrite length_insert. exact Hls.
Qed.

Lemma migrate_invariant (st : State) :
  Forall (fun l => (l < length (heap st))%nat) (students st) ->
  store_invariant (_migratePerformanceHistory st).
Proof.
  intros Hall. unfold _migratePerformanceHistory, store_invariant.
  pose proof (migrate_each_ok (students st) (heap st) false Hall) as H.
  destruct (migrate_each (students st) (heap st) false) as [h changed].
  destruct changed; exact H.
Qed.

Lemma appendSample_shape `{Score A} (prev : option (list A)) (s : number) :
  exists appended,
    (appended = [] \/ appended = [of_number s])
    /\ default [] prev ++ appended <> []
    /\ appendSample prev s = slice_last 5 (default [] prev ++ appended).
Proof.
  assert (Hpush : forall h : list A, h ++ [of_number s] <> []).
  { intros h E. apply app_eq_nil in E. destruct E; discriminate. }
  unfold appendSample.
  destruct prev as [h|]; cbv beta iota zeta; simpl default.
  - destruct (last h) as [latest|] eqn:L.
    + destruct (is_null latest
                || (0.001 <? Math_abs (s - ToNumber latest))%float).
      * exists [of_number s]. split; [right; reflexivity |].
        split; [apply Hpush | reflexivity].
      * exists []. rewrite app_nil_r. split; [left; reflexivity |].
        split; [| reflexivity]. intros E. subst h. discriminate.
    + exists [of_number s]. split; [right; reflexivity |].
      split; [apply Hpush | reflexivity].
  - exists [of_number s]. split; [right; reflexivity |].
    split; [discriminate | reflexivity].
Qed.

(** After a [null], which JSON left where a score was not finite, the new
    score is always pushed. *)
Lemma appendSample_after_null (h : list entry) (s : number) :
  last h = Some None ->
  appendSample (Some h) s = slice_last 5 (h ++ [Some s]).
Proof. intros L. unfold appendSample. rewrite L. reflexivity. Qed.

Lemma appendSample_ok `{Score A} (prev : option (list A)) (s : number) :
  appendSample prev s <> [] /\ length (appendSample prev s) <= 5.
Proof.
  destruct (appendSample_shape prev s) as (appended & _ & Hne & ->).
  apply slice_last_ok. exact Hne.
Qed.

Lemma findIndex_Some {A} (p : A -> bool) (l : list A) (i : nat) :
  findIndex p l = Some i -> i < length l.
Proof.
  revert i. induction l as [|x l IH]; intros i; simpl; [discriminate |].
  destruct (p x).
  - intros [= <-]. lia.
  - destruct (findIndex p l) as [j|]; simpl; [| discriminate].
    intros [= <-]. specialize (IH j eq_refl). lia.
Qed.

(** What a successful [updateStudent] does to the store. *)
Lemma updateStudent_Ok (sid : string) (u : Updates) (st st' : State) (l : loc) :
  updateStudent sid u st = (Ok l, st') ->
  exists index l0 appended,
    students st !! index = Some l0
    /\ l = length (heap st)
    /\ students st' = <[index := l]> (students st)
    /\ (exists merged, heap st' = heap st ++ [merged]
          /\ (appended = [] \/ appended = [Some (score_of merged)])
          /\ performanceHistory merged
             = Some (slice_last 5
                       (default [] (performanceHistory (read (heap st) l0))
                        ++ appended))
          /\ default [] (performanceHistory (read (heap st) l0)) ++ appended
             <> []).
Proof.
  unfold updateStudent.
  destruct (findIndex _ (records st)) as [index|] eqn:F; [| discriminate].
  apply findIndex_Some in F. unfold records in F. rewrite length_map in F.
  destruct (lookup_lt_is_Some_2 (students st) index F) as [l0 Hl0].
  rewrite Hl0. simpl default.
  match goal with |- context [if ?c then _ else _] => destruct c end;
    [discriminate |].
  intros [= <- <-]. exists index, l0.
  set (m := merge (read (heap st) l0) (normalize_update_tags u)).
  destruct (appendSample_shape (performanceHistory m) (score_of m))
    as (appended & Happ & Hne & Hshape).
  exists appended. split; [exact Hl0 |]. split; [reflexivity |].
  split; [reflexivity |].
  exists (set_history m (Some (appendSample (performanceHistory m) (score_of m)))).
  split; [reflexivity |]. split; [exact Happ |].
  split; [exact (f_equal Some Hshape) | exact Hne].
Qed.

Lemma seq_allocated (h xs : list Student) :
  Forall (fun l => l < length (h ++ xs)) (seq (length h) (length xs)).
Proof.
  apply Forall_forall. intros l Hl. apply elem_of_seq in Hl.
  rewrite length_app. lia.
Qed.

Lemma invariant_alloc (h : list Student) (x : Student) (ls : list loc) :
  Forall (fun l => l < length h /\ history_ok (read h l)) ls ->
  Forall (fun l => l < length (h ++ [x]) /\ history_ok (read (h ++ [x]) l)) ls.
Proof.
  intros H. eapply Forall_impl; [exact H |]. intros l [Hl Hok]. split.
  - rewrite length_app. lia.
  - rewrite read_app_l by exact Hl. exact Hok.
Qed.

Section Reachable.
Variable validateStudent : StudentData -> bool.
Variable generateStudentID : number -> string.

Lemma addStudent_invariant (data : StudentData) (st : State) :
  store_invariant st ->
  store_invariant (addStudent validateStudent generateStudentID data st).2.
Proof.
  intros Hinv. unfold addStudent.
  destruct (negb (validateStudent data)); [exact Hinv |].
  destruct (emailExists st (d_email data) None); [exact Hinv |].
  unfold store_invariant. simpl. apply Forall_app. split.
  - apply invariant_alloc. exact Hinv.
  - constructor; [| constructor]. split.
    + rewrite length_app. simpl. lia.
    + rewrite read_app_new. eexists. split; [reflexivity |].
      split; [discriminate | simpl; lia].
Qed.

Lemma updateStudent_invariant (sid : string) (u : Updates) (st : State) :
  store_invariant st -> store_invariant (updateStudent sid u st).2.
Proof.
  intros Hinv.
  destruct (updateStudent sid u st) as [[l|msg] st'] eqn:E.
  - destruct (updateStudent_Ok _ _ _ _ _ E)
      as (index & l0 & appended & _ & -> & Hst & merged & Hheap & _ & Hhist & Hne).
    unfold store_invariant. simpl. rewrite Hst, Hheap.
    apply Forall_insert.
    + apply invariant_alloc. exact Hinv.
    + split; [rewrite length_app; simpl; lia |].
      rewrite read_app_new. eexists. split; [exact Hhist |].
      apply slice_last_ok. exact Hne.
  - simpl. revert E. unfold updateStudent.
    destruct (findIndex _ (records st)); [| intros [= _ <-]; exact Hinv].
    match goal with |- context [if ?c then _ else _] => destruct c end;
      [intros [= _ <-]; exact Hinv | discriminate].
Qed.

Lemma importFromJSON_invariant (data : option (list (option Student)))
    (st st' : State) (b : bool) :
  importFromJSON data st = (b, objects_only st') ->
  store_invariant st -> store_invariant st'.
Proof.
  unfold importFromJSON. intros E Hinv.
  destruct data as [elements|]; [| injection E as _ <-; exact Hinv].
  destruct (all_objects elements) as [recs|]; [| discriminate].
  cbv zeta in E. injection E as _ <-.
  apply (migrate_invariant
           (mkState (heap st ++ recs) (seq (length (heap st)) (length recs))
                    (nextId st) (students_db st))).
  apply seq_allocated.
Qed.

Lemma construct_invariant (stored : option (list Student)) :
  store_invariant (construct stored).
Proof.
  unfold construct. cbv zeta.
  apply (migrate_invariant
           (mkState (default [] stored) (seq 0 (length (default [] stored)))
                    0%float stored)).
  apply (seq_allocated [] (default [] stored)).
Qed.

Lemma reachable_invariant (st : State) :
  reachable validateStudent generateStudentID st -> store_invariant st.
Proof.
  induction 1.
  - apply construct_invariant.
  - apply addStudent_invariant. assumption.
  - apply updateStudent_invariant. assumption.
  - eapply importFromJSON_invariant; eassumption.
Qed.

End Reachable.

Lemma invariant_records (st : State) :
  store_invariant st -> Forall history_ok (records st).
Proof.
  unfold store_invariant, records. intros H.
  apply List.Forall_map. eapply Forall_impl; [exact H |].
  intros l [_ Hok]. exact Hok.
Qed.

Lemma invariant_allocated (st : State) (l : loc) :
  store_invariant st -> l ∈ students st -> l < length (heap st).
Proof.
  unfold store_invariant. rewrite Forall_forall. intros H Hl.
  apply (H l Hl).
Qed.

(** While the array holds objects, that is in every state the model
    reaches before an import fails half-way, each record of the store has
    a history that is not empty and at most five long.  Migration, update
    and registration change a history only by appending the new score and
    by dropping, from the oldest end, what exceeds five entries; they leave
    the other records as they were. *)
Theorem history_invariant
    (validateStudent : StudentData -> bool)
    (generateStudentID : number -> string) (st : State) :
  reachable validateStudent generateStudentID st ->
  Forall history_ok (records st)
  /\ (forall s old,
        performanceHistory s = Some old -> old <> [] ->
        exists new, performanceHistory (migrate_record s).1 = Some new
                    /\ keeps_newest old new)
  /\ (forall sid u l st',
        updateStudent sid u st = (Ok l, st') ->
        exists index l0 appended new,
          students st !! index = Some l0
          /\ students st' = <[index := l]> (students st)
          /\ performanceHistory (read (heap st') l) = Some new
          /\ (appended = []
              \/ appended = [Some (score_of (read (heap st') l))])
          /\ keeps_newest
               (default [] (performanceHistory (read (heap st) l0)) ++ appended)
               new
          /\ (forall l', l' ∈ students st ->
                read (heap st') l' = read (heap st) l'))
  /\ (forall data l st',
        addStudent validateStudent generateStudentID data st = (Ok l, st') ->
        students st' = students st ++ [l]
        /\ performanceHistory (read (heap st') l)
           = Some [Some (score_of (read (heap st') l))]
        /\ (forall l', l' ∈ students st ->
              read (heap st') l' = read (heap st) l')).
Proof.
  intros Hreach. apply reachable_invariant in Hreach.
  split; [apply invariant_records; exact Hreach |].
  split; [exact migrate_record_keeps_newest |].
  split.
  - intros sid u l st' E.
    destruct (updateStudent_Ok _ _ _ _ _ E)
      as (index & l0 & appended & Hl0 & -> & Hst & merged & Hheap & Happ
          & Hhist & _).
    exists index, l0, appended, (slice_last 5
      (default [] (performanceHistory (read (heap st) l0)) ++ appended)).
    rewrite Hheap, read_app_new.
    split; [exact Hl0 |]. split; [exact Hst |]. split; [exact Hhist |].
    split; [exact Happ |]. split; [apply keeps_newest_slice |].
    intros l' Hl'. apply read_app_l.
    apply invariant_allocated; assumption.
  - intros data l st'. unfold addStudent.
    destruct (negb (validateStudent data)); [discriminate |].
    destruct (emailExists st (d_email data) None); [discriminate |].
    intros [= <- <-]. simpl. rewrite read_app_new.
    split; [reflexivity |]. split; [reflexivity |].
    intros l' Hl'. apply read_app_l.
    apply invariant_allocated; assumption.
Qed.

Lemma history_invariant_witness :
  Forall history_ok
    (records (updateStudent "STU-2025-001" sample_update one_at_risk).2).
Proof.
  apply (history_invariant (fun _ => true) (fun _ => "STU-2025-002")).
  apply reach_update. apply reach_construct.
Defined.

(** What a failing import leaves: the array is in place, its objects
    before the first element that is not an object are migrated, the
    others are as the file had them, and the rest of the model is
    untouched. *)
Lemma importFromJSON_half_way (before : list Student)
    (after : list (option Student)) (st : State) :
  importFromJSON (Some (map Some before ++ None :: after)) st
  = (false,
     half_migrated
       (map (fun s => Some (migrate_record s).1) before ++ None :: after) st).
Proof.
  unfold importFromJSON.
  assert (Hnone : all_objects (map Some before ++ None :: after) = None).
  { induction before as [|s before IH]; [reflexivity |].
    simpl. rewrite IH. reflexivity. }
  rewrite Hnone. do 2 f_equal.
  induction before as [|s before IH]; [reflexivity |].
  simpl. rewrite IH; [reflexivity |].
  simpl in Hnone. destruct (all_objects (map Some before ++ None :: after));
    [discriminate | reflexivity].
Qed.

(** An import of objects only always succeeds. *)
Lemma importFromJSON_objects (recs : list Student) (st : State) :
  exists st', importFromJSON (Some (map Some recs)) st = (true, objects_only st')
              /\ store_invariant st'.
Proof.
  unfold importFromJSON.
  assert (Hall : all_objects (map Some recs) = Some recs).
  { induction recs as [|s recs IH]; [reflexivity |].
    simpl. rewrite IH. reflexivity. }
  rewrite Hall. cbv zeta. eexists. split; [reflexivity |].
  apply (migrate_invariant
           (mkState (heap st ++ recs) (seq (length (heap st)) (length recs))
                    (nextId st) (students_db st))).
  apply seq_allocated.
Qed.

(** C4: the invariant is broken by an import that fails half-way.  Of the
    array [[null, s]], with [s] holding seven scores, the migration throws
    at [null]; [importFromJSON] answers [false], yet the array is now the
    model's, and [s] has its seven scores still.  The same record in an
    array of objects is cut to its five newest scores. *)
Theorem failed_import_breaks_invariant :
  importFromJSON (Some [None; Some seven_scores]) (construct None)
  = (false, half_migrated [None; Some seven_scores] (construct None))
  /\ length <$> performanceHistory seven_scores = Some 7%nat
  /\ ~ history_ok seven_scores
  /\ (importFromJSON (Some [Some seven_scores]) (construct None)).1 = true
  /\ match (importFromJSON (Some [Some seven_scores]) (construct None)).2 with
     | objects_only st =>
         map performanceHistory (records st)
         = [Some [Some 3; Some 4; Some 5; Some 6; Some 7]%float]
     | half_migrated _ _ => False
     end.
Proof.
  split; [reflexivity |]. split; [reflexivity |].
  split; [| split; reflexivity].
  intros (h & E & _ & Hlen). injection E as <-. simpl in Hlen. lia.
Qed.

(** *** The assistant only reads the store *)

Lemma unchanged_refl (st : State) : unchanged st st.
Proof.
  repeat split. exists []. symmetry. apply app_nil_r.
Qed.

Lemma unchanged_trans (st1 st2 st3 : State) :
  unchanged st1 st2 -> unchanged st2 st3 -> unchanged st1 st3.
Proof.
  intros (Hs & Hn & Hd & f1 & Hh) (Hs' & Hn' & Hd' & f2 & Hh').
  repeat split; try congruence.
  exists (f1 ++ f2). rewrite Hh', Hh. symmetry. apply app_assoc.
Qed.

Lemma unchanged_lookup (st st' : State) (l : loc) (s : Student) :
  unchanged st st' -> heap st !! l = Some s -> heap st' !! l = Some s.
Proof.
  intros (_ & _ & _ & fresh & ->) H. apply lookup_app_l_Some. exact H.
Qed.

Lemma getAllStudents_unchanged (st : State) :
  unchanged st (getAllStudents st).2.
Proof.
  unfold getAllStudents. cbv zeta. simpl. repeat split.
  eexists. symmetry. apply app_assoc.
Qed.

Lemma getAllStudents_objects (st : State) :
  objects (getAllStudents st) = map snapshot (records st).
Proof.
  unfold objects, getAllStudents. cbv zeta. cbn [fst snd heap].
  rewrite (read_fresh (heap st) (map deepClone (records st))).
  rewrite (read_fresh (heap st ++ map deepClone (records st))).
  rewrite List.map_map. reflexivity.
Qed.

(** The objects the assistant is handed are fresh: none is an object of
    the store. *)
Lemma getAllStudents_fresh (st : State) :
  Forall (fun l => length (heap st) <= l) (getAllStudents st).1.
Proof.
  unfold getAllStudents. cbv zeta. simpl.
  apply Forall_forall. intros l Hl. apply elem_of_seq in Hl.
  rewrite length_app in Hl. lia.
Qed.

Lemma filter_objects_state (p : Student -> bool) (r : list loc * State) :
  (filter_objects p r).2 = r.2.
Proof. reflexivity. Qed.

Lemma getAtRiskStudents_unchanged (st : State) :
  unchanged st (getAtRiskStudents st).2.
Proof. apply getAllStudents_unchanged. Qed.

Lemma getStudentsByDepartment_unchanged (dept : string) (st : State) :
  unchanged st (getStudentsByDepartment dept st).2.
Proof.
  unfold getStudentsByDepartment. cbv zeta.
  destruct (String.eqb _ ""); apply getAllStudents_unchanged.
Qed.

Lemma getHighestGPAStudents_unchanged (st : State) :
  unchanged st (getHighestGPAStudents st).2.
Proof.
  unfold getHighestGPAStudents. cbv zeta.
  destruct (getStudents st).1; apply getAllStudents_unchanged.
Qed.

Lemma getLowAttendanceStudents_unchanged (t : option number) (st : State) :
  unchanged st (getLowAttendanceStudents t st).2.
Proof. apply getAllStudents_unchanged. Qed.

Lemma getPlacementReadyStudents_unchanged (st : State) :
  unchanged st (getPlacementReadyStudents st).2.
Proof. apply getAllStudents_unchanged. Qed.

Lemma findStudentByName_unchanged (name : string) (st : State) :
  unchanged st (findStudentByName name st).2.
Proof.
  unfold findStudentByName. cbv zeta.
  destruct (String.eqb _ ""); [apply unchanged_refl |].
  apply getAllStudents_unchanged.
Qed.

Lemma getOverallPerformanceSummary_unchanged (st : State) :
  unchanged st (getOverallPerformanceSummary st).2.
Proof.
  unfold getOverallPerformanceSummary. cbv zeta.
  destruct (getStudents st).1; [apply getAllStudents_unchanged |].
  cbn [snd].
  eapply unchanged_trans; [apply getAllStudents_unchanged |].
  eapply unchanged_trans; [apply getAtRiskStudents_unchanged |].
  apply getPlacementReadyStudents_unchanged.
Qed.

Lemma getAutoAlertSuggestion_unchanged (st : State) :
  unchanged st (getAutoAlertSuggestion st).2.
Proof.
  unfold getAutoAlertSuggestion. cbv zeta.
  destruct (getAtRiskStudents st).1; apply getAtRiskStudents_unchanged.
Qed.

Lemma getResponse_unchanged (i : Interpreted) (st : State) :
  unchanged st (getResponse i st).2.
Proof.
  unfold getResponse. cbv zeta. destruct (intent i).
  - apply getOverallPerformanceSummary_unchanged.
  - destruct (getAtRiskStudents st).1; apply getAtRiskStudents_unchanged.
  - destruct (getStudentsByDepartment _ st).1;
      apply getStudentsByDepartment_unchanged.
  - destruct (objects (getHighestGPAStudents st));
      apply getHighestGPAStudents_unchanged.
  - destruct (getLowAttendanceStudents _ st).1;
      apply getLowAttendanceStudents_unchanged.
  - destruct (getPlacementReadyStudents st).1;
      apply getPlacementReadyStudents_unchanged.
  - destruct (String.eqb _ ""); [apply unchanged_refl |].
    destruct (findStudentByName _ st).1; apply findStudentByName_unchanged.
  - destruct (getDepartmentComparison st). apply unchanged_refl.
  - destruct (getAutoAlertSuggestion st).1;
      apply getAutoAlertSuggestion_unchanged.
  - apply unchanged_refl.
Qed.

Lemma unchanged_records (st st' : State) :
  unchanged st st' ->
  Forall (fun l => l < length (heap st)) (students st) ->
  records st' = records st.
Proof.
  intros (Hs & _ & _ & fresh & Hh) Hall. unfold records. rewrite Hs, Hh.
  apply map_ext_in. intros l Hl. apply read_app_l.
  rewrite List.Forall_forall in Hall. apply Hall. exact Hl.
Qed.

(** C10: answering a query leaves the store as it was.  After
    [interpretQuery] and [getResponse] the array of students, every object
    of the heap, the id counter and the stored text are what they were, so
    every record of the store reads the same; the records the assistant
    works on are fresh objects holding clones. *)
Theorem assistant_reads_only (rawQuery : string) (st : State) :
  let st' := (getResponse (interpretQuery rawQuery) st).2 in
  unchanged st st'
  /\ (forall l s, heap st !! l = Some s -> heap st' !! l = Some s)
  /\ (allocated st -> records st' = records st)
  /\ Forall (fun l => length (heap st) <= l) (getAllStudents st).1
  /\ objects (getAllStudents st) = map snapshot (records st).
Proof.
  cbv zeta.
  pose proof (getResponse_unchanged (interpretQuery rawQuery) st) as H.
  split; [exact H |].
  split; [intros l s; apply unchanged_lookup; exact H |].
  split; [apply unchanged_records; exact H |].
  split; [apply getAllStudents_fresh | apply getAllStudents_objects].
Qed.

(** *** The at-risk reply *)

(** A comparison with NaN is false, so the guard [!isNaN(x)] in front of
    [x < y] changes nothing. *)
Lemma guarded_ltb (x y : number) :
  (negb (isNaN x) && (x <? y)%float)%bool = (x <? y)%float.
Proof.
  unfold isNaN, is_nan. rewrite FloatAxioms.eqb_spec, FloatAxioms.ltb_spec.
  destruct (Prim2SF x) as [s| s| |s m e]; try reflexivity.
  - destruct s; reflexivity.
  - unfold SFeqb, SFcompare. destruct s.
    + rewrite Z.compare_refl, Pos.compare_cont_refl. reflexivity.
    + rewrite Z.compare_refl, Pos.compare_cont_refl. reflexivity.
Qed.

Lemma is_at_risk_spec (s : Student) : is_at_risk s = at_risk s.
Proof.
  unfold is_at_risk, at_risk, riskAttendanceThreshold, riskGPAThreshold.
  cbv zeta. rewrite !guarded_ltb. reflexivity.
Qed.

Lemma filter_objects_objects (p : Student -> bool) (r : list loc * State) :
  objects (filter_objects p r) = List.filter p (objects r).
Proof.
  unfold objects, filter_objects. cbn [fst snd].
  induction r.1 as [|l ls IH]; [reflexivity |].
  simpl. destruct (p (read (heap r.2) l)); simpl; rewrite IH; reflexivity.
Qed.

Lemma getAtRiskStudents_objects (st : State) :
  objects (getAtRiskStudents st)
  = List.filter at_risk (map snapshot (records st)).
Proof.
  unfold getAtRiskStudents, getStudents.
  rewrite filter_objects_objects, getAllStudents_objects.
  apply List.filter_ext. exact is_at_risk_spec.
Qed.

Lemma objects_length (r : list loc * State) : length (objects r) = length r.1.
Proof. apply length_map. Qed.

Lemma match_nonempty {A B} (l : list A) (a b : B) :
  l <> [] -> match l with [] => a | _ :: _ => b end = b.
Proof. destruct l; [congruence | reflexivity]. Qed.

Lemma at_risk_reply_general (i : Interpreted) (st : State) :
  let atRisk := List.filter at_risk (map snapshot (records st)) in
  let reply := (getResponse i st).1 in
  intent i = Intent.at_risk -> atRisk <> [] ->
  text reply
  = ("**" ++ show_nat (length atRisk)
     ++ "** student(s) are at risk (attendance < 70% or GPA < 2.5):"
     ++ newline ++ newline
     ++ join newline (map name_and_id (take 10 atRisk))
     ++ (if (10 <? length atRisk)%nat
         then " ... and " ++ show_nat (length atRisk - 10)%nat ++ " more."
         else "")
     ++ newline ++ newline
     ++ "I can apply the " ++ dquote ++ "Needs Attention" ++ dquote
     ++ " filter on the Students page if you’d like.")%string
  /\ action reply = Some filter_at_risk
  /\ length (take 10 atRisk) = Nat.min 10 (length atRisk).
Proof.
  cbv zeta. intros Hi Hne.
  pose proof (getAtRiskStudents_objects st) as Hobj.
  assert (Hlen : length (getAtRiskStudents st).1
                 = length (List.filter at_risk (map snapshot (records st)))).
  { rewrite <- Hobj. symmetry. apply objects_length. }
  assert (Hlocs : (getAtRiskStudents st).1 <> []).
  { intros E. apply Hne. rewrite <- Hobj. unfold objects. rewrite E. reflexivity. }
  unfold getResponse. rewrite Hi. cbv zeta.
  rewrite (match_nonempty _ _ _ Hlocs). cbn [fst text action].
  rewrite Hlen, Hobj.
  split; [reflexivity |]. split; [reflexivity |]. apply length_take.
Qed.

(** C7: when some record is at risk (attendance below 70 or GPA below
    2.5), the reply to the at-risk intent states how many are, lists the
    first ten of them at most, adds "... and N more" exactly when more than
    ten match, and carries the action [filter_at_risk].  With one student
    at GPA 2.0 and attendance 60%, "How many students are at risk?" is read
    as the at-risk intent and the reply mentions the count 1. *)
Theorem at_risk_reply :
  (forall (i : Interpreted) (st : State),
     let atRisk := List.filter at_risk (map snapshot (records st)) in
     let reply := (getResponse i st).1 in
     intent i = Intent.at_risk -> atRisk <> [] ->
     text reply
     = ("**" ++ show_nat (length atRisk)
        ++ "** student(s) are at risk (attendance < 70% or GPA < 2.5):"
        ++ newline ++ newline
        ++ join newline (map name_and_id (take 10 atRisk))
        ++ (if (10 <? length atRisk)%nat
            then " ... and " ++ show_nat (length atRisk - 10)%nat ++ " more."
            else "")
        ++ newline ++ newline
        ++ "I can apply the " ++ dquote ++ "Needs Attention" ++ dquote
        ++ " filter on the Students page if you’d like.")%string
     /\ action reply = Some filter_at_risk
     /\ length (take 10 atRisk) = Nat.min 10 (length atRisk))
  /\ interpretQuery "How many students are at risk?"
     = {| intent := Intent.at_risk; params := no_params;
          rawQuery := "How many students are at risk?" |}
  /\ (getResponse (interpretQuery "How many students are at risk?")
                  one_at_risk).1
     = {| text := ("**1** student(s) are at risk (attendance < 70% or GPA < 2.5):"
                   ++ newline ++ newline ++ "Asha Rao (STU-2025-001)"
                   ++ newline ++ newline
                   ++ "I can apply the " ++ dquote ++ "Needs Attention"
                   ++ dquote
                   ++ " filter on the Students page if you’d like.")%string;
          action := Some filter_at_risk |}.
Proof.
  split; [exact at_risk_reply_general |].
  split; vm_compute; reflexivity.
Qed.

Lemma at_risk_reply_witness :
  text (getResponse (interpretQuery "/risk") eleven_at_risk).1
  = ("**11** student(s) are at risk (attendance < 70% or GPA < 2.5):"
     ++ newline ++ newline
     ++ join newline
          (map (fun n => "Student" ++ n ++ " Doe (STU-2025-0" ++ n ++ ")")
               ["01"; "02"; "03"; "04"; "05"; "06"; "07"; "08"; "09"; "10"])
     ++ " ... and 1 more."
     ++ newline ++ newline
     ++ "I can apply the " ++ dquote ++ "Needs Attention" ++ dquote
     ++ " filter on the Students page if you’d like.")%string.
Proof.
  destruct at_risk_reply as [H _].
  destruct (H (interpretQuery "/risk") eleven_at_risk) as [Ht _].
  - vm_compute. reflexivity.
  - vm_compute. discriminate.
  - rewrite Ht. vm_compute. reflexivity.
Defined.

(** *** Runs of characters and the greedy star *)

Lemma span_append (f : ascii -> bool) (s : string) :
  ((span f s).1 ++ (span f s).2)%string = s.
Proof.
  induction s as [|c s IH]; [reflexivity |].
  simpl. destruct (f c); [| reflexivity].
  destruct (span f s) as [a b]. simpl in *. rewrite IH. reflexivity.
Qed.

Lemma run_end_rest (f : ascii -> bool) (b : option ascii) (s : string) :
  (run_end f b s).2 = (span f s).2.
Proof.
  revert b. induction s as [|c s IH]; intros b; [reflexivity |].
  simpl. destruct (f c); [| reflexivity].
  rewrite IH. destruct (span f s). reflexivity.
Qed.

Lemma take_str_append (a b : string) :
  take_str (String.length a) (a ++ b)%string = a.
Proof.
  induction a as [|c a IH]; simpl.
  - destruct b; reflexivity.
  - rewrite IH. reflexivity.
Qed.

Lemma length_append (a b : string) :
  String.length (a ++ b)%string = String.length a + String.length b.
Proof. induction a as [|c a IH]; simpl; [reflexivity | rewrite IH; reflexivity]. Qed.

(** The text between a position and the end of the run that starts there
    is the run. *)
Lemma consumed_run (f : ascii -> bool) (s : string) :
  take_str (String.length s - String.length (span f s).2) s = (span f s).1.
Proof.
  rewrite <- (span_append f s) at 1 3.
  rewrite length_append.
  replace (String.length (span f s).1 + String.length (span f s).2
           - String.length (span f s).2)
    with (String.length (span f s).1) by lia.
  apply take_str_append.
Qed.

Lemma skip_stuck (f : ascii -> bool) (p : pos) :
  match rest p with String d _ => f d = false | EmptyString => True end ->
  skip f p = p.
Proof.
  destruct p as [b r c]. destruct r as [|d s]; [reflexivity |].
  cbn [rest]. intros H. unfold skip. cbn [rest before caps run_end].
  rewrite H. reflexivity.
Qed.

Lemma rmatch_class (f : ascii -> bool) (p : pos)
    (k : pos -> option (list (nat * string))) :
  rmatch (Class f) p k
  = match rest p with
    | String d s => if f d then k (advance p d s) else None
    | EmptyString => None
    end.
Proof. reflexivity. Qed.

Lemma rmatch_seq (r1 r2 : regex) (p : pos)
    (k : pos -> option (list (nat * string))) :
  rmatch (Seq r1 r2) p k = rmatch r1 p (fun q => rmatch r2 q k).
Proof. reflexivity. Qed.

Lemma rmatch_group (i : nat) (r : regex) (p : pos)
    (k : pos -> option (list (nat * string))) :
  rmatch (Group i r) p k = rmatch r p (fun q => k (capture i p q)).
Proof. reflexivity. Qed.

Lemma rmatch_star (r : regex) (p : pos)
    (k : pos -> option (list (nat * string))) :
  rmatch (Star r) p k = star_loop (rmatch r) k (String.length (rest p)) p.
Proof. reflexivity. Qed.

(** A greedy [f*] in front of a continuation that cannot fail runs to the
    end of the run of [f]. *)
Lemma star_class (f : ascii -> bool)
    (k : pos -> option (list (nat * string))) :
  (forall q, is_Some (k q)) ->
  forall fuel p, String.length (rest p) <= fuel ->
    star_loop (rmatch (Class f)) k fuel p = k (skip f p).
Proof.
  intros Hk. induction fuel as [|fuel IH]; intros p Hlen.
  - cbn [star_loop]. rewrite skip_stuck; [reflexivity |].
    destruct (rest p); [exact I | simpl in Hlen; lia].
  - cbn [star_loop]. rewrite rmatch_class.
    destruct (rest p) as [|d s] eqn:E.
    + rewrite skip_stuck; [reflexivity | rewrite E; exact I].
    + destruct (f d) eqn:F.
      * cbn [rest advance].
        assert (Hlt : (String.length s <? String.length (String d s)) = true).
        { apply Nat.ltb_lt. simpl. lia. }
        rewrite Hlt, IH by (simpl in *; lia).
        assert (Hs : skip f (advance p d s) = skip f p).
        { unfold skip, advance. cbn [rest before caps]. rewrite E.
          cbn [run_end]. rewrite F. reflexivity. }
        rewrite Hs. destruct (Hk (skip f p)) as [c ->]. reflexivity.
      * rewrite skip_stuck; [reflexivity | rewrite E; exact F].
Qed.

(** *** The threshold pattern *)

Lemma threshold_tail (q : pos) :
  rmatch (Seq (Star (Class is_space)) (Alt (Chr "%") Eps)) q
         (fun r => Some (caps r))
  = Some (caps q).
Proof.
  assert (Hk : forall r, rmatch (Alt (Chr "%") Eps) r (fun r => Some (caps r))
                         = Some (caps r)).
  { intros r. cbn [rmatch]. destruct (rest r) as [|d s]; [reflexivity |].
    destruct (Ascii.eqb "%" d); reflexivity. }
  cbn [rmatch].
  rewrite (star_class is_space (fun q' => rmatch (Alt (Chr "%") Eps) q'
                                            (fun r => Some (caps r)))).
  - rewrite Hk. reflexivity.
  - intros r. rewrite Hk. eexists. reflexivity.
  - lia.
Qed.

Lemma span_length (f : ascii -> bool) (s : string) :
  String.length (span f s).2 <= String.length s.
Proof.
  rewrite <- (span_append f s) at 2. rewrite length_append. lia.
Qed.

(** At a position, the pattern [(\d+)\s*%?] matches exactly when a digit
    follows, and then captures the whole run of digits. *)
Lemma threshold_at (p : pos) :
  rmatch re_threshold p (fun q => Some (caps q))
  = match rest p with
    | String d s =>
        if is_digit d
        then Some ((1, String d (span is_digit s).1) :: caps p)
        else None
    | EmptyString => None
    end.
Proof.
  change re_threshold
    with (Seq (Group 1 (Seq (Class is_digit) (Star (Class is_digit))))
              (Seq (Star (Class is_space)) (Alt (Chr "%") Eps))).
  rewrite rmatch_seq, rmatch_group, rmatch_seq, rmatch_class.
  destruct (rest p) as [|d s] eqn:E; [reflexivity |].
  destruct (is_digit d) eqn:D; [| reflexivity].
  rewrite rmatch_star, (star_class is_digit).
  - rewrite threshold_tail. cbn [caps capture skip advance].
    unfold consumed. cbn [rest skip advance before].
    rewrite E, run_end_rest.
    pose proof (span_length is_digit s) as Hlen.
    replace (String.length (String d s) - String.length (span is_digit s).2)
      with (S (String.length s - String.length (span is_digit s).2))
      by (simpl; lia).
    cbn [take_str]. rewrite consumed_run. reflexivity.
  - intros q. rewrite threshold_tail. eexists. reflexivity.
  - lia.
Qed.

Lemma search_threshold (b : option ascii) (s : string) :
  search re_threshold b s
  = (fun ds => [(1, ds)]) <$> first_digit_run s.
Proof.
  revert b. induction s as [|c s IH]; intros b.
  - cbn [search]. rewrite threshold_at. reflexivity.
  - cbn [search]. rewrite threshold_at. cbn [rest caps first_digit_run span].
    destruct (is_digit c).
    + destruct (span is_digit s). reflexivity.
    + apply IH.
Qed.

(** [lower.match(/(\d+)\s*%?/)] finds the first run of digits. *)
Lemma exec_threshold (s : string) :
  exec re_threshold s = (fun ds => [(1, ds)]) <$> first_digit_run s.
Proof. apply search_threshold. Qed.

(** *** Reading the threshold *)

Lemma digit_plain (c : ascii) (s : string) :
  is_digit c = true ->
  is_space c = false /\ read_sign (String c s) = (false, String c s).
Proof.
  intros H.
  destruct c as [[] [] [] [] [] [] [] []];
    try (vm_compute in H; discriminate H); split; reflexivity.
Qed.

Lemma span_idem (f : ascii -> bool) (s : string) :
  span f (span f s).1 = ((span f s).1, EmptyString).
Proof.
  induction s as [|c s IH]; [reflexivity |].
  simpl. destruct (f c) eqn:F; [| reflexivity].
  destruct (span f s) as [a b]. simpl in *. rewrite F, IH. reflexivity.
Qed.

Lemma digit_val_nonneg (c : ascii) : is_digit c = true -> (0 <= digit_val c)%Z.
Proof.
  unfold is_digit, digit_val. intros H.
  apply andb_prop in H. destruct H as [H _]. apply Z.leb_le in H. lia.
Qed.

Lemma digits_val_run_nonneg (s : string) (acc : Z) :
  (0 <= acc)%Z -> (0 <= digits_val acc (span is_digit s).1)%Z.
Proof.
  revert acc. induction s as [|c s IH]; intros acc Hacc; [exact Hacc |].
  simpl. destruct (is_digit c) eqn:D; [| exact Hacc].
  specialize (IH (10 * acc + digit_val c)%Z).
  destruct (span is_digit s) as [a b]. simpl in *. apply IH.
  pose proof (digit_val_nonneg c D). lia.
Qed.

Lemma dec2F_integer (m : Z) : (0 <= m)%Z -> dec2F false m 0 = Z2F m.
Proof.
  intros H. destruct m as [|p|p]; [reflexivity | | lia].
  unfold dec2F, Z2F. simpl. rewrite Pos.mul_1_r. reflexivity.
Qed.

(** [parseInt] of a run of digits is the Number of its decimal value. *)
Lemma parseInt10_run (c : ascii) (s : string) :
  is_digit c = true ->
  parseInt10_string (String c (span is_digit s).1)
  = Z2F (digits_val 0 (String c (span is_digit s).1)).
Proof.
  intros D. unfold parseInt10_string.
  destruct (digit_plain c (span is_digit s).1 D) as [Hsp Hsign].
  cbn [trimStart]. rewrite Hsp, Hsign.
  cbn [span]. rewrite D, span_idem.
  apply dec2F_integer.
  cbn [digits_val]. apply digits_val_run_nonneg.
  pose proof (digit_val_nonneg c D). lia.
Qed.

Lemma extract_threshold (lower : string) :
  match exec re_threshold lower with
  | Some m => parseInt10_string (default "" (group 1 m))
  | None => 70%float
  end = threshold_of lower.
Proof.
  rewrite exec_threshold. unfold threshold_of.
  induction lower as [|c s IH]; [reflexivity |].
  cbn [first_digit_run]. destruct (is_digit c) eqn:D; [| exact IH].
  cbn [fmap option_fmap option_map group default Nat.eqb span].
  rewrite D. destruct (span is_digit s) as [a b] eqn:E.
  cbn [fst]. pose proof (parseInt10_run c s D) as H. rewrite E in H. exact H.
Qed.

(** *** The ordered rules of [interpretQuery] *)

Ltac split_rules H :=
  repeat (apply andb_prop in H;
          let H' := fresh "Hrule" in destruct H as [H H']);
  repeat match goal with
         | Hn : negb _ = true |- _ => apply negb_true_iff in Hn; rewrite Hn
         end.

Ltac skip_rule c :=
  destruct c; [cbn [intent]; let H := fresh in intros H; discriminate H |].

Lemma low_attendance_fires (q : string) :
  reaches_attendance_rule (toLowerCase (trim q)) = true ->
  test re_low_attendance (toLowerCase (trim q)) = true ->
  interpretQuery q
  = {| intent := Intent.low_attendance;
       params := {| p_department := None;
                    p_threshold := Some (threshold_of (toLowerCase (trim q)));
                    p_firstName := None |};
       rawQuery := trim q |}.
Proof.
  intros Hreach Hfire. unfold interpretQuery. cbv zeta.
  unfold reaches_attendance_rule, reaches_department_rule in Hreach.
  split_rules Hreach. rewrite Hfire, extract_threshold. reflexivity.
Qed.

Lemma low_attendance_threshold (q : string) :
  intent (interpretQuery q) = Intent.low_attendance ->
  p_threshold (params (interpretQuery q))
  = Some (threshold_of (toLowerCase (trim q))).
Proof.
  unfold interpretQuery. cbv zeta.
  set (lower := toLowerCase (trim q)).
  skip_rule (String.eqb lower "/summary").
  skip_rule (String.eqb lower "/risk").
  skip_rule (String.eqb lower "/top").
  skip_rule (String.eqb lower "/alerts").
  skip_rule (test re_at_risk lower).
  skip_rule (test re_department lower).
  skip_rule (test re_highest_gpa lower).
  destruct (test re_low_attendance lower).
  - intros _. cbn [params p_threshold]. rewrite extract_threshold. reflexivity.
  - skip_rule (test re_summary lower && negb (startsWith lower "/")).
    skip_rule (test re_placement lower).
    skip_rule (test re_trend lower).
    skip_rule (test re_comparison lower).
    skip_rule (test re_alerts lower).
    cbn [intent]. intros H. discriminate H.
Qed.

(** C8: "attendance below 65%" is read as the low-attendance intent with
    threshold 65.  Whenever the attendance rule takes a text, the threshold
    is the integer of the first run of digits of the text, and 70 when the
    text has no digit, as for "low attendance". *)
Theorem attendance_threshold :
  interpretQuery "attendance below 65%"
  = {| intent := Intent.low_attendance;
       params := {| p_department := None; p_threshold := Some 65%float;
                    p_firstName := None |};
       rawQuery := "attendance below 65%" |}
  /\ interpretQuery "low attendance"
     = {| intent := Intent.low_attendance;
          params := {| p_department := None; p_threshold := Some 70%float;
                       p_firstName := None |};
          rawQuery := "low attendance" |}
  /\ (forall q,
        reaches_attendance_rule (toLowerCase (trim q)) = true ->
        test re_low_attendance (toLowerCase (trim q)) = true ->
        interpretQuery q
        = {| intent := Intent.low_attendance;
             params :=
               {| p_department := None;
                  p_threshold := Some (threshold_of (toLowerCase (trim q)));
                  p_firstName := None |};
             rawQuery := trim q |})
  /\ (forall q,
        intent (interpretQuery q) = Intent.low_attendance ->
        p_threshold (params (interpretQuery q))
        = Some (threshold_of (toLowerCase (trim q))))
  /\ (forall lower ds,
        first_digit_run lower = Some ds ->
        threshold_of lower = Z2F (digits_val 0 ds))
  /\ (forall lower,
        first_digit_run lower = None -> threshold_of lower = 70%float).
Proof.
  split; [vm_compute; reflexivity |].
  split; [vm_compute; reflexivity |].
  split; [exact low_attendance_fires |].
  split; [exact low_attendance_threshold |].
  split; intros lower; unfold threshold_of.
  - intros ds ->. reflexivity.
  - intros ->. reflexivity.
Qed.

Lemma attendance_threshold_witness :
  interpretQuery "2 students have attendance below 65%"
  = {| intent := Intent.low_attendance;
       params := {| p_department := None; p_threshold := Some 2%float;
                    p_firstName := None |};
       rawQuery := "2 students have attendance below 65%" |}.
Proof.
  destruct attendance_threshold as (_ & _ & H & _).
  rewrite (H "2 students have attendance below 65%");
    vm_compute; reflexivity.
Defined.

(** *** The department rule *)

Lemma extractDepartment_table (lower : string) :
  _extractDepartment lower = canonical_department department_map lower.
Proof.
  unfold _extractDepartment.
  change (Object_entries department_map) with department_map.
  unfold department_map. cbn [List.find canonical_department fst snd].
  repeat match goal with
         | |- context [includes lower ?k] => destruct (includes lower k)
         end; reflexivity.
Qed.

Lemma department_fires (q : string) :
  reaches_department_rule (toLowerCase (trim q)) = true ->
  test re_department (toLowerCase (trim q)) = true ->
  interpretQuery q
  = {| intent := Intent.department;
       params :=
         {| p_department :=
              Some (canonical_department department_map (toLowerCase (trim q)));
            p_threshold := None; p_firstName := None |};
       rawQuery := trim q |}.
Proof.
  intros Hreach Hfire. unfold interpretQuery. cbv zeta.
  unfold reaches_department_rule in Hreach.
  split_rules Hreach. rewrite Hfire, extractDepartment_table. reflexivity.
Qed.

Lemma department_name (q : string) :
  intent (interpretQuery q) = Intent.department ->
  p_department (params (interpretQuery q))
  = Some (canonical_department department_map (toLowerCase (trim q))).
Proof.
  unfold interpretQuery. cbv zeta.
  set (lower := toLowerCase (trim q)).
  skip_rule (String.eqb lower "/summary").
  skip_rule (String.eqb lower "/risk").
  skip_rule (String.eqb lower "/top").
  skip_rule (String.eqb lower "/alerts").
  skip_rule (test re_at_risk lower).
  destruct (test re_department lower).
  - intros _. cbn [params p_department]. rewrite extractDepartment_table.
    reflexivity.
  - skip_rule (test re_highest_gpa lower).
    skip_rule (test re_low_attendance lower).
    skip_rule (test re_summary lower && negb (startsWith lower "/")).
    skip_rule (test re_placement lower).
    skip_rule (test re_trend lower).
    skip_rule (test re_comparison lower).
    skip_rule (test re_alerts lower).
    cbn [intent]. intros H. discriminate H.
Qed.

(** C9 (as the code has it): a text that matches the department phrasing
    and is not taken by an earlier rule (a slash command or the at-risk
    phrasing) is read as the department intent; the department is the
    canonical name of the first keyword of the table, in table order, that
    occurs anywhere in the lowercased text, and "Engineering" when none
    occurs.  "Show Engineering students" gives "Engineering". *)
Theorem department_intent :
  (forall q,
     reaches_department_rule (toLowerCase (trim q)) = true ->
     test re_department (toLowerCase (trim q)) = true ->
     interpretQuery q
     = {| intent := Intent.department;
          params :=
            {| p_department :=
                 Some (canonical_department department_map
                         (toLowerCase (trim q)));
               p_threshold := None; p_firstName := None |};
          rawQuery := trim q |})
  /\ (forall q,
        intent (interpretQuery q) = Intent.department ->
        p_department (params (interpretQuery q))
        = Some (canonical_department department_map (toLowerCase (trim q))))
  /\ (forall lower, _extractDepartment lower
                    = canonical_department department_map lower)
  /\ interpretQuery "Show Engineering students"
     = {| intent := Intent.department;
          params := {| p_department := Some "Engineering";
                       p_threshold := None; p_firstName := None |};
          rawQuery := "Show Engineering students" |}.
Proof.
  split; [exact department_fires |].
  split; [exact department_name |].
  split; [exact extractDepartment_table |].
  vm_compute. reflexivity.
Qed.

Lemma department_intent_witness :
  interpretQuery "Arts students in Physics"
  = {| intent := Intent.department;
       params := {| p_department := Some "Computer Science";
                    p_threshold := None; p_firstName := None |};
       rawQuery := "Arts students in Physics" |}.
Proof.
  destruct department_intent as (H & _).
  rewrite (H "Arts students in Physics"); vm_compute; reflexivity.
Defined.

(** C9 fails as stated: a text can match the department phrasing and be
    taken by the at-risk rule, which is tested first. *)
Lemma department_rule_preempted :
  test re_department (toLowerCase (trim "show engineering students at risk"))
  = true
  /\ intent (interpretQuery "show engineering students at risk")
     = Intent.at_risk.
Proof. split; vm_compute; reflexivity. Qed.

(** *** Replies depend on the records only *)

Lemma unchanged_allocated (st st' : State) :
  unchanged st st' -> allocated st -> allocated st'.
Proof.
  intros (Hs & _ & _ & fresh & Hh) Hall. unfold allocated. rewrite Hs, Hh.
  eapply Forall_impl; [exact Hall |]. intros l Hl. cbv beta in *.
  rewrite length_app. lia.
Qed.

Lemma locs_objects_case {B} (r : list loc * State) (a b : B) :
  match r.1 with [] => a | _ :: _ => b end
  = match objects r with [] => a | _ :: _ => b end.
Proof. unfold objects. destruct r.1; reflexivity. Qed.

Lemma getStudents_objects (st : State) :
  objects (getStudents st) = map snapshot (records st).
Proof. apply getAllStudents_objects. Qed.

Lemma find_objects (p : Student -> bool) (r : list loc * State) :
  read (heap r.2) <$> List.find (fun l => p (read (heap r.2) l)) r.1
  = List.find p (objects r).
Proof.
  unfold objects. induction r.1 as [|l ls IH]; [reflexivity |].
  simpl. destruct (p (read (heap r.2) l)); [reflexivity | exact IH].
Qed.

(** What each query returns, as a function of the records. *)
Lemma getStudentsByDepartment_objects (dept : string) (st : State) :
  objects (getStudentsByDepartment dept st)
  = if String.eqb (toLowerCase (trim dept)) ""
    then map snapshot (records st)
    else List.filter
           (fun s => includes (toLowerCase (department s))
                              (toLowerCase (trim dept)))
           (map snapshot (records st)).
Proof.
  unfold getStudentsByDepartment. cbv zeta.
  destruct (String.eqb _ "").
  - apply getStudents_objects.
  - rewrite filter_objects_objects, getStudents_objects. reflexivity.
Qed.

Lemma getHighestGPAStudents_objects (st : State) :
  objects (getHighestGPAStudents st)
  = match map snapshot (records st) with
    | [] => []
    | all =>
        List.filter
          (fun s => (parseFloat (gpa s)
                     =? fold_left Math_max2
                          (map (fun s => or_zero (parseFloat (gpa s))) all)
                          neg_infinity)%float)
          all
    end.
Proof.
  unfold getHighestGPAStudents. cbv zeta.
  rewrite (locs_objects_case (getStudents st)).
  pose proof (getStudents_objects st) as H.
  destruct (objects (getStudents st)) as [|s ss] eqn:E.
  - rewrite <- H. reflexivity.
  - rewrite filter_objects_objects, <- H, E.
    rewrite <- (List.map_map (read (heap (getStudents st).2))
                  (fun s => or_zero (parseFloat (gpa s)))).
    fold (objects (getStudents st)). rewrite E. reflexivity.
Qed.

Lemma getLowAttendanceStudents_objects (t : option number) (st : State) :
  objects (getLowAttendanceStudents t st)
  = List.filter
      (fun s => negb (isNaN (parseInt10 (attendance s)))
                && (parseInt10 (attendance s)
                    <? match t with
                       | Some x => parseInt10 (JNum x)
                       | None => 70
                       end)%float)
      (map snapshot (records st)).
Proof.
  unfold getLowAttendanceStudents. cbv zeta.
  rewrite filter_objects_objects, getStudents_objects. reflexivity.
Qed.

Lemma getPlacementReadyStudents_objects (st : State) :
  objects (getPlacementReadyStudents st)
  = List.filter is_placement_ready (map snapshot (records st)).
Proof.
  unfold getPlacementReadyStudents.
  rewrite filter_objects_objects, getStudents_objects. reflexivity.
Qed.

Lemma findStudentByName_object (name : string) (st : State) :
  read (heap (findStudentByName name st).2) <$> (findStudentByName name st).1
  = if String.eqb (toLowerCase (trim name)) "" then None
    else List.find
           (fun s => includes (toLowerCase (firstName s))
                              (toLowerCase (trim name))
                     || includes (toLowerCase (lastName s))
                                 (toLowerCase (trim name)))
           (map snapshot (records st)).
Proof.
  unfold findStudentByName. cbv zeta.
  destruct (String.eqb _ ""); [reflexivity |].
  cbn [fst snd].
  rewrite (find_objects
             (fun s => includes (toLowerCase (firstName s))
                                (toLowerCase (trim name))
                       || includes (toLowerCase (lastName s))
                                   (toLowerCase (trim name)))
             (getStudents st)).
  rewrite getStudents_objects. reflexivity.
Qed.

Lemma getStatistics_by_records (st st' : State) :
  records st = records st' -> getStatistics st = getStatistics st'.
Proof. intros H. unfold getStatistics. rewrite H. reflexivity. Qed.

Lemma getStudents_by_records (st st' : State) :
  records st = records st' ->
  objects (getStudents st) = objects (getStudents st').
Proof. intros H. rewrite !getStudents_objects, H. reflexivity. Qed.

Lemma getAtRiskStudents_by_records (st st' : State) :
  records st = records st' ->
  objects (getAtRiskStudents st) = objects (getAtRiskStudents st').
Proof. intros H. rewrite !getAtRiskStudents_objects, H. reflexivity. Qed.

Lemma getStudentsByDepartment_by_records (dept : string) (st st' : State) :
  records st = records st' ->
  objects (getStudentsByDepartment dept st)
  = objects (getStudentsByDepartment dept st').
Proof. intros H. rewrite !getStudentsByDepartment_objects, H. reflexivity. Qed.

Lemma getHighestGPAStudents_by_records (st st' : State) :
  records st = records st' ->
  objects (getHighestGPAStudents st) = objects (getHighestGPAStudents st').
Proof. intros H. rewrite !getHighestGPAStudents_objects, H. reflexivity. Qed.

Lemma getLowAttendanceStudents_by_records (t : option number) (st st' : State) :
  records st = records st' ->
  objects (getLowAttendanceStudents t st)
  = objects (getLowAttendanceStudents t st').
Proof. intros H. rewrite !getLowAttendanceStudents_objects, H. reflexivity. Qed.

Lemma getPlacementReadyStudents_by_records (st st' : State) :
  records st = records st' ->
  objects (getPlacementReadyStudents st)
  = objects (getPlacementReadyStudents st').
Proof. intros H. rewrite !getPlacementReadyStudents_objects, H. reflexivity. Qed.

Lemma findStudentByName_by_records (name : string) (st st' : State) :
  records st = records st' ->
  read (heap (findStudentByName name st).2) <$> (findStudentByName name st).1
  = read (heap (findStudentByName name st').2)
      <$> (findStudentByName name st').1.
Proof. intros H. rewrite !findStudentByName_object, H. reflexivity. Qed.

Lemma length_by_objects (r r' : list loc * State) :
  objects r = objects r' -> length r.1 = length r'.1.
Proof. intros H. rewrite <- !objects_length, H. reflexivity. Qed.

Lemma case_by_objects {B} (r r' : list loc * State) (a b : B) :
  objects r = objects r' ->
  match r.1 with [] => a | _ :: _ => b end
  = match r'.1 with [] => a | _ :: _ => b end.
Proof. intros H. rewrite !locs_objects_case, H. reflexivity. Qed.

Lemma getStudents_records (st : State) :
  allocated st ->
  records (getStudents st).2 = records st /\ allocated (getStudents st).2.
Proof.
  intros Hall. pose proof (getAllStudents_unchanged st) as H. split.
  - apply unchanged_records; assumption.
  - eapply unchanged_allocated; eassumption.
Qed.

Lemma getOverallPerformanceSummary_by_records (st st' : State) :
  allocated st -> allocated st' -> records st = records st' ->
  (getOverallPerformanceSummary st).1 = (getOverallPerformanceSummary st').1.
Proof.
  intros Hall Hall' Hrec.
  destruct (getStudents_records st Hall) as [R1 A1].
  destruct (getStudents_records st' Hall') as [R1' A1'].
  assert (R : records (getStudents st).2 = records (getStudents st').2)
    by congruence.
  assert (R2 : records (getAtRiskStudents (getStudents st).2).2
               = records (getAtRiskStudents (getStudents st').2).2).
  { change (records (getStudents (getStudents st).2).2
            = records (getStudents (getStudents st').2).2).
    destruct (getStudents_records _ A1) as [-> _].
    destruct (getStudents_records _ A1') as [-> _]. exact R. }
  unfold getOverallPerformanceSummary. cbv zeta.
  rewrite (case_by_objects (getStudents st) (getStudents st')
             _ _ (getStudents_by_records _ _ Hrec)).
  destruct (getStudents st').1; [reflexivity |]. cbn [fst].
  unfold getStats. rewrite (getStatistics_by_records _ _ R).
  rewrite (length_by_objects _ _ (getAtRiskStudents_by_records _ _ R)).
  rewrite (length_by_objects _ _ (getPlacementReadyStudents_by_records _ _ R2)).
  reflexivity.
Qed.

Lemma getAutoAlertSuggestion_by_records (st st' : State) :
  records st = records st' ->
  (getAutoAlertSuggestion st).1 = (getAutoAlertSuggestion st').1.
Proof.
  intros Hrec. unfold getAutoAlertSuggestion. cbv zeta.
  pose proof (getAtRiskStudents_by_records _ _ Hrec) as H.
  pose proof (length_by_objects _ _ H) as Hlen.
  pose proof (objects_length (getAtRiskStudents st)) as L.
  pose proof (objects_length (getAtRiskStudents st')) as L'.
  destruct (getAtRiskStudents st).1, (getAtRiskStudents st').1;
    try discriminate Hlen; [reflexivity |].
  cbn [fst]. rewrite Hlen. reflexivity.
Qed.

Lemma getDepartmentComparison_by_records (st st' : State) :
  records st = records st' ->
  getDepartmentComparison st = getDepartmentComparison st'.
Proof.
  intros Hrec. unfold getDepartmentComparison, getStats.
  rewrite (getStatistics_by_records _ _ Hrec). reflexivity.
Qed.

Lemma fst_option_case {A B C} (o : option A) (a : B * C) (b : A -> B * C) :
  (match o with None => a | Some x => b x end).1
  = match o with None => a.1 | Some x => (b x).1 end.
Proof. destruct o; reflexivity. Qed.

Lemma fst_list_case {A B C} (l : list A) (a : B * C)
    (b : A -> list A -> B * C) :
  (match l with [] => a | x :: t => b x t end).1
  = match l with [] => a.1 | x :: t => (b x t).1 end.
Proof. destruct l; reflexivity. Qed.

(** The reply is a function of the records of the store. *)
Lemma getResponse_by_records (i : Interpreted) (st st' : State) :
  allocated st -> allocated st' -> records st = records st' ->
  (getResponse i st).1 = (getResponse i st').1.
Proof.
  intros Hall Hall' Hrec. unfold getResponse. cbv zeta.
  destruct (intent i).
  - cbn [fst]. f_equal.
    apply getOverallPerformanceSummary_by_records; assumption.
  - pose proof (getAtRiskStudents_by_records _ _ Hrec) as H.
    rewrite !fst_list_case. cbn [fst].
    rewrite (case_by_objects _ _ _ _ H), !(length_by_objects _ _ H), H.
    reflexivity.
  - pose proof (getStudentsByDepartment_by_records
                  (match truthy (p_department (params i)) with
                   | Some d => d
                   | None => "Engineering"
                   end) _ _ Hrec) as H.
    rewrite !fst_list_case. cbn [fst].
    rewrite (case_by_objects _ _ _ _ H), !(length_by_objects _ _ H), H.
    reflexivity.
  - rewrite !fst_list_case. cbn [fst].
    rewrite (getHighestGPAStudents_by_records _ _ Hrec). reflexivity.
  - pose proof (getLowAttendanceStudents_by_records
                  (Some (default 70%float (p_threshold (params i))))
                  _ _ Hrec) as H.
    rewrite !fst_list_case. cbn [fst].
    rewrite (case_by_objects _ _ _ _ H), !(length_by_objects _ _ H), H.
    reflexivity.
  - pose proof (getPlacementReadyStudents_by_records _ _ Hrec) as H.
    rewrite !fst_list_case. cbn [fst].
    rewrite (case_by_objects _ _ _ _ H), !(length_by_objects _ _ H), H.
    reflexivity.
  - destruct (String.eqb _ ""); [reflexivity |].
    rewrite !fst_option_case. cbn [fst].
    pose proof (findStudentByName_by_records
                  (trim (default "" (p_firstName (params i)))) _ _ Hrec) as H.
    destruct (findStudentByName _ st).1, (findStudentByName _ st').1;
      cbn [fmap option_fmap option_map] in H; try discriminate H;
      [| reflexivity].
    injection H as ->. reflexivity.
  - rewrite (getDepartmentComparison_by_records _ _ Hrec).
    destruct (getDepartmentComparison st'). reflexivity.
  - rewrite !fst_option_case. cbn [fst].
    rewrite (getAutoAlertSuggestion_by_records _ _ Hrec). reflexivity.
  - reflexivity.
Qed.

(** X3: asking the same question again, on the store the first answer left
    behind, gives the same text and the same action: the assistant keeps
    no state of its own. *)
Theorem respond_idempotent (i : Interpreted) (st : State) :
  allocated st ->
  (getResponse i (getResponse i st).2).1 = (getResponse i st).1.
Proof.
  intros Hall. pose proof (getResponse_unchanged i st) as H.
  apply getResponse_by_records.
  - eapply unchanged_allocated; eassumption.
  - exact Hall.
  - apply unchanged_records; assumption.
Qed.

Lemma respond_idempotent_witness :
  (getResponse (interpretQuery "/risk")
               (getResponse (interpretQuery "/risk") one_at_risk).2).1
  = (getResponse (interpretQuery "/risk") one_at_risk).1.
Proof.
  apply respond_idempotent. unfold allocated.
  repeat constructor.
Defined.

(** *** Further properties of the interpreter *)


(** X2: which replies carry an action.  For [at_risk], [department] and
    [placement_ready] the reply carries the intent's own action exactly
    when the list found is not empty: [filter_at_risk], [filter_department]
    with the department asked for (Engineering when none was given) and
    [filter_tag "Placement Ready"].  An empty list has no action, and no
    other intent ever has one. *)
Theorem action_by_intent (i : Interpreted) (st : State) :
  let dept := default "Engineering" (truthy (p_department (params i))) in
  let reply := (getResponse i st).1 in
  (intent i = Intent.at_risk ->
     action reply = match (getAtRiskStudents st).1 with
                    | [] => None
                    | _ => Some filter_at_risk
                    end)
  /\ (intent i = Intent.department ->
       action reply = match (getStudentsByDepartment dept st).1 with
                      | [] => None
                      | _ => Some (filter_department dept)
                      end)
  /\ (intent i = Intent.placement_ready ->
       action reply = match (getPlacementReadyStudents st).1 with
                      | [] => None
                      | _ => Some (filter_tag "Placement Ready")
                      end)
  /\ (intent i <> Intent.at_risk -> intent i <> Intent.department ->
      intent i <> Intent.placement_ready -> action reply = None)
  /\ (forall a, action reply = Some a ->
        (intent i = Intent.at_risk /\ a = filter_at_risk
         /\ (getAtRiskStudents st).1 <> [])
        \/ (intent i = Intent.department /\ a = filter_department dept
            /\ (getStudentsByDepartment dept st).1 <> [])
        \/ (intent i = Intent.placement_ready
            /\ a = filter_tag "Placement Ready"
            /\ (getPlacementReadyStudents st).1 <> [])).
Proof.
  cbv zeta.
  assert (Hdept : match truthy (p_department (params i)) with
                  | Some d => d
                  | None => "Engineering"
                  end
                  = default "Engineering" (truthy (p_department (params i)))).
  { destruct (truthy (p_department (params i))); reflexivity. }
  unfold getResponse. cbv zeta. rewrite Hdept.
  set (dept := default "Engineering" (truthy (p_department (params i)))).
  destruct (intent i).
  - cbn [fst action say]. repeat split; try discriminate; congruence.
  - destruct (getAtRiskStudents st).1 eqn:E; cbn [fst action say];
      (split; [reflexivity |]); repeat split; try discriminate;
      try congruence.
    intros a [= <-]. left. repeat split. discriminate.
  - destruct (getStudentsByDepartment dept st).1 eqn:E; cbn [fst action say];
      (split; [discriminate |]); (split; [reflexivity |]);
      repeat split; try discriminate; try congruence.
    intros a [= <-]. right. left. repeat split. discriminate.
  - destruct (objects (getHighestGPAStudents st)); cbn [fst action say];
      repeat split; try discriminate; congruence.
  - destruct (getLowAttendanceStudents _ st).1; cbn [fst action say];
      repeat split; try discriminate; congruence.
  - destruct (getPlacementReadyStudents st).1 eqn:E; cbn [fst action say];
      (split; [discriminate |]); (split; [discriminate |]);
      (split; [reflexivity |]); repeat split; try discriminate;
      try congruence.
    intros a [= <-]. right. right. repeat split. discriminate.
  - destruct (String.eqb _ "");
      [cbn [fst action say]; repeat split; try discriminate; congruence |].
    destruct (findStudentByName _ st).1; cbn [fst action say];
      repeat split; try discriminate; congruence.
  - destruct (getDepartmentComparison st). cbn [fst action say].
    repeat split; try discriminate; congruence.
  - destruct (getAutoAlertSuggestion st).1; cbn [fst action say];
      repeat split; try discriminate; congruence.
  - cbn [fst action say]. repeat split; try discriminate; congruence.
Qed.

Lemma action_by_intent_witness :
  action (getResponse (interpretQuery "/risk") one_at_risk).1
  = Some filter_at_risk
  /\ action (getResponse (interpretQuery "/risk") (construct None)).1 = None
  /\ action (getResponse (interpretQuery "/summary") one_at_risk).1 = None.
Proof.
  split; [| split].
  - rewrite (proj1 (action_by_intent (interpretQuery "/risk") one_at_risk))
      by (vm_compute; reflexivity).
    vm_compute. reflexivity.
  - rewrite (proj1 (action_by_intent (interpretQuery "/risk") (construct None)))
      by (vm_compute; reflexivity).
    vm_compute. reflexivity.
  - apply (action_by_intent (interpretQuery "/summary") one_at_risk);
      vm_compute; discriminate.
Defined.

(** The model can tell a write from a read: migration rewrites the object
    of a record whose history is missing, in place. *)
Lemma migration_writes :
  let st := mkState [blank] [0] 1%float None in
  performanceHistory (read (heap st) 0) = None
  /\ performanceHistory (read (heap (_migratePerformanceHistory st)) 0)
     = Some [Some 0%float]
  /\ length (heap (_migratePerformanceHistory st)) = length (heap st).
Proof. repeat split; vm_compute; reflexivity. Qed.

(** *** The labels of the detail view *)

Lemma trend_needs_two `{Score A} (h : list A) :
  getPerformanceTrend (Some h) <> stable -> 2 <= Nat.min 3 (length h).
Proof.
  intros Hns. rewrite <- (length_slice_last 3 h).
  unfold getPerformanceTrend in Hns. cbv zeta in Hns.
  destruct (Nat.ltb_spec (length (slice_last 3 h)) 2); [congruence | lia].
Qed.

(** X4: an upward trend is described with the number of recent updates it
    rests on, the lesser of 3 and the number of samples, which is 2 or 3;
    a downward and a stable trend have fixed descriptions. *)
Theorem trend_label (s : Student) :
  let a := getPerformanceAnalysis s in
  history a = _ensurePerformanceHistory s
  /\ trend a = getPerformanceTrend (Some (history a))
  /\ (trend a = up ->
      (Nat.min 3 (length (history a)) = 2
       /\ trendLabel a = "Performance is improving over last 2 updates.")
      \/ (Nat.min 3 (length (history a)) = 3
          /\ trendLabel a = "Performance is improving over last 3 updates."))
  /\ (trend a = down -> trendLabel a = "Performance shows slight decline.")
  /\ (trend a = stable -> trendLabel a = "Performance is stable.").
Proof.
  cbv zeta. unfold getPerformanceAnalysis. cbv zeta.
  cbn [history trend trendLabel].
  split; [reflexivity |]. split; [reflexivity |].
  pose proof (trend_needs_two (_ensurePerformanceHistory s)) as Htwo.
  destruct (getPerformanceTrend (Some (_ensurePerformanceHistory s))).
  - split; [| split; discriminate]. intros _.
    assert (H : 2 <= Nat.min 3 (length (_ensurePerformanceHistory s)))
      by (apply Htwo; discriminate).
    assert (H3 : Nat.min 3 (length (_ensurePerformanceHistory s)) <= 3) by lia.
    destruct (Nat.min 3 (length (_ensurePerformanceHistory s)))
      as [|[|[|[|n]]]]; try lia.
    + left. split; reflexivity.
    + right. split; reflexivity.
  - split; [discriminate |]. split; [reflexivity | discriminate].
  - split; [discriminate |]. split; [discriminate | reflexivity].
Qed.

(** *** Trimming and letter case *)

Import Utils Store Shapes.

(** A text that does not begin with white space. *)
Lemma trimStart_clean (s : string) :
  match trimStart s with
  | String c _ => is_space c = false
  | EmptyString => True
  end.
Proof.
  induction s as [|c s IH]; simpl; [exact I|].
  destruct (is_space c) eqn:E; [exact IH | exact E].
Qed.

Lemma trimStart_fixed (s : string) :
  match s with String c _ => is_space c = false | EmptyString => True end ->
  trimStart s = s.
Proof. destruct s as [|c s]; simpl; [reflexivity|]. intros ->. reflexivity. Qed.

Lemma trimEnd_head (c : ascii) (s : string) :
  is_space c = false -> exists t, trimEnd (String c s) = String c t.
Proof.
  intros E. simpl. destruct (trimEnd s); rewrite ?E; eauto.
Qed.

Lemma trimEnd_cons (c : ascii) (s : string) :
  trimEnd (String c s)
  = match trimEnd s with
    | EmptyString => if is_space c then EmptyString else String c EmptyString
    | t => String c t
    end.
Proof. reflexivity. Qed.

Lemma trimEnd_idem (s : string) : trimEnd (trimEnd s) = trimEnd s.
Proof.
  induction s as [|c s IH]; [reflexivity|].
  rewrite trimEnd_cons.
  destruct (trimEnd s) as [|d t] eqn:E.
  - destruct (is_space c) eqn:Ec; [reflexivity|].
    rewrite trimEnd_cons. simpl. rewrite Ec. reflexivity.
  - rewrite trimEnd_cons, IH. reflexivity.
Qed.

Lemma trim_idem (s : string) : trim (trim s) = trim s.
Proof.
  unfold trim. pose proof (trimStart_clean s) as H.
  destruct (trimStart s) as [|c t] eqn:E; [reflexivity|].
  destruct (trimEnd_head c t H) as [u Hu]. rewrite Hu.
  rewrite trimStart_fixed by exact H. rewrite <- Hu. apply trimEnd_idem.
Qed.

Lemma lower_char_idem (c : ascii) : lower_char (lower_char c) = lower_char c.
Proof.
  destruct c as [[] [] [] [] [] [] [] []]; vm_compute; reflexivity.
Qed.

Lemma toLowerCase_idem (s : string) :
  toLowerCase (toLowerCase s) = toLowerCase s.
Proof.
  induction s as [|c s IH]; simpl; [reflexivity|].
  rewrite lower_char_idem, IH. reflexivity.
Qed.

Lemma eqb_empty_false (s : string) :
  s <> "" -> String.eqb s "" = false.
Proof. intros H. apply String.eqb_neq. exact H. Qed.

(** *** Tags *)

Lemma normalizeTag_predefined_fixed (p : string) :
  In p PREDEFINED_TAGS -> normalizeTag p = p.
Proof.
  unfold PREDEFINED_TAGS. simpl.
  intros H. repeat (destruct H as [<-|H]; [vm_compute; reflexivity|]).
  destruct H.
Qed.

Lemma normalizeTag_blank : normalizeTag "" = "".
Proof. reflexivity. Qed.

Lemma normalizeTag_idem (t : string) :
  normalizeTag (normalizeTag t) = normalizeTag t.
Proof.
  assert (normalizeTag t
          = if String.eqb (trim t) "" then ""
            else match find (fun p => String.eqb (toLowerCase p)
                                                 (toLowerCase (trim t)))
                            PREDEFINED_TAGS with
                 | Some found => found
                 | None => trim t
                 end) as Hdef by reflexivity.
  destruct (String.eqb (trim t) "") eqn:E.
  - rewrite Hdef. exact normalizeTag_blank.
  - destruct (find (fun p => String.eqb (toLowerCase p) (toLowerCase (trim t)))
                   PREDEFINED_TAGS) as [found|] eqn:F.
    + rewrite Hdef. apply normalizeTag_predefined_fixed.
      apply find_some in F. exact (proj1 F).
    + rewrite Hdef. unfold normalizeTag. rewrite trim_idem, E, F. reflexivity.
Qed.

Lemma dedupe_subset (seen l : list string) (x : string) :
  In x (dedupe seen l) -> In x l /\ ~ In x seen.
Proof.
  revert seen. induction l as [|t l IH]; intros seen; simpl; [tauto|].
  destruct (existsb (String.eqb t) seen) eqn:E.
  - intros H. destruct (IH _ H). tauto.
  - simpl. intros [<-|H].
    + split; [tauto|]. intros Hin.
      assert (existsb (String.eqb t) seen = true) as E'.
      { apply existsb_exists. exists t. split; [exact Hin|apply String.eqb_refl]. }
      congruence.
    + destruct (IH _ H) as [H1 H2]. split; [tauto|].
      intros Hin. apply H2. right. exact Hin.
Qed.

Lemma dedupe_NoDup (seen l : list string) : NoDup (dedupe seen l).
Proof.
  revert seen. induction l as [|t l IH]; intros seen; simpl; [constructor|].
  destruct (existsb (String.eqb t) seen); [apply IH|].
  constructor; [|apply IH].
  rewrite list_elem_of_In. intros H. apply dedupe_subset in H.
  apply (proj2 H). left. reflexivity.
Qed.

Lemma dedupe_complete (seen l : list string) (x : string) :
  In x l -> ~ In x seen -> In x (dedupe seen l).
Proof.
  revert seen. induction l as [|t l IH]; intros seen; simpl; [tauto|].
  intros [->|H] Hs.
  - destruct (existsb (String.eqb x) seen) eqn:E; [|left; reflexivity].
    apply existsb_exists in E. destruct E as (y & Hy & Exy).
    apply String.eqb_eq in Exy. subst y. contradiction.
  - destruct (existsb (String.eqb t) seen) eqn:E; [apply IH; assumption|].
    destruct (String.eqb_spec t x) as [->|Hne]; [left; reflexivity|].
    right. apply IH; [exact H|]. intros [Heq|Hin]; [congruence|contradiction].
Qed.

Lemma dedupe_fixed (seen l : list string) :
  NoDup l -> (forall x, In x l -> ~ In x seen) -> dedupe seen l = l.
Proof.
  revert seen. induction l as [|t l IH]; intros seen Hnd Hs; simpl; [reflexivity|].
  destruct (existsb (String.eqb t) seen) eqn:E.
  - apply existsb_exists in E. destruct E as (y & Hy & Ety).
    apply String.eqb_eq in Ety. subst y.
    exfalso. apply (Hs t); [left; reflexivity|exact Hy].
  - f_equal. apply NoDup_cons in Hnd. destruct Hnd as [Hnot Hnd].
    apply IH; [exact Hnd|].
    intros x Hx [<-|Hin].
    + apply Hnot. rewrite list_elem_of_In. exact Hx.
    + apply (Hs x); [right; exact Hx|exact Hin].
Qed.

Lemma normalizeTags_elements (l : list string) (x : string) :
  In x (normalizeTags l)
  <-> x <> "" /\ exists t, In t l /\ normalizeTag t = x.
Proof.
  unfold normalizeTags. split.
  - intros H. apply dedupe_subset in H. destruct H as [H _].
    apply filter_In in H. destruct H as [H Hne].
    apply in_map_iff in H. destruct H as (t & Ht & Hin).
    split; [|eauto].
    intros ->. discriminate Hne.
  - intros (Hne & t & Hin & <-).
    apply dedupe_complete; [|tauto].
    apply filter_In. split; [apply in_map; exact Hin|].
    rewrite eqb_empty_false by exact Hne. reflexivity.
Qed.

Lemma map_fixed {A} (f : A -> A) (l : list A) :
  (forall x, In x l -> f x = x) -> map f l = l.
Proof.
  induction l as [|a l IH]; simpl; intros H; [reflexivity|].
  rewrite H by (left; reflexivity). f_equal. apply IH. intros x Hx.
  apply H. right. exact Hx.
Qed.

Lemma filter_fixed {A} (p : A -> bool) (l : list A) :
  (forall x, In x l -> p x = true) -> List.filter p l = l.
Proof.
  induction l as [|a l IH]; simpl; intros H; [reflexivity|].
  rewrite H by (left; reflexivity). f_equal. apply IH. intros x Hx.
  apply H. right. exact Hx.
Qed.

Lemma normalizeTags_idem (l : list string) :
  normalizeTags (normalizeTags l) = normalizeTags l.
Proof.
  unfold normalizeTags at 1.
  rewrite map_fixed, filter_fixed, dedupe_fixed; try reflexivity.
  - apply dedupe_NoDup.
  - tauto.
  - intros x Hx. apply normalizeTags_elements in Hx.
    rewrite eqb_empty_false by tauto. reflexivity.
  - intros x Hx. apply normalizeTags_elements in Hx.
    destruct Hx as (_ & t & _ & <-). apply normalizeTag_idem.
Qed.

(** X5: [Utils.normalizeTags] returns a list without duplicates and without
    the empty tag, holding exactly the non-empty normalized tags of its
    input; normalizing a second time changes nothing. *)
Theorem normalizeTags_canonical (tags : list string) :
  NoDup (normalizeTags tags)
  /\ ~ In "" (normalizeTags tags)
  /\ (forall x, In x (normalizeTags tags)
                <-> x <> "" /\ exists t, In t tags /\ normalizeTag t = x)
  /\ normalizeTags (normalizeTags tags) = normalizeTags tags
  /\ normalizeTags [" placement ready"; "Placement Ready"; "  "; "gold"; "gold"]
     = ["Placement Ready"; "gold"].
Proof.
  split; [apply dedupe_NoDup|].
  split; [intros H; apply normalizeTags_elements in H; tauto|].
  split; [apply normalizeTags_elements|].
  split; [apply normalizeTags_idem|].
  vm_compute. reflexivity.
Qed.

(** X6: [Utils.normalizeTag] matches the predefined tags without regard to
    letter case or surrounding white space and returns the predefined
    spelling; a tag that matches none of them is returned trimmed, and a
    blank one as the empty text. *)
Theorem normalizeTag_predefined :
  (forall p t, In p PREDEFINED_TAGS ->
               toLowerCase (trim t) = toLowerCase p ->
               normalizeTag t = p)
  /\ (forall t, (forall p, In p PREDEFINED_TAGS ->
                           toLowerCase p <> toLowerCase (trim t)) ->
                normalizeTag t = trim t)
  /\ (forall t, trim t = "" -> normalizeTag t = "")
  /\ normalizeTag "  dean's LIST " = "Dean's List"
  /\ normalizeTag " Gold  medal " = "Gold  medal".
Proof.
  split; [|split; [|split; [|split]]].
  - intros p t Hp Ht. unfold normalizeTag. rewrite Ht.
    assert (String.eqb (trim t) "" = false) as ->.
    { apply eqb_empty_false. intros E. rewrite E in Ht.
      unfold PREDEFINED_TAGS in Hp. simpl in Hp.
      repeat (destruct Hp as [<-|Hp]; [discriminate Ht|]). destruct Hp. }
    unfold PREDEFINED_TAGS in Hp |- *. simpl in Hp.
    repeat (destruct Hp as [<-|Hp]; [vm_compute; reflexivity|]).
    destruct Hp.
  - intros t Hnone. unfold normalizeTag.
    destruct (String.eqb_spec (trim t) "") as [E|_]; [symmetry; exact E|].
    destruct (find _ PREDEFINED_TAGS) as [found|] eqn:F; [|reflexivity].
    apply find_some in F. destruct F as [Hin Heq].
    apply String.eqb_eq in Heq. destruct (Hnone found Hin Heq).
  - intros t E. unfold normalizeTag. rewrite E. reflexivity.
  - vm_compute. reflexivity.
  - vm_compute. reflexivity.
Qed.

(** *** Escaping *)

Lemma string_app_assoc (a b c : string) :
  ((a ++ b) ++ c)%string = (a ++ (b ++ c))%string.
Proof. induction a as [|d a IH]; simpl; [reflexivity|]. rewrite IH. reflexivity. Qed.

Lemma replace_char_app (c : ascii) (by_ a b : string) :
  replace_char c by_ (a ++ b)%string
  = (replace_char c by_ a ++ replace_char c by_ b)%string.
Proof.
  induction a as [|d a IH]; simpl; [reflexivity|].
  destruct (Ascii.eqb d c); rewrite IH; simpl; [|reflexivity].
  symmetry. apply string_app_assoc.
Qed.

Lemma escape_app (a b : string) :
  escapeHtml (JStr (a ++ b)) = (escapeHtml (JStr a) ++ escapeHtml (JStr b))%string.
Proof.
  unfold escapeHtml, ToString. rewrite !replace_char_app. reflexivity.
Qed.

Lemma escape_cons (d : ascii) (s : string) :
  escapeHtml (JStr (String d s))
  = (escapeHtml (JStr (String d "")) ++ escapeHtml (JStr s))%string.
Proof. exact (escape_app (String d "") s). Qed.

(** The escape of one character: an entity for the five special
    characters, the character itself otherwise. *)
Lemma escape_char (d : ascii) :
  (d = "&"%char /\ escapeHtml (JStr (String d "")) = "&amp;")
  \/ (d = "<"%char /\ escapeHtml (JStr (String d "")) = "&lt;")
  \/ (d = ">"%char /\ escapeHtml (JStr (String d "")) = "&gt;")
  \/ (d = quote_char /\ escapeHtml (JStr (String d "")) = "&quot;")
  \/ (d = "'"%char /\ escapeHtml (JStr (String d "")) = "&#39;")
  \/ (d <> "&"%char /\ d <> "<"%char /\ d <> ">"%char /\ d <> quote_char
      /\ d <> "'"%char /\ escapeHtml (JStr (String d "")) = String d "").
Proof.
  destruct (Ascii.eqb_spec d "&") as [->|H1]; [left; split; reflexivity|].
  destruct (Ascii.eqb_spec d "<") as [->|H2];
    [right; left; split; reflexivity|].
  destruct (Ascii.eqb_spec d ">") as [->|H3];
    [right; right; left; split; reflexivity|].
  destruct (Ascii.eqb_spec d quote_char) as [->|H4];
    [right; right; right; left; split; reflexivity|].
  destruct (Ascii.eqb_spec d "'") as [->|H5];
    [right; right; right; right; left; split; reflexivity|].
  right; right; right; right; right.
  repeat (split; [assumption|]).
  apply Ascii.eqb_neq in H1, H2, H3, H4, H5.
  unfold escapeHtml, ToString.
  simpl. rewrite H1. simpl. rewrite H2. simpl. rewrite H3. simpl. rewrite H4.
  simpl. rewrite H5. reflexivity.
Qed.

Lemma list_ascii_app (a b : string) :
  list_ascii_of_string (a ++ b)%string
  = list_ascii_of_string a ++ list_ascii_of_string b.
Proof. induction a as [|c a IH]; simpl; [reflexivity|]. rewrite IH. reflexivity. Qed.

Lemma escape_string_safe (s : string) (c : ascii) :
  In c (list_ascii_of_string (escapeHtml (JStr s))) -> ~ In c markup_chars.
Proof.
  induction s as [|d s IH]; [intros []|].
  rewrite escape_cons, list_ascii_app, in_app_iff. intros [H|H]; [|exact (IH H)].
  clear IH. unfold markup_chars.
  destruct (escape_char d) as [[-> E]|[[-> E]|[[-> E]|[[-> E]|[[-> E]|(?&?&?&?&?&E)]]]]];
    rewrite E in H; simpl in H;
    repeat (destruct H as [<-|H];
            [simpl; intros [X|[X|[X|[X|[]]]]];
             first [discriminate X | congruence]|]);
    destruct H.
Qed.

Lemma escape_injective (a b : string) :
  escapeHtml (JStr a) = escapeHtml (JStr b) -> a = b.
Proof.
  revert b. induction a as [|c a IH]; intros [|d b].
  - reflexivity.
  - rewrite (escape_cons d b).
    destruct (escape_char d) as [[-> E]|[[-> E]|[[-> E]|[[-> E]|[[-> E]|(?&?&?&?&?&E)]]]]];
      rewrite E; discriminate.
  - rewrite (escape_cons c a).
    destruct (escape_char c) as [[-> E]|[[-> E]|[[-> E]|[[-> E]|[[-> E]|(?&?&?&?&?&E)]]]]];
      rewrite E; discriminate.
  - rewrite (escape_cons c a), (escape_cons d b).
    destruct (escape_char c) as [[-> E]|[[-> E]|[[-> E]|[[-> E]|[[-> E]|(?&?&?&?&?&E)]]]]];
      rewrite E;
      destruct (escape_char d) as [[-> E']|[[-> E']|[[-> E']|[[-> E']|[[-> E']|(?&?&?&?&?&E')]]]]];
      rewrite E'; simpl; intros Heq;
      first [ discriminate Heq
            | injection Heq; intros; subst;
              first [ congruence | f_equal; apply IH; assumption ] ].
Qed.
Lemma escape_plain (s : string) :
  (forall c, In c (list_ascii_of_string s) ->
             c <> "&"%char /\ ~ In c markup_chars) ->
  escapeHtml (JStr s) = s.
Proof.
  induction s as [|d s IH]; intros H; [reflexivity|].
  rewrite escape_cons, IH by (intros c Hc; apply H; right; exact Hc).
  destruct (H d (or_introl eq_refl)) as [Hamp Hm].
  unfold markup_chars in Hm. simpl in Hm.
  destruct (escape_char d)
    as [[-> E]|[[-> E]|[[-> E]|[[-> E]|[[-> E]|(?&?&?&?&?&E)]]]]];
    try (rewrite E; reflexivity); exfalso; tauto.
Qed.

(** X7: the text [Utils.escapeHtml] returns holds none of the characters
    [<], [>], the double quote and the apostrophe; escaping works character
    by character, so it distributes over concatenation, loses nothing (two
    different texts have different escapes) and leaves a text without
    special characters as it is.  [null] and [undefined] give the empty
    text. *)
Theorem escapeHtml_safe :
  (forall v c, In c (list_ascii_of_string (escapeHtml v)) ->
               ~ In c markup_chars)
  /\ (forall a b, escapeHtml (JStr (a ++ b))
                  = (escapeHtml (JStr a) ++ escapeHtml (JStr b))%string)
  /\ (forall a b, escapeHtml (JStr a) = escapeHtml (JStr b) -> a = b)
  /\ (forall s, (forall c, In c (list_ascii_of_string s) ->
                           c <> "&"%char /\ ~ In c markup_chars) ->
                escapeHtml (JStr s) = s)
  /\ escapeHtml (JStr "<b>Tom & 'Jerry'</b>")
     = "&lt;b&gt;Tom &amp; &#39;Jerry&#39;&lt;/b&gt;"
  /\ escapeHtml JNull = "" /\ escapeHtml JUndefined = "".
Proof.
  split; [|split; [|split; [|split; [|split; [|split]]]]].
  - intros [| |x|s] c H.
    + destruct H.
    + destruct H.
    + change (escapeHtml (JNum x))
        with (escapeHtml (JStr (Number_toString x))) in H.
      exact (escape_string_safe _ _ H).
    + exact (escape_string_safe _ _ H).
  - exact escape_app.
  - exact escape_injective.
  - exact escape_plain.
  - vm_compute. reflexivity.
  - reflexivity.
  - reflexivity.
Qed.
(** *** Deleting and undoing *)

Import StoreSpec.

Lemma json_roundtrip_idem (v : value) :
  json_roundtrip (json_roundtrip v) = json_roundtrip v.
Proof.
  destruct v as [| |x|s]; try reflexivity.
  simpl. destruct (Prim2SF x) eqn:E; try reflexivity.
  simpl. rewrite E. reflexivity.
Qed.

Lemma json_entry_idem (e : entry) : json_entry (json_entry e) = json_entry e.
Proof.
  destruct e as [x|]; [| reflexivity].
  simpl. destruct (Prim2SF x) eqn:E; try reflexivity.
  simpl. rewrite E. reflexivity.
Qed.

(** What JSON makes of a history: a Number that is not finite comes back
    as [null], a negative zero as [0]. *)
Lemma json_entry_cases :
  map json_entry [Some 10; Some infinity; Some neg_infinity; Some nan;
                  Some (-0); None]%float
  = [Some 10; None; None; None; Some 0; None]%float.
Proof. reflexivity. Qed.

Lemma deepClone_idem (s : Student) : deepClone (deepClone s) = deepClone s.
Proof.
  unfold deepClone. simpl. rewrite !json_roundtrip_idem. f_equal.
  destruct (performanceHistory s) as [h|]; [| reflexivity].
  simpl. f_equal. rewrite List.map_map. apply map_ext. intros e.
  apply json_entry_idem.
Qed.

Lemma map_deepClone_idem (l : list Student) :
  map deepClone (map deepClone l) = map deepClone l.
Proof.
  rewrite List.map_map. apply map_ext. intros s. apply deepClone_idem.
Qed.

Lemma map_delete {A B} (f : A -> B) (i : nat) (l : list A) :
  map f (delete i l) = delete i (map f l).
Proof.
  revert i. induction l as [|a l IH]; intros [|i]; simpl; try reflexivity.
  change (f a :: map f (delete i l) = f a :: delete i (map f l)).
  rewrite IH. reflexivity.
Qed.

Lemma findIndex_split {A} (p : A -> bool) (l : list A) (i : nat) :
  findIndex p l = Some i ->
  exists before x after,
    l = before ++ x :: after /\ length before = i /\ p x = true
    /\ Forall (fun y => p y = false) before.
Proof.
  revert i. induction l as [|a l IH]; intros i; simpl; [discriminate|].
  destruct (p a) eqn:E.
  - intros [= <-]. exists [], a, l. repeat split; [exact E|constructor].
  - destruct (findIndex p l) as [j|]; [|discriminate].
    intros [= <-]. destruct (IH j eq_refl) as (b & x & af & -> & Hl & Hx & Hb).
    exists (a :: b), x, af. simpl. repeat split; [congruence|exact Hx|].
    constructor; assumption.
Qed.

Lemma findIndex_None {A} (p : A -> bool) (l : list A) :
  findIndex p l = None <-> Forall (fun y => p y = false) l.
Proof.
  induction l as [|a l IH]; simpl.
  - split; [constructor|reflexivity].
  - destruct (p a) eqn:E.
    + split; [discriminate|]. intros H. apply Forall_cons in H.
      destruct H as [H _]. congruence.
    + destruct (findIndex p l) as [j|]; simpl.
      * split; [discriminate|]. intros H. apply Forall_cons in H.
        destruct H as [_ H]. apply IH in H. discriminate H.
      * split; [|reflexivity]. intros _. constructor; [exact E|].
        apply IH. reflexivity.
Qed.

Lemma findIndex_first {A} (p : A -> bool) (before after : list A) (x : A) :
  Forall (fun y => p y = false) before -> p x = true ->
  findIndex p (before ++ x :: after) = Some (length before).
Proof.
  induction before as [|a b IH]; simpl; intros Hb Hx.
  - rewrite Hx. reflexivity.
  - apply Forall_cons in Hb. destruct Hb as [Ha Hb].
    rewrite Ha, (IH Hb Hx). reflexivity.
Qed.

Lemma delete_middle {A} (before after : list A) (x : A) :
  delete (length before) (before ++ x :: after) = before ++ after.
Proof.
  induction before as [|a b IH]; simpl; [reflexivity|].
  change (a :: delete (length b) (b ++ x :: after) = a :: b ++ after).
  rewrite IH. reflexivity.
Qed.

Lemma records_saveToStorage (st : State) :
  records (saveToStorage st) = records st.
Proof. reflexivity. Qed.

Lemma restore_records (st : State) (bs : list Student) (n : number) :
  records (set_nextId (mkState (heap st ++ bs)
                               (seq (length (heap st)) (length bs))
                               (nextId st) (students_db st)) n)
  = bs.
Proof. unfold records. simpl. apply read_fresh. Qed.

(** What [restoreUndoBackup] does with the backup [saveUndoBackup] wrote
    over the model [st]. *)
Lemma restore_saved (st st' : State) (action : string)
    (deletedId : option string) (b : option Backup) :
  let s1 := mkStorage st'
              (students_undo_backup
                 (saveUndoBackup action deletedId (mkStorage st b))) in
  let s2 := (restoreUndoBackup s1).2 in
  hasUndoBackup s1 = true
  /\ (restoreUndoBackup s1).1 = true
  /\ records (model s2) = map deepClone (records st)
  /\ students_db (model s2) = Some (map deepClone (records st))
  /\ (json_stable (nextId st) = true -> nextId (model s2) = nextId st)
  /\ hasUndoBackup s2 = false
  /\ restoreUndoBackup s2 = (false, s2).
Proof.
  cbn zeta. unfold saveUndoBackup, restoreUndoBackup, hasUndoBackup.
  cbn [students_undo_backup model b_students b_nextId fst snd].
  rewrite records_saveToStorage, restore_records, map_deepClone_idem.
  split; [reflexivity|]. split; [reflexivity|]. split; [reflexivity|].
  split.
  { unfold saveToStorage at 1. cbn [students_db].
    rewrite restore_records, map_deepClone_idem. reflexivity. }
  split; [|split; reflexivity].
  unfold json_stable, json_roundtrip.
  destruct (Prim2SF (nextId st)); try discriminate. intros _. reflexivity.
Qed.

(** X8: deleting a student and then undoing gives back the list as it was
    (each record as JSON writes and reads it), persists it, restores the
    id counter, and uses the backup up: a second undo does nothing. *)
Theorem undo_restores_deleted (sid : string) (s : Storage) :
  (deleteStudent sid s).1 = Ok true ->
  let s1 := (deleteStudent sid s).2 in
  let s2 := (restoreUndoBackup s1).2 in
  hasUndoBackup s1 = true
  /\ (restoreUndoBackup s1).1 = true
  /\ records (model s2) = map deepClone (records (model s))
  /\ students_db (model s2) = Some (map deepClone (records (model s)))
  /\ (json_stable (nextId (model s)) = true ->
      nextId (model s2) = nextId (model s))
  /\ hasUndoBackup s2 = false
  /\ restoreUndoBackup s2 = (false, s2).
Proof.
  unfold deleteStudent.
  destruct (findIndex _ (records (model s))) as [index|]; [|discriminate].
  intros _. destruct s as [st b]. cbn [snd].
  exact (restore_saved st _ "delete" (Some sid) b).
Qed.

Lemma undo_restores_deleted_witness :
  map performanceHistory (records overflowed)
  = [Some [Some 42%float; Some infinity]]
  /\ map performanceHistory
       (records (model (restoreUndoBackup
                          (deleteStudent "STU-2025-001"
                                         (mkStorage overflowed None)).2).2))
     = [Some [Some 42%float; None]]
  /\ records (model (restoreUndoBackup
                       (deleteStudent "STU-2025-001"
                                      (mkStorage overflowed None)).2).2)
     = map deepClone (records overflowed).
Proof.
  split; [vm_compute; reflexivity |].
  split; [vm_compute; reflexivity |].
  apply (undo_restores_deleted "STU-2025-001" (mkStorage overflowed None)).
  vm_compute. reflexivity.
Defined.

(** X9: [clearAllData] empties the list, resets the counter to 1 and
    persists the empty list; undoing it gives back the list as it was and
    uses the backup up. *)
Theorem undo_restores_cleared (s : Storage) :
  let s1 := clearAllData s in
  let s2 := (restoreUndoBackup s1).2 in
  records (model s1) = []
  /\ nextId (model s1) = 1%float
  /\ students_db (model s1) = Some []
  /\ hasUndoBackup s1 = true
  /\ (restoreUndoBackup s1).1 = true
  /\ records (model s2) = map deepClone (records (model s))
  /\ students_db (model s2) = Some (map deepClone (records (model s)))
  /\ (json_stable (nextId (model s)) = true ->
      nextId (model s2) = nextId (model s))
  /\ hasUndoBackup s2 = false.
Proof.
  destruct s as [st b]. cbn zeta.
  split; [reflexivity|]. split; [reflexivity|]. split; [reflexivity|].
  pose proof (restore_saved st
                (saveToStorage (mkState (heap st) [] 1%float (students_db st)))
                "clear" None b) as H.
  cbn zeta in H. unfold clearAllData.
  cbn [model] in *.
  destruct H as (H1 & H2 & H3 & H4 & H5 & H6 & _).
  repeat split; assumption.
Qed.

(** X10: [deleteStudent] removes the first record that has the id and no
    other: the records before and after it stay, in order; the list is
    persisted and the counter is kept. *)
Theorem deleteStudent_removes (sid : string) (s : Storage)
    (before after : list Student) (x : Student) :
  records (model s) = before ++ x :: after ->
  id x = sid ->
  Forall (fun y => id y <> sid) before ->
  let r := deleteStudent sid s in
  r.1 = Ok true
  /\ records (model r.2) = before ++ after
  /\ length (records (model r.2)) = length (records (model s)) - 1
  /\ students_db (model r.2) = Some (map deepClone (before ++ after))
  /\ nextId (model r.2) = nextId (model s)
  /\ heap (model r.2) = heap (model s).
Proof.
  intros Hrec Hx Hb. cbn zeta. unfold deleteStudent.
  rewrite Hrec, findIndex_first; cycle 1.
  { eapply Forall_impl; [exact Hb|]. intros y Hy. cbv beta.
    apply String.eqb_neq. exact Hy. }
  { apply String.eqb_eq. exact Hx. }
  cbn [fst snd model saveUndoBackup].
  assert (records (saveToStorage
                     (mkState (heap (model s))
                              (delete (length before) (students (model s)))
                              (nextId (model s)) (students_db (model s))))
          = before ++ after) as Hr.
  { unfold records at 1. cbn [saveToStorage heap students].
    rewrite map_delete. fold (records (model s)). rewrite Hrec.
    apply delete_middle. }
  split; [reflexivity|]. split; [exact Hr|].
  split; [rewrite Hr, !length_app; simpl; lia|].
  split; [|split; reflexivity].
  unfold saveToStorage at 1. cbn [students_db]. f_equal. f_equal.
  rewrite <- Hr. reflexivity.
Qed.

Lemma deleteStudent_removes_witness :
  records (model (deleteStudent "STU-2025-001" one_student).2) = [].
Proof.
  refine (proj1 (proj2 (deleteStudent_removes "STU-2025-001" one_student [] []
                          (read (heap (model one_student)) 0) _ _ _))).
  - vm_compute. reflexivity.
  - vm_compute. reflexivity.
  - constructor.
Defined.
(** *** Operations that fail *)

(** X11: an operation of the model that throws (or returns [false]) has
    changed nothing: the model, the stored list and the undo backup are as
    before.  [updateStudent] and [deleteStudent] throw "Student not found"
    exactly when no record has the id. *)
Theorem failure_changes_nothing
    (validateStudent : StudentData -> bool)
    (generateStudentID : number -> string) :
  (forall data st msg,
     (addStudent validateStudent generateStudentID data st).1 = Throw msg ->
     (addStudent validateStudent generateStudentID data st).2 = st
     /\ (msg = "Invalid student data" \/ msg = "Email already registered"))
  /\ (forall sid u st msg,
        (updateStudent sid u st).1 = Throw msg ->
        (updateStudent sid u st).2 = st
        /\ (msg = "Student not found" \/ msg = "Email already registered"))
  /\ (forall sid u st,
        (updateStudent sid u st).1 = Throw "Student not found"
        <-> Forall (fun s => id s <> sid) (records st))
  /\ (forall sid s msg,
        (deleteStudent sid s).1 = Throw msg ->
        (deleteStudent sid s).2 = s /\ msg = "Student not found")
  /\ (forall sid s,
        (deleteStudent sid s).1 = Throw "Student not found"
        <-> Forall (fun x => id x <> sid) (records (model s)))
  /\ (forall st, importFromJSON None st = (false, objects_only st))
  /\ (forall s, hasUndoBackup s = false -> restoreUndoBackup s = (false, s)).
Proof.
  assert (forall sid l,
            Forall (fun y : Student => String.eqb (id y) sid = false) l
            <-> Forall (fun s => id s <> sid) l) as Hneq.
  { intros sid l. split; intros H; (eapply Forall_impl; [exact H|]);
      intros y Hy; cbv beta in *; apply String.eqb_neq; exact Hy. }
  split; [|split; [|split; [|split; [|split; [|split]]]]].
  - intros data st msg. unfold addStudent.
    destruct (negb (validateStudent data)).
    + intros [= <-]. split; [reflexivity|left; reflexivity].
    + destruct (emailExists st (d_email data) None).
      * intros [= <-]. split; [reflexivity|right; reflexivity].
      * discriminate.
  - intros sid u st msg. unfold updateStudent.
    destruct (findIndex _ (records st)) as [index|].
    + match goal with |- context [if ?c then _ else _] => destruct c end.
      * intros [= <-]. split; [reflexivity|right; reflexivity].
      * discriminate.
    + intros [= <-]. split; [reflexivity|left; reflexivity].
  - intros sid u st. rewrite <- Hneq, <- findIndex_None. unfold updateStudent.
    destruct (findIndex _ (records st)) as [index|].
    + match goal with |- context [if ?c then _ else _] => destruct c end;
        split; discriminate.
    + split; reflexivity.
  - intros sid s msg. unfold deleteStudent.
    destruct (findIndex _ (records (model s))) as [index|].
    + discriminate.
    + intros [= <-]. split; reflexivity.
  - intros sid s. rewrite <- Hneq, <- findIndex_None. unfold deleteStudent.
    destruct (findIndex _ (records (model s))) as [index|];
      split; first [discriminate | reflexivity].
  - reflexivity.
  - intros s. unfold hasUndoBackup, restoreUndoBackup.
    destruct (students_undo_backup s); [discriminate|reflexivity].
Qed.

(** *** The invariant under deleting, clearing and undoing *)

Lemma history_ok_deepClone (s : Student) :
  history_ok (deepClone s) <-> history_ok s.
Proof.
  unfold history_ok, deepClone. cbn [performanceHistory].
  destruct (performanceHistory s) as [h|]; simpl.
  - split; intros (h' & [= <-] & Hne & Hlen).
    + exists h. split; [reflexivity |]. rewrite length_map in Hlen.
      split; [| exact Hlen]. intros ->. apply Hne. reflexivity.
    + exists (map json_entry h). split; [reflexivity |].
      rewrite length_map. split; [| exact Hlen].
      intros E. apply Hne. destruct h; [reflexivity | discriminate].
  - split; intros (h' & E & _); discriminate.
Qed.

Lemma Forall_history_ok_clones (l : list Student) :
  Forall history_ok l -> Forall history_ok (map deepClone l).
Proof.
  intros H. apply Forall_map. eapply Forall_impl; [exact H|].
  intros s Hs. apply history_ok_deepClone. exact Hs.
Qed.

Lemma store_invariant_fresh (h bs : list Student) (n : number)
    (db : option (list Student)) :
  Forall history_ok bs ->
  store_invariant (mkState (h ++ bs) (seq (length h) (length bs)) n db).
Proof.
  intros H. unfold store_invariant. cbn [heap students].
  apply Forall_forall. intros l Hl. apply elem_of_seq in Hl.
  split; [rewrite length_app; lia|].
  unfold read. rewrite lookup_app_r by lia.
  destruct (bs !! (l - length h)) as [s|] eqn:E.
  - simpl. eapply Forall_lookup_1 in H; [exact H|exact E].
  - apply lookup_ge_None in E. lia.
Qed.

Lemma store_invariant_sublist (st : State) (ls : list loc) (n : number)
    (db : option (list Student)) :
  store_invariant st -> ls ⊆ students st ->
  store_invariant (mkState (heap st) ls n db).
Proof.
  unfold store_invariant. cbn [heap students]. intros H Hsub.
  apply Forall_forall. intros l Hl.
  rewrite Forall_forall in H. apply H. apply Hsub. exact Hl.
Qed.

Lemma delete_subseteq {A} (i : nat) (l : list A) : delete i l ⊆ l.
Proof.
  intros x Hx. revert i Hx. induction l as [|a l IH]; intros [|i] Hx.
  - exact Hx.
  - exact Hx.
  - right. exact Hx.
  - change (x ∈ a :: delete i l) in Hx.
    apply elem_of_cons in Hx. destruct Hx as [->|Hx]; [left|right; eauto].
Qed.

(** X12: the history invariant of the data model also survives
    [deleteStudent], [clearAllData] and [restoreUndoBackup]: after any of
    them every record of the model, and every record held in the undo
    backup, has a history of one to five scores. *)
Theorem storage_invariant_kept (sid : string) (s : Storage) :
  storage_invariant s ->
  storage_invariant (deleteStudent sid s).2
  /\ storage_invariant (clearAllData s)
  /\ storage_invariant (restoreUndoBackup s).2
  /\ Forall history_ok (records (model (restoreUndoBackup s).2)).
Proof.
  intros [Hm Hb].
  assert (Forall history_ok (map deepClone (map deepClone (records (model s)))))
    as Hsaved.
  { apply Forall_history_ok_clones, Forall_history_ok_clones.
    apply invariant_records. exact Hm. }
  assert (storage_invariant (restoreUndoBackup s).2) as Hrestore.
  { unfold restoreUndoBackup.
    destruct (students_undo_backup s) as [backup|] eqn:E.
    - split; [|exact I]. cbn [snd model].
      apply (store_invariant_fresh (heap (model s)) (b_students backup)).
      exact Hb.
    - split; [exact Hm|]. cbn [snd]. rewrite E. exact I. }
  split; [|split; [|split]].
  - unfold deleteStudent.
    destruct (findIndex _ (records (model s))) as [index|].
    + split; [|exact Hsaved]. cbn [snd model saveUndoBackup].
      apply (store_invariant_sublist (model s)); [exact Hm|].
      apply delete_subseteq.
    + split; assumption.
  - split; [|exact Hsaved]. cbn [clearAllData model saveUndoBackup].
    unfold store_invariant. constructor.
  - exact Hrestore.
  - apply invariant_records. exact (proj1 Hrestore).
Qed.

Lemma storage_invariant_kept_witness :
  storage_invariant (deleteStudent "STU-2025-001" one_student).2.
Proof.
  refine (proj1 (storage_invariant_kept "STU-2025-001" one_student _)).
  split; [apply construct_invariant | exact I].
Defined.
(** *** The order of Numbers *)

Import FloatOrder.

Lemma below_irrefl (a : Z * Z * Z) : ~ below a a.
Proof. unfold below. lia. Qed.

Lemma below_trans (a b c : Z * Z * Z) : below a b -> below b c -> below a c.
Proof. unfold below. lia. Qed.

Lemma below_total (a b : Z * Z * Z) : below a b \/ a = b \/ below b a.
Proof.
  destruct a as [[a1 a2] a3], b as [[b1 b2] b3]. unfold below. simpl.
  destruct (Z.lt_total a1 b1) as [H|[H|H]]; [lia| |lia].
  destruct (Z.lt_total a2 b2) as [H2|[H2|H2]]; [lia| |lia].
  destruct (Z.lt_total a3 b3) as [H3|[H3|H3]]; [lia| |lia].
  right. left. congruence.
Qed.

Ltac settle_order :=
  eexists; split; [reflexivity|];
  repeat split; intros ?;
  first [ discriminate | reflexivity | lia | exfalso; lia
        | match goal with H : (_, _, _) = (_, _, _) |- _ =>
            injection H; intros; first [lia | exfalso; lia | discriminate]
          end
        | f_equal; first [lia | f_equal; lia] ].

Lemma SFcompare_rank (f g : spec_float) (a b : Z * Z * Z) :
  rank f = Some a -> rank g = Some b ->
  exists c, SFcompare f g = Some c
            /\ (c = Lt <-> below a b) /\ (c = Eq <-> a = b)
            /\ (c = Gt <-> below b a).
Proof.
  destruct f as [[]|[]| |[] m e], g as [[]|[]| |[] m' e']; simpl;
    intros [= <-] [= <-]; unfold below; cbn [fst snd];
    try settle_order.
  - change (Pos.compare_cont Eq m m') with (Pos.compare m m').
    destruct (Z.compare_spec e e') as [->|H|H];
      [destruct (Pos.compare_spec m m') as [->|H|H]; simpl|..];
      settle_order.
  - change (Pos.compare_cont Eq m m') with (Pos.compare m m').
    destruct (Z.compare_spec e e') as [->|H|H];
      [destruct (Pos.compare_spec m m') as [->|H|H]; simpl|..];
      settle_order.
Qed.

Lemma SFcompare_nan (f g : spec_float) :
  rank f = None \/ rank g = None -> SFcompare f g = None.
Proof.
  destruct f as [[]|[]| |[] m e], g as [[]|[]| |[] m' e']; simpl;
    intros [H|H]; first [discriminate H | reflexivity].
Qed.

Lemma ltb_below (x y : number) :
  (x <? y)%float = true
  <-> exists a b, place x = Some a /\ place y = Some b /\ below a b.
Proof.
  rewrite ltb_spec. unfold SFltb, place.
  destruct (rank (Prim2SF x)) as [a|] eqn:Ea.
  - destruct (rank (Prim2SF y)) as [b|] eqn:Eb.
    + destruct (SFcompare_rank _ _ a b Ea Eb) as (c & -> & Hlt & Heq & Hgt).
      split.
      * destruct c; try discriminate. intros _. exists a, b. tauto.
      * intros (a' & b' & [= <-] & [= <-] & H). apply Hlt in H. subst c.
        reflexivity.
    + rewrite SFcompare_nan by tauto. split; [discriminate|].
      intros (a' & b' & _ & H & _). discriminate H.
  - rewrite SFcompare_nan by tauto. split; [discriminate|].
    intros (a' & b' & H & _). discriminate H.
Qed.

Lemma leb_below (x y : number) :
  (x <=? y)%float = true
  <-> exists a b, place x = Some a /\ place y = Some b
                  /\ (below a b \/ a = b).
Proof.
  rewrite leb_spec. unfold SFleb, place.
  destruct (rank (Prim2SF x)) as [a|] eqn:Ea.
  - destruct (rank (Prim2SF y)) as [b|] eqn:Eb.
    + destruct (SFcompare_rank _ _ a b Ea Eb) as (c & -> & Hlt & Heq & Hgt).
      split.
      * destruct c; try discriminate; intros _; exists a, b; tauto.
      * intros (a' & b' & [= <-] & [= <-] & [H|H]).
        -- apply Hlt in H. subst c. reflexivity.
        -- apply Heq in H. subst c. reflexivity.
    + rewrite SFcompare_nan by tauto. split; [discriminate|].
      intros (a' & b' & _ & H & _). discriminate H.
  - rewrite SFcompare_nan by tauto. split; [discriminate|].
    intros (a' & b' & H & _). discriminate H.
Qed.

Lemma eqb_place (x y : number) :
  (x =? y)%float = true <-> exists a, place x = Some a /\ place y = Some a.
Proof.
  rewrite FloatAxioms.eqb_spec. unfold SFeqb, place.
  destruct (rank (Prim2SF x)) as [a|] eqn:Ea.
  - destruct (rank (Prim2SF y)) as [b|] eqn:Eb.
    + destruct (SFcompare_rank _ _ a b Ea Eb) as (c & -> & Hlt & Heq & Hgt).
      split.
      * destruct c; try discriminate. intros _. exists a.
        rewrite (proj1 Heq eq_refl). tauto.
      * intros (a' & [= <-] & [= <-]). rewrite (proj2 Heq eq_refl).
        reflexivity.
    + rewrite SFcompare_nan by tauto. split; [discriminate|].
      intros (a' & _ & H). discriminate H.
  - rewrite SFcompare_nan by tauto. split; [discriminate|].
    intros (a' & H & _). discriminate H.
Qed.

Lemma isNaN_place (x : number) :
  isNaN x = false <-> exists a, place x = Some a.
Proof.
  unfold isNaN, is_nan. rewrite negb_false_iff, eqb_place.
  split; intros (a & H); [exists a; tauto | exists a; tauto].
Qed.
(** *** The highest GPA *)

Lemma place_zero : place 0%float = Some (0, 0, 0)%Z.
Proof. reflexivity. Qed.

Lemma or_zero_place (x : number) :
  exists a, place (or_zero x) = Some a
            /\ (isNaN x = false -> place x = Some a)
            /\ (or_zero x = x \/ a = (0, 0, 0)%Z).
Proof.
  unfold or_zero. destruct (isNaN x) eqn:En; simpl.
  - exists (0, 0, 0)%Z. split; [reflexivity|]. split; [discriminate|tauto].
  - destruct (x =? 0)%float eqn:Ez.
    + apply eqb_place in Ez. destruct Ez as (a & Hx & Hz).
      rewrite place_zero in Hz. injection Hz as <-.
      exists (0, 0, 0)%Z. split; [reflexivity|]. split; [intros _; exact Hx|tauto].
    + apply isNaN_place in En. destruct En as (a & Ha).
      exists a. split; [exact Ha|]. split; [intros _; exact Ha|tauto].
Qed.

Lemma max2_place (x y : number) (a b : Z * Z * Z) :
  place x = Some a -> place y = Some b ->
  exists c, place (Math_max2 x y) = Some c
            /\ ~ below c a /\ ~ below c b
            /\ (c = a \/ c = b)
            /\ (Math_max2 x y = x \/ Math_max2 x y = y).
Proof.
  intros Ha Hb. unfold Math_max2.
  rewrite (proj2 (isNaN_place x)) by eauto.
  rewrite (proj2 (isNaN_place y)) by eauto.
  destruct (x <? y)%float eqn:Exy.
  - apply ltb_below in Exy. destruct Exy as (a' & b' & Ha' & Hb' & Hlt).
    rewrite Ha in Ha'. rewrite Hb in Hb'. injection Ha' as <-. injection Hb' as <-.
    exists b. split; [exact Hb|]. split; [|split; [apply below_irrefl|tauto]].
    intros H. apply (below_irrefl a). eapply below_trans; eassumption.
  - destruct (y <? x)%float eqn:Eyx.
    + apply ltb_below in Eyx. destruct Eyx as (b' & a' & Hb' & Ha' & Hlt).
      rewrite Ha in Ha'. rewrite Hb in Hb'. injection Ha' as <-. injection Hb' as <-.
      exists a. split; [exact Ha|]. split; [apply below_irrefl|].
      split; [|tauto].
      intros H. apply (below_irrefl a). eapply below_trans; eassumption.
    + assert (a = b) as <-.
      { destruct (below_total a b) as [H|[H|H]]; [|exact H|].
        - assert ((x <? y)%float = true) as E by (apply ltb_below; eauto).
          congruence.
        - assert ((y <? x)%float = true) as E by (apply ltb_below; eauto).
          congruence. }
      exists a.
      destruct (Prim2SF x) as [| | |] eqn:Ex; try destruct s;
        (split; [first [exact Ha | exact Hb]|]);
        (split; [apply below_irrefl|]); (split; [apply below_irrefl|]);
        tauto.
Qed.

Lemma fold_max_place (l : list number) (init : number) (a0 : Z * Z * Z) :
  place init = Some a0 ->
  Forall (fun y => exists b, place y = Some b) l ->
  exists c, place (fold_left Math_max2 l init) = Some c
            /\ ~ below c a0
            /\ (forall y b, In y l -> place y = Some b -> ~ below c b)
            /\ (c = a0 \/ exists y, In y l /\ place y = Some c).
Proof.
  revert init a0. induction l as [|y l IH]; intros init a0 H0 Hl; simpl.
  - exists a0. split; [exact H0|]. split; [apply below_irrefl|].
    split; [intros ? ? []|tauto].
  - apply Forall_cons in Hl. destruct Hl as [(b & Hb) Hl].
    destruct (max2_place init y a0 b H0 Hb) as (m & Hm & Hma & Hmb & Hmc & _).
    destruct (IH _ m Hm Hl) as (c & Hc & Hcm & Hall & Hin).
    exists c. split; [exact Hc|].
    assert (forall d, ~ below m d -> ~ below c d) as Hup.
    { intros d Hd Hcd. destruct (below_total c m) as [H|[H|H]].
      - contradiction.
      - subst c. contradiction.
      - apply Hd. eapply below_trans; eassumption. }
    split; [apply Hup; exact Hma|].
    split.
    + intros z bz [<-|Hz] Hbz.
      * rewrite Hb in Hbz. injection Hbz as <-. apply Hup. exact Hmb.
      * eapply Hall; eassumption.
    + destruct Hin as [-> | (z & Hz & Hzc)].
      * destruct Hmc as [-> | ->]; [tauto|]. right. exists y. tauto.
      * right. exists z. tauto.
Qed.

Lemma neg_infinity_lowest (b : Z * Z * Z) (x : number) :
  place x = Some b -> ~ below b (-2, 0, 0)%Z.
Proof.
  unfold place. destruct (Prim2SF x) as [[]|[]| |[] m e]; simpl;
    intros [= <-]; unfold below; simpl; lia.
Qed.

(** The largest of the GPAs, read with NaN as 0: a Number that no GPA
    exceeds and that is the GPA of some student. *)
Lemma max_gpa_place (all : list Student) :
  all <> [] ->
  exists c,
    place (fold_left Math_max2
             (map (fun s => or_zero (parseFloat (gpa s))) all) neg_infinity)
    = Some c
    /\ (forall t b, In t all -> place (parseFloat (gpa t)) = Some b ->
                    ~ below c b)
    /\ (exists t, In t all /\ place (or_zero (parseFloat (gpa t))) = Some c).
Proof.
  intros Hne.
  destruct (fold_max_place
              (map (fun s => or_zero (parseFloat (gpa s))) all)
              neg_infinity (-2, 0, 0)%Z eq_refl) as (c & Hc & _ & Hall & Hin).
  { apply Forall_map, Forall_forall. intros s _. cbv beta.
    destruct (or_zero_place (parseFloat (gpa s))) as (a & Ha & _). eauto. }
  exists c. split; [exact Hc|]. split.
  - intros t b Ht Hb.
    destruct (or_zero_place (parseFloat (gpa t))) as (a & Ha & Hsame & _).
    rewrite Hsame in Hb by (apply isNaN_place; eauto). injection Hb as <-.
    apply (Hall (or_zero (parseFloat (gpa t)))); [|exact Ha].
    apply in_map_iff. eauto.
  - destruct Hin as [-> | (y & Hy & Hyc)].
    + destruct all as [|t all]; [contradiction|]. exists t.
      split; [left; reflexivity|].
      destruct (or_zero_place (parseFloat (gpa t))) as (a & Ha & _).
      rewrite Ha. f_equal.
      assert (~ below (-2, 0, 0)%Z a) as H1.
      { apply (Hall (or_zero (parseFloat (gpa t)))); [left; reflexivity|exact Ha]. }
      pose proof (neg_infinity_lowest a _ Ha) as H2.
      destruct (below_total a (-2, 0, 0)%Z) as [H|[H|H]]; tauto.
    + apply in_map_iff in Hy. destruct Hy as (t & <- & Ht). eauto.
Qed.

Lemma getHighestGPAStudents_filter (st : State) :
  objects (getHighestGPAStudents st)
  = List.filter
      (fun s => (parseFloat (gpa s)
                 =? fold_left Math_max2
                      (map (fun s => or_zero (parseFloat (gpa s)))
                           (map snapshot (records st)))
                      neg_infinity)%float)
      (map snapshot (records st)).
Proof.
  rewrite getHighestGPAStudents_objects.
  destruct (map snapshot (records st)); reflexivity.
Qed.

(** X13: the students [getHighestGPAStudents] lists are students of the
    store whose GPA parses and is exceeded by no student's GPA; every
    student with the same GPA is listed too; the list is not empty as soon
    as one student has a GPA above 0; and a student whose GPA does not
    parse is never listed. *)
Theorem highest_gpa_students (st : State) :
  let all := map snapshot (records st) in
  let top := objects (getHighestGPAStudents st) in
  (forall s, In s top ->
     In s all
     /\ isNaN (parseFloat (gpa s)) = false
     /\ forall t, In t all ->
          (parseFloat (gpa s) <? parseFloat (gpa t))%float = false)
  /\ (forall s t, In s top -> In t all ->
        (parseFloat (gpa t) =? parseFloat (gpa s))%float = true -> In t top)
  /\ ((exists t, In t all /\ (0 <? parseFloat (gpa t))%float = true) ->
      top <> [])
  /\ unchanged st (getHighestGPAStudents st).2.
Proof.
  cbn zeta. split; [|split; [|split; [|apply getHighestGPAStudents_unchanged]]];
    rewrite getHighestGPAStudents_filter;
    generalize (map snapshot (records st)); intros all.
  - intros s Hs. apply filter_In in Hs. destruct Hs as [Hin Heq].
    assert (all <> []) as Hne by (intros ->; destruct Hin).
    destruct (max_gpa_place _ Hne) as (c & Hc & Hall & _).
    apply eqb_place in Heq. destruct Heq as (a & Hsa & Hma).
    rewrite Hc in Hma. injection Hma as <-.
    split; [exact Hin|]. split; [apply isNaN_place; eauto|].
    intros t Ht. destruct (_ <? _)%float eqn:Elt; [|reflexivity].
    apply ltb_below in Elt. destruct Elt as (a' & b & Ha' & Hb & Hlt).
    rewrite Hsa in Ha'. injection Ha' as <-.
    destruct (Hall t b Ht Hb Hlt).
  - intros s t Hs Ht Heq.
    apply filter_In in Hs. destruct Hs as [Hin Hs].
    apply filter_In. split; [exact Ht|].
    apply eqb_place in Hs, Heq. apply eqb_place.
    destruct Hs as (a & Hsa & Hma), Heq as (b & Htb & Hsb).
    rewrite Hsa in Hsb. injection Hsb as <-. eauto.
  - intros (t & Ht & Hpos).
    assert (all <> []) as Hne by (intros ->; destruct Ht).
    destruct (max_gpa_place _ Hne) as (c & Hc & Hall & (j & Hj & Hjc)).
    apply ltb_below in Hpos. destruct Hpos as (z & b & Hz & Hb & Hlt).
    rewrite place_zero in Hz. injection Hz as <-.
    assert (below (0, 0, 0)%Z c) as Hc0.
    { destruct (below_total (0, 0, 0)%Z c) as [H|[H|H]]; [exact H| |].
      - subst c. destruct (Hall t b Ht Hb Hlt).
      - destruct (Hall t b Ht Hb). eapply below_trans; eassumption. }
    destruct (or_zero_place (parseFloat (gpa j))) as (a & Ha & _ & Hor).
    rewrite Ha in Hjc. injection Hjc as ->.
    destruct Hor as [Hor| ->]; [|destruct (below_irrefl _ Hc0)].
    rewrite Hor in Ha.
    intros Hnil.
    assert (In j (List.filter
                    (fun s => (parseFloat (gpa s)
                               =? fold_left Math_max2
                                    (map (fun s => or_zero (parseFloat (gpa s)))
                                         all)
                                    neg_infinity)%float)
                    all)) as Hin.
    { apply filter_In. split; [exact Hj|]. apply eqb_place. eauto. }
    rewrite Hnil in Hin. destruct Hin.
Qed.
(** *** The id counter *)

Lemma next_id_unfold (st : State) :
  _getNextAvailableId st
  = match students st with
    | [] => 1%float
    | _ =>
        (fold_left (fun max s =>
                      if String.eqb (id s) "" then max
                      else if negb (isNaN (id_number s))
                              && (max <? id_number s)%float
                           then id_number s else max)
                   (records st) 0 + 1)%float
    end.
Proof. reflexivity. Qed.

Lemma largest_id_number (l : list Student) (init : number) (a0 : Z * Z * Z) :
  place init = Some a0 ->
  let max := fold_left (fun max s =>
                          if String.eqb (id s) "" then max
                          else if negb (isNaN (id_number s))
                                  && (max <? id_number s)%float
                               then id_number s else max)
                       l init in
  (exists c, place max = Some c /\ ~ below c a0)
  /\ (forall s, In s l -> id s <> "" -> isNaN (id_number s) = false ->
                (id_number s <=? max)%float = true)
  /\ (max = init \/ exists s, In s l /\ id s <> "" /\ max = id_number s).
Proof.
  revert init a0. induction l as [|x l IH]; intros init a0 H0; cbn zeta; simpl.
  - split; [exists a0; split; [exact H0|apply below_irrefl]|].
    split; [intros ? []|left; reflexivity].
  - set (step := if String.eqb (id x) "" then init
                 else if negb (isNaN (id_number x))
                         && (init <? id_number x)%float
                      then id_number x else init).
    assert (exists a1, place step = Some a1 /\ ~ below a1 a0
                       /\ (id x <> "" -> forall b, place (id_number x) = Some b ->
                           ~ below a1 b)
                       /\ (step = init \/ (id x <> "" /\ step = id_number x)))
      as (a1 & H1 & H10 & H1x & H1s).
    { unfold step. destruct (String.eqb_spec (id x) "") as [E|E].
      - exists a0. split; [exact H0|]. split; [apply below_irrefl|].
        split; [contradiction|tauto].
      - destruct (isNaN (id_number x)) eqn:En; simpl.
        + exists a0. split; [exact H0|]. split; [apply below_irrefl|].
          split; [|tauto]. intros _ b Hb.
          assert (isNaN (id_number x) = false) by (apply isNaN_place; eauto).
          congruence.
        + destruct (init <? id_number x)%float eqn:Elt.
          * apply ltb_below in Elt. destruct Elt as (a & b & Ha & Hb & Hlt).
            rewrite H0 in Ha. injection Ha as <-.
            exists b. split; [exact Hb|].
            split; [intros H; apply (below_irrefl a0);
                    eapply below_trans; eassumption|].
            split; [|tauto]. intros _ b' Hb'. rewrite Hb in Hb'.
            injection Hb' as <-. apply below_irrefl.
          * exists a0. split; [exact H0|]. split; [apply below_irrefl|].
            split; [|tauto]. intros _ b Hb Hlt.
            assert ((init <? id_number x)%float = true) as E'
              by (apply ltb_below; eauto).
            congruence. }
    destruct (IH step a1 H1) as ((c & Hc & Hc1) & Hall & Hin).
    assert (forall d, ~ below a1 d -> ~ below c d) as Hup.
    { intros d Hd Hcd. destruct (below_total c a1) as [H|[H|H]].
      - contradiction.
      - subst c. contradiction.
      - apply Hd. eapply below_trans; eassumption. }
    split; [exists c; split; [exact Hc|apply Hup; exact H10]|].
    split.
    + intros s [<-|Hs] Hid Hn; [|apply Hall; assumption].
      apply isNaN_place in Hn. destruct Hn as (b & Hb).
      apply leb_below. exists b, c. split; [exact Hb|]. split; [exact Hc|].
      destruct (below_total b c) as [H|[H|H]]; [tauto|tauto|].
      destruct (Hup b (H1x Hid b Hb) H).
    + destruct Hin as [Hin|(s & Hs & Hid & Hmax)].
      * destruct H1s as [H1s|[Hid H1s]].
        -- left. rewrite Hin. exact H1s.
        -- right. exists x. split; [left; reflexivity|].
           split; [exact Hid|]. rewrite Hin. exact H1s.
      * right. exists s. split; [right; exact Hs|]. tauto.
Qed.

(** X14: [_getNextAvailableId] answers 1 for an empty store and otherwise
    one more than the largest number found after the last hyphen of an id:
    that number is the id number of some record (or 0 when no id has one),
    and no record's id number exceeds it. *)
Theorem next_id_above_all (st : State) :
  (students st = [] -> _getNextAvailableId st = 1%float)
  /\ (students st <> [] ->
      exists max,
        _getNextAvailableId st = (max + 1)%float
        /\ isNaN max = false
        /\ (0 <=? max)%float = true
        /\ (max = 0%float
            \/ exists s, In s (records st) /\ id s <> "" /\ max = id_number s)
        /\ forall s, In s (records st) -> id s <> "" ->
                     isNaN (id_number s) = false ->
                     (id_number s <=? max)%float = true).
Proof.
  rewrite next_id_unfold. split.
  - intros ->. reflexivity.
  - intros Hne. destruct (students st) as [|l ls] eqn:E; [contradiction|].
    destruct (largest_id_number (records st) 0%float (0, 0, 0)%Z eq_refl)
      as ((c & Hc & Hc0) & Hall & Hin).
    eexists. split; [reflexivity|].
    split; [apply isNaN_place; eauto|].
    split; [|split; [exact Hin|exact Hall]].
    apply leb_below. exists (0, 0, 0)%Z, c. split; [reflexivity|].
    split; [exact Hc|].
    destruct (below_total (0, 0, 0)%Z c) as [H|[H|H]]; tauto.
Qed.
(** *** Saving and loading *)

Lemma migrate_record_fixed (s : Student) :
  history_ok s -> migrate_record s = (s, false).
Proof.
  intros (h & Hh & Hne & Hlen). unfold migrate_record. rewrite Hh.
  destruct h as [|x h]; [contradiction|].
  rewrite slice_last_short by exact Hlen.
  destruct s. simpl in Hh. subst. reflexivity.
Qed.

Lemma migrate_each_fixed (ls : list loc) (h : list Student) (c : bool) :
  Forall (fun l => l < length h /\ history_ok (read h l)) ls ->
  migrate_each ls h c = (h, c).
Proof.
  induction ls as [|l ls IH]; intros H; [reflexivity|].
  apply Forall_cons in H. destruct H as [[Hl Hok] H].
  simpl. rewrite migrate_record_fixed by exact Hok.
  assert (<[l := read h l]> h = h) as ->.
  { apply list_insert_id. unfold read.
    destruct (h !! l) eqn:E; [reflexivity|].
    apply lookup_ge_None in E. lia. }
  rewrite orb_false_r. apply IH. exact H.
Qed.

Lemma read_all (l : list Student) : map (read l) (seq 0 (length l)) = l.
Proof. exact (read_fresh [] l). Qed.

Lemma construct_fixed (l : list Student) :
  Forall history_ok l ->
  construct (Some l)
  = set_nextId (mkState l (seq 0 (length l)) 0%float (Some l))
               (_getNextAvailableId
                  (mkState l (seq 0 (length l)) 0%float (Some l))).
Proof.
  intros H. unfold construct, _migratePerformanceHistory.
  cbn [default students heap].
  rewrite migrate_each_fixed; [reflexivity|].
  exact (store_invariant_fresh [] l 0%float None H).
Qed.

Lemma fold_left_map_arg {A B C} (f : A -> C -> A) (g : B -> C) (l : list B)
    (a : A) :
  fold_left (fun x y => f x (g y)) l a = fold_left f (map g l) a.
Proof. revert a. induction l as [|b l IH]; intros a; simpl; [reflexivity|apply IH]. Qed.

Lemma next_id_by_ids (st st' : State) :
  length (students st) = length (students st') ->
  map id (records st) = map id (records st') ->
  _getNextAvailableId st = _getNextAvailableId st'.
Proof.
  intros Hlen Hids. rewrite !next_id_unfold. unfold id_number.
  rewrite (fold_left_map_arg
             (fun max i =>
                if String.eqb i "" then max
                else if negb (isNaN (parseInt10_string (last_segment "" i)))
                        && (max <? parseInt10_string (last_segment "" i))%float
                     then parseInt10_string (last_segment "" i) else max)
             id (records st)).
  rewrite (fold_left_map_arg
             (fun max i =>
                if String.eqb i "" then max
                else if negb (isNaN (parseInt10_string (last_segment "" i)))
                        && (max <? parseInt10_string (last_segment "" i))%float
                     then parseInt10_string (last_segment "" i) else max)
             id (records st')).
  rewrite Hids.
  destruct (students st), (students st'); try discriminate Hlen; reflexivity.
Qed.

(** X15: loading what [saveToStorage] wrote gives back the same records,
    each as JSON writes and reads it, with nothing migrated and nothing
    saved again; the id counter is not stored but computed afresh from the
    ids. *)
Theorem reload_after_save (st : State) :
  Forall history_ok (records st) ->
  let st' := construct (students_db (saveToStorage st)) in
  records st' = map deepClone (records st)
  /\ heap st' = map deepClone (records st)
  /\ students_db st' = students_db (saveToStorage st)
  /\ nextId st' = _getNextAvailableId st
  /\ store_invariant st'.
Proof.
  intros H. cbn zeta. cbn [saveToStorage students_db].
  assert (Forall history_ok (map deepClone (records st))) as Hc
    by (apply Forall_history_ok_clones; exact H).
  assert (records (mkState (map deepClone (records st))
                           (seq 0 (length (map deepClone (records st))))
                           0%float (Some (map deepClone (records st))))
          = map deepClone (records st)) as Hr.
  { unfold records at 1. cbn [heap students]. apply read_all. }
  split; [|split; [|split; [|split]]].
  - rewrite construct_fixed by exact Hc. exact Hr.
  - rewrite construct_fixed by exact Hc. reflexivity.
  - rewrite construct_fixed by exact Hc. reflexivity.
  - rewrite construct_fixed by exact Hc. cbn [set_nextId nextId].
    apply next_id_by_ids.
    + cbn [students]. rewrite length_seq, length_map. unfold records.
      apply length_map.
    + rewrite Hr, List.map_map. reflexivity.
  - apply construct_invariant.
Qed.

Lemma reload_after_save_witness :
  map performanceHistory (records overflowed)
  = [Some [Some 42%float; Some infinity]]
  /\ map performanceHistory
       (records (construct (students_db (saveToStorage overflowed))))
     = [Some [Some 42%float; None]]
  /\ records (construct (students_db (saveToStorage overflowed)))
     = map deepClone (records overflowed).
Proof.
  split; [vm_compute; reflexivity |].
  split; [vm_compute; reflexivity |].
  apply (reload_after_save overflowed).
  apply invariant_records, updateStudent_invariant, construct_invariant.
Defined.
(** *** Looking a student up *)

Lemma snapshot_history_ok (s : Student) : history_ok (snapshot s).
Proof.
  unfold snapshot, present, history_ok. cbn [performanceHistory set_history].
  eexists. split; [reflexivity|].
  unfold _ensurePerformanceHistory. cbv zeta.
  destruct (match performanceHistory (deepClone s) with
            | Some h => h
            | None => []
            end); apply slice_last_ok; discriminate.
Qed.

Lemma invariant_is_allocated (st : State) : store_invariant st -> allocated st.
Proof.
  unfold store_invariant, allocated. intros H.
  eapply Forall_impl; [exact H|]. intros l Hl. exact (proj1 Hl).
Qed.

(** X16: [getStudentById] answers [undefined] exactly when no record has
    the id, and then touches nothing; otherwise it hands out a new object,
    not one of the store's: the snapshot of the first record with the id,
    with the same id, normalized tags and a history of one to five scores.
    The store is unchanged either way. *)
Theorem getStudentById_snapshot (sid : string) (st : State) :
  allocated st ->
  let r := getStudentById sid st in
  unchanged st r.2
  /\ records r.2 = records st
  /\ match r.1 with
     | None => Forall (fun s => id s <> sid) (records st) /\ r.2 = st
     | Some l =>
         l = length (heap st)
         /\ ~ In l (students st)
         /\ exists before s after,
              records st = before ++ s :: after
              /\ Forall (fun x => id x <> sid) before
              /\ id s = sid
              /\ read (heap r.2) l = snapshot s
              /\ id (read (heap r.2) l) = sid
              /\ tags (read (heap r.2) l)
                 = Some (normalizeTags (default [] (tags s)))
              /\ history_ok (read (heap r.2) l)
     end.
Proof.
  intros Halloc. cbn zeta. unfold getStudentById.
  destruct (List.find _ (records st)) as [s|] eqn:F.
  - cbn [fst snd].
    assert (unchanged st
              (mkState (heap st ++ [present (deepClone s)]) (students st)
                       (nextId st) (students_db st))) as Hun.
    { repeat split. eexists. reflexivity. }
    split; [exact Hun|].
    split; [apply unchanged_records; assumption|].
    split; [reflexivity|].
    split.
    { intros Hin. unfold allocated in Halloc. rewrite Forall_forall in Halloc.
      apply list_elem_of_In in Hin. apply Halloc in Hin. lia. }
    assert (exists before after,
              records st = before ++ s :: after
              /\ Forall (fun x => id x <> sid) before /\ id s = sid)
      as (before & after & Hrec & Hb & Hs).
    { revert F. generalize (records st). intros l.
      induction l as [|x l IH]; simpl; [discriminate|].
      destruct (String.eqb_spec (id x) sid) as [E|E].
      - intros [= ->]. exists [], l. repeat split; [constructor|exact E].
      - intros F. destruct (IH F) as (b & a & -> & Hb & Hs).
        exists (x :: b), a. repeat split; [constructor; assumption|exact Hs]. }
    exists before, s, after.
    cbn [heap]. rewrite read_app_new.
    split; [exact Hrec|]. split; [exact Hb|]. split; [exact Hs|].
    split; [reflexivity|]. split; [exact Hs|]. split; [reflexivity|].
    apply snapshot_history_ok.
  - cbn [fst snd]. split; [apply unchanged_refl|]. split; [reflexivity|].
    split; [|reflexivity].
    apply Forall_forall. intros x Hx E.
    apply list_elem_of_In in Hx.
    apply (find_none _ _ F) in Hx. rewrite E, String.eqb_refl in Hx.
    discriminate Hx.
Qed.

Lemma getStudentById_snapshot_witness :
  (getStudentById "STU-2025-001" overflowed).1 = Some 2
  /\ performanceHistory
       (read (heap (getStudentById "STU-2025-001" overflowed).2) 2)
     = Some [Some 42%float; None]
  /\ records (getStudentById "STU-2025-001" overflowed).2
     = records overflowed.
Proof.
  split; [vm_compute; reflexivity |].
  split; [vm_compute; reflexivity |].
  refine (proj1 (proj2 (getStudentById_snapshot "STU-2025-001" overflowed _))).
  apply invariant_is_allocated, updateStudent_invariant, construct_invariant.
Defined.

(** *** E-mail addresses *)

Section Registration.
Variable validateStudent : StudentData -> bool.
Variable generateStudentID : number -> string.

Lemma emailExists_last (h : list Student) (ls : list loc) (x : Student)
    (n : number) (db : option (list Student)) (mail : string) :
  email x <> "" -> toLowerCase (email x) = toLowerCase mail ->
  emailExists (mkState (h ++ [x]) (ls ++ [length h]) n db) mail None = true.
Proof.
  intros Hne Heq. unfold emailExists, records. cbn [heap students].
  rewrite map_app, existsb_app. apply orb_true_iff. right.
  cbn [map existsb]. rewrite read_app_new, Heq, String.eqb_refl.
  rewrite eqb_empty_false by exact Hne. reflexivity.
Qed.

(** X17: once [addStudent] has registered a student with a non-empty
    e-mail address, a further registration under an address that differs
    at most in letter case is refused and changes nothing, whatever else
    the form holds: with "Invalid student data" when the form does not
    pass [validateStudent], with "Email already registered" when it
    does. *)
Theorem duplicate_email_rejected (data data' : StudentData) (st st' : State)
    (l : loc) :
  addStudent validateStudent generateStudentID data st = (Ok l, st') ->
  d_email data <> "" ->
  toLowerCase (d_email data') = toLowerCase (d_email data) ->
  emailExists st' (d_email data') None = true
  /\ addStudent validateStudent generateStudentID data' st'
     = (Throw (if validateStudent data' then "Email already registered"
               else "Invalid student data"),
        st').
Proof.
  intros Hadd Hne Heq.
  assert (emailExists st' (d_email data') None = true) as Hex.
  { revert Hadd. unfold addStudent.
    destruct (negb (validateStudent data)); [discriminate|].
    destruct (emailExists st (d_email data) None); [discriminate|].
    intros [= _ <-]. unfold saveToStorage, emailExists, records.
    cbn [heap students].
    rewrite map_app, existsb_app. apply orb_true_iff. right.
    cbn [map existsb]. rewrite read_app_new.
    cbn [email set_history]. rewrite Heq, String.eqb_refl.
    rewrite eqb_empty_false by exact Hne. reflexivity. }
  split; [exact Hex|].
  unfold addStudent. rewrite Hex.
  destruct (validateStudent data'); reflexivity.
Qed.
End Registration.

Lemma duplicate_email_rejected_witness :
  Store.validateStudent true first_form = true
  /\ Store.validateStudent true second_form = true
  /\ Store.validateStudent true third_form = false
  /\ map id (records first_registered) = ["STU-2025-001"; "STU-2025-002"]
  /\ register second_form first_registered
     = (Throw "Email already registered", first_registered)
  /\ register third_form first_registered
     = (Throw "Invalid student data", first_registered).
Proof.
  split; [vm_compute; reflexivity |].
  split; [vm_compute; reflexivity |].
  split; [vm_compute; reflexivity |].
  split; [vm_compute; reflexivity |].
  assert (Hadd : addStudent (Store.validateStudent true)
                            (Utils.generateStudentID 2025) first_form
                            one_at_risk
                 = (Ok 1, first_registered)).
  { vm_compute. reflexivity. }
  split.
  - exact (proj2 (duplicate_email_rejected (Store.validateStudent true)
                    (Utils.generateStudentID 2025) first_form second_form
                    one_at_risk first_registered 1 Hadd ltac:(discriminate)
                    ltac:(vm_compute; reflexivity))).
  - exact (proj2 (duplicate_email_rejected (Store.validateStudent true)
                    (Utils.generateStudentID 2025) first_form third_form
                    one_at_risk first_registered 1 Hadd ltac:(discriminate)
                    ltac:(vm_compute; reflexivity))).
Defined.
(** *** The buckets of the charts *)

Lemma leb_trans (x y z : number) :
  (x <=? y)%float = true -> (y <=? z)%float = true -> (x <=? z)%float = true.
Proof.
  rewrite !leb_below.
  intros (a & b & Ha & Hb & Hab) (b' & c & Hb' & Hc & Hbc).
  rewrite Hb in Hb'. injection Hb' as <-.
  exists a, c. split; [exact Ha|]. split; [exact Hc|].
  destruct Hab as [Hab| ->]; [|exact Hbc].
  destruct Hbc as [Hbc| <-]; [|tauto].
  left. eapply below_trans; eassumption.
Qed.

Lemma buckets_partition {A} (p q r : A -> bool) (l : list A) :
  count p l
  + count (fun s => negb (p s) && q s) l
  + count (fun s => negb (p s) && negb (q s) && r s) l
  + count (fun s => negb (p s) && negb (q s) && negb (r s)) l
  = length l.
Proof.
  unfold count. induction l as [|a l IH]; [reflexivity|].
  cbn [List.filter length].
  destruct (p a), (q a), (r a); cbn [negb andb length]; lia.
Qed.

Lemma last_bucket {A} (g : A -> number) (t1 t2 t3 : number) (l : list A) :
  (t3 <=? t2)%float = true -> (t2 <=? t1)%float = true ->
  count (fun s => negb (t1 <=? g s)%float && negb (t2 <=? g s)%float
                  && negb (t3 <=? g s)%float) l
  = count (fun s => negb (t3 <=? g s)%float) l.
Proof.
  intros H32 H21. unfold count. f_equal. apply filter_ext. intros s.
  destruct (t3 <=? g s)%float eqn:E3; [apply andb_false_r|].
  destruct (t2 <=? g s)%float eqn:E2.
  - rewrite (leb_trans _ _ _ H32 E2) in E3. discriminate E3.
  - destruct (t1 <=? g s)%float eqn:E1; [|reflexivity].
    rewrite (leb_trans _ _ _ H32 (leb_trans _ _ _ H21 E1)) in E3.
    discriminate E3.
Qed.

(** X18: the four buckets of the GPA chart, and the four of the attendance
    chart, split the students: every student is counted in exactly one
    bucket of each chart, so the counts add up to the number of students.
    The last bucket of each chart is open below: "2.0-2.5" counts every
    student whose GPA is not at least 2.5, and "Below 70%" every student
    whose attendance is not at least 70, those whose value does not parse
    included. *)
Theorem chart_buckets_partition (st : State) :
  let stats := getStatistics st in
  map fst (gpaDistribution stats) = ["3.5-4.0"; "3.0-3.5"; "2.5-3.0"; "2.0-2.5"]
  /\ fold_left (fun n d => n + d.2) (gpaDistribution stats) 0
     = totalStudents stats
  /\ last (gpaDistribution stats)
     = Some ("2.0-2.5",
             count (fun s => negb (2.5 <=? parseFloat (gpa s))%float)
                   (records st))
  /\ map fst (attendanceDistribution stats)
     = ["90-100%"; "80-90%"; "70-80%"; "Below 70%"]
  /\ fold_left (fun n d => n + d.2) (attendanceDistribution stats) 0
     = totalStudents stats
  /\ last (attendanceDistribution stats)
     = Some ("Below 70%",
             count (fun s => negb (70 <=? parseInt (attendance s))%float)
                   (records st)).
Proof.
  cbn zeta. unfold getStatistics.
  cbn [gpaDistribution attendanceDistribution totalStudents].
  unfold getGPADistribution, getAttendanceDistribution.
  cbn [map fst snd fold_left last Nat.add].
  split; [reflexivity|]. split; [apply buckets_partition|].
  split.
  { rewrite (last_bucket (fun s => parseFloat (gpa s)) 3.5 3.0 2.5);
      reflexivity. }
  split; [reflexivity|]. split; [apply buckets_partition|].
  rewrite (last_bucket (fun s => parseInt (attendance s)) 90 80 70);
    reflexivity.
Qed.
(** *** Counting by key *)

Lemma keys_bump (k : string) (m : list (string * nat)) :
  map fst (bump k m)
  = if existsb (String.eqb k) (map fst m) then map fst m
    else map fst m ++ [k].
Proof.
  induction m as [|[k' n] m IH]; simpl; [reflexivity|].
  destruct (String.eqb k k'); simpl; [reflexivity|].
  rewrite IH. destruct (existsb _ _); reflexivity.
Qed.

Lemma existsb_eqb_In (k : string) (l : list string) :
  existsb (String.eqb k) l = true <-> In k l.
Proof.
  rewrite existsb_exists. split.
  - intros (x & Hx & E). apply String.eqb_eq in E. subst. exact Hx.
  - intros H. exists k. split; [exact H|apply String.eqb_refl].
Qed.

Lemma NoDup_bump (k : string) (m : list (string * nat)) :
  NoDup (map fst m) -> NoDup (map fst (bump k m)).
Proof.
  intros H. rewrite keys_bump.
  destruct (existsb (String.eqb k) (map fst m)) eqn:E; [exact H|].
  apply NoDup_app. split; [exact H|]. split; [|apply NoDup_singleton].
  intros x Hx Hk. apply list_elem_of_singleton in Hk. subst x.
  apply list_elem_of_In, existsb_eqb_In in Hx. congruence.
Qed.

Lemma positive_bump (k : string) (m : list (string * nat)) :
  Forall (fun e => 0 < e.2) m -> Forall (fun e => 0 < e.2) (bump k m).
Proof.
  induction m as [|[k' n] m IH]; simpl; intros H.
  - repeat constructor.
  - apply Forall_cons in H. destruct H as [Hn H]. simpl in Hn.
    destruct (String.eqb k k'); constructor; simpl; auto; lia.
Qed.

Lemma count_of_bump (k k' : string) (m : list (string * nat)) :
  count_of k (bump k' m)
  = count_of k m + (if String.eqb k' k then 1 else 0).
Proof.
  induction m as [|[k0 n] m IH]; simpl.
  - rewrite (String.eqb_sym k k'). destruct (String.eqb k' k); reflexivity.
  - destruct (String.eqb_spec k' k0) as [->|Hne]; simpl.
    + rewrite (String.eqb_sym k0 k).
      destruct (String.eqb k k0); lia.
    + destruct (String.eqb_spec k k0) as [->|Hne'].
      * rewrite (proj2 (String.eqb_neq k' k0)) by exact Hne. lia.
      * exact IH.
Qed.

Lemma sum_counts_acc (m : list (string * nat)) (a : nat) :
  fold_left (fun n e => n + e.2) m a = a + fold_left (fun n e => n + e.2) m 0.
Proof.
  revert a. induction m as [|e m IH]; intros a; simpl; [lia|].
  rewrite (IH (a + e.2)), (IH e.2). lia.
Qed.

Lemma sum_counts_bump (k : string) (m : list (string * nat)) :
  fold_left (fun n e => n + e.2) (bump k m) 0
  = S (fold_left (fun n e => n + e.2) m 0).
Proof.
  induction m as [|[k' n] m IH]; simpl; [reflexivity|].
  destruct (String.eqb k k'); simpl.
  - rewrite (sum_counts_acc m (S n)), (sum_counts_acc m n). lia.
  - rewrite (sum_counts_acc (bump k m) n), (sum_counts_acc m n), IH. lia.
Qed.

Lemma count_snoc {A} (p : A -> bool) (l : list A) (x : A) :
  count p (l ++ [x]) = count p l + (if p x then 1 else 0).
Proof.
  unfold count. rewrite List.filter_app, length_app. simpl.
  destruct (p x); reflexivity.
Qed.

Lemma count_by_snoc (key : Student -> string) (l : list Student) (s : Student) :
  count_by key (l ++ [s]) = bump (key s) (count_by key l).
Proof. unfold count_by. rewrite fold_left_app. reflexivity. Qed.

Lemma count_by_table (key : Student -> string) (l : list Student) :
  NoDup (map fst (count_by key l))
  /\ Forall (fun e => 0 < e.2) (count_by key l)
  /\ (forall k, count_of k (count_by key l)
                = count (fun s => String.eqb (key s) k) l)
  /\ fold_left (fun n e => n + e.2) (count_by key l) 0 = length l.
Proof.
  induction l as [|s l IH] using rev_ind.
  - repeat split; constructor.
  - destruct IH as (Hnd & Hpos & Hcount & Hsum).
    rewrite count_by_snoc.
    split; [apply NoDup_bump; exact Hnd|].
    split; [apply positive_bump; exact Hpos|].
    split.
    + intros k. rewrite count_of_bump, count_snoc, Hcount. reflexivity.
    + rewrite sum_counts_bump, Hsum, length_app. simpl. lia.
Qed.

Lemma count_of_In (m : list (string * nat)) (k : string) (n : nat) :
  NoDup (map fst m) -> In (k, n) m -> count_of k m = n.
Proof.
  induction m as [|[k' n'] m IH]; simpl; intros Hnd; [intros []|].
  apply NoDup_cons in Hnd. destruct Hnd as [Hnot Hnd].
  intros [[= -> ->]|Hin].
  - rewrite String.eqb_refl. reflexivity.
  - destruct (String.eqb_spec k k') as [->|Hne]; [|apply IH; assumption].
    exfalso. apply Hnot. apply list_elem_of_In.
    apply in_map_iff. exists (k', n). tauto.
Qed.

Lemma In_count_of (m : list (string * nat)) (k : string) :
  0 < count_of k m -> In (k, count_of k m) m.
Proof.
  induction m as [|[k' n'] m IH]; simpl; [lia|].
  destruct (String.eqb_spec k k') as [->|Hne]; [left; reflexivity|].
  intros H. right. apply IH. exact H.
Qed.

(** *** The order of [Object.entries] *)

Lemma insert_by_index_perm {A} (i : Z) (x : A) (l : list (Z * A)) :
  map snd (insert_by_index i x l) ≡ₚ x :: map snd l.
Proof.
  induction l as [|[j y] l IH]; simpl; [reflexivity|].
  destruct (i <? j)%Z; simpl; [reflexivity|].
  rewrite IH. apply Permutation_swap.
Qed.

Lemma indexed_perm {A} (m : list (string * A)) (acc : list (Z * (string * A))) :
  map snd
    (fold_left (fun acc kv =>
                  match array_index kv.1 with
                  | Some i => insert_by_index i kv acc
                  | None => acc
                  end) m acc)
  ≡ₚ map snd acc
     ++ List.filter (fun kv => match array_index kv.1 with
                               | Some _ => true
                               | None => false
                               end) m.
Proof.
  revert acc. induction m as [|kv m IH]; intros acc; simpl.
  - rewrite app_nil_r. reflexivity.
  - rewrite IH. destruct (array_index kv.1); [|reflexivity].
    rewrite insert_by_index_perm. simpl.
    apply Permutation_middle.
Qed.

Lemma filter_split_perm {A} (p q : A -> bool) (l : list A) :
  (forall x, q x = negb (p x)) ->
  List.filter p l ++ List.filter q l ≡ₚ l.
Proof.
  intros Hq. induction l as [|x l IH]; simpl; [reflexivity|].
  rewrite Hq. destruct (p x); simpl.
  - rewrite IH. reflexivity.
  - rewrite <- Permutation_middle, IH. reflexivity.
Qed.

Lemma Object_entries_perm {A} (m : list (string * A)) : Object_entries m ≡ₚ m.
Proof.
  unfold Object_entries. rewrite indexed_perm. simpl.
  apply filter_split_perm. intros kv. destruct (array_index kv.1); reflexivity.
Qed.

Lemma sum_counts_perm (m m' : list (string * nat)) :
  m ≡ₚ m' ->
  fold_left (fun n e => n + e.2) m 0 = fold_left (fun n e => n + e.2) m' 0.
Proof.
  induction 1 as [|x l l' _ IH|x y l|l l' l'' _ IH1 _ IH2]; simpl.
  - reflexivity.
  - rewrite (sum_counts_acc l), (sum_counts_acc l'), IH. reflexivity.
  - rewrite (sum_counts_acc l (y.2 + x.2)), (sum_counts_acc l (x.2 + y.2)). lia.
  - congruence.
Qed.

Lemma distribution_counts (key : Student -> string) (l : list Student) :
  counts_by key l (distribution key l).
Proof.
  destruct (count_by_table key l) as (Hnd & Hpos & Hcount & Hsum).
  pose proof (Object_entries_perm (count_by key l)) as Hperm.
  unfold counts_by, distribution. split; [|split].
  - rewrite Hperm. exact Hnd.
  - intros k n. split.
    + intros Hin. apply list_elem_of_In in Hin. rewrite Hperm in Hin.
      rewrite <- Hcount.
      rewrite (count_of_In _ _ _ Hnd (proj1 (list_elem_of_In _ _) Hin)).
      split; [|reflexivity].
      rewrite Forall_forall in Hpos. exact (Hpos _ Hin).
    + intros [Hn ->]. apply list_elem_of_In. rewrite Hperm.
      apply list_elem_of_In. rewrite <- Hcount in Hn |- *.
      apply In_count_of. exact Hn.
  - rewrite (sum_counts_perm _ _ Hperm). exact Hsum.
Qed.

Lemma dedupe_seen_ext (seen seen' l : list string) :
  (forall x, In x seen <-> In x seen') -> dedupe seen l = dedupe seen' l.
Proof.
  revert seen seen'. induction l as [|t l IH]; intros seen seen' H; simpl;
    [reflexivity|].
  assert (existsb (String.eqb t) seen = existsb (String.eqb t) seen') as ->.
  { apply eq_true_iff_eq. rewrite !existsb_eqb_In. apply H. }
  destruct (existsb (String.eqb t) seen'); [apply IH; exact H|].
  f_equal. apply IH. intros x. simpl. rewrite H. reflexivity.
Qed.

Lemma count_by_keys (key : Student -> string) (l : list Student)
    (m : list (string * nat)) :
  map fst (fold_left (fun m s => bump (key s) m) l m)
  = map fst m ++ dedupe (map fst m) (map key l).
Proof.
  revert m. induction l as [|s l IH]; intros m; simpl.
  - rewrite app_nil_r. reflexivity.
  - rewrite IH, keys_bump.
    destruct (existsb (String.eqb (key s)) (map fst m)) eqn:E; [reflexivity|].
    rewrite <- app_assoc. simpl. f_equal. f_equal.
    apply dedupe_seen_ext. intros x. rewrite in_app_iff. simpl. tauto.
Qed.

Lemma distribution_length (key : Student -> string) (l : list Student) :
  length (distribution key l) = length (dedupe [] (map key l)).
Proof.
  unfold distribution. rewrite (Object_entries_perm (count_by key l)).
  unfold count_by. rewrite <- (length_map fst), count_by_keys. reflexivity.
Qed.

(** X19: when no department, year or gender is the name of a property
    that objects inherit, each of the department, year and gender
    distributions of [getStatistics] lists every value that occurs exactly
    once, with the number of students that have it (never 0); its counts
    add up to the number of students, and the department distribution has
    as many entries as [departmentCount] says. *)
Theorem distributions_count_students (st : State) :
  plain_keys (records st) = true ->
  let stats := getStatistics st in
  counts_by department (records st) (departmentDistribution stats)
  /\ counts_by year (records st) (yearDistribution stats)
  /\ counts_by gender (records st) (genderDistribution stats)
  /\ length (departmentDistribution stats) = departmentCount stats
  /\ totalStudents stats = length (records st).
Proof.
  intros _. cbn zeta. unfold getStatistics.
  cbn [departmentDistribution yearDistribution genderDistribution
       departmentCount totalStudents].
  split; [apply distribution_counts|].
  split; [apply distribution_counts|].
  split; [apply distribution_counts|].
  split; [apply distribution_length|reflexivity].
Qed.

Lemma distributions_count_students_witness :
  length (departmentDistribution (getStatistics one_at_risk))
  = departmentCount (getStatistics one_at_risk).
Proof.
  apply (distributions_count_students one_at_risk).
  vm_compute. reflexivity.
Defined.

(** *** Comparing the departments *)

Lemma top_count_max (best : string * nat) (l : list (string * nat)) :
  In (top_count best l) (best :: l)
  /\ forall e, In e (best :: l) -> e.2 <= (top_count best l).2.
Proof.
  revert best. induction l as [|d l IH]; intros best; simpl.
  - split; [tauto|]. intros e [<-|[]]. lia.
  - destruct (IH (if best.2 <? d.2 then d else best)) as [Hin Hmax].
    split.
    + destruct Hin as [Hin|Hin]; [|tauto].
      rewrite <- Hin. destruct (best.2 <? d.2); tauto.
    + intros e [<-|[<-|He]].
      * etransitivity; [|apply Hmax; left; reflexivity].
        destruct (Nat.ltb_spec best.2 d.2); lia.
      * etransitivity; [|apply Hmax; left; reflexivity].
        destruct (Nat.ltb_spec best.2 d.2); lia.
      * apply Hmax. right. exact He.
Qed.

(** X20: when no department is the name of a property that objects
    inherit, [getDepartmentComparison] reports, for a store with students,
    the number of departments and of students that [getStatistics] gives,
    and names a department that no other exceeds in students, with its
    true count; for an empty store it reports that there is no data. *)
Theorem department_comparison_true (st : State) :
  plain_keys (records st) = true ->
  let stats := getStatistics st in
  (records st = [] ->
   getDepartmentComparison st = ("No department data available.", []))
  /\ (records st <> [] ->
      exists name n,
        getDepartmentComparison st
        = (("There are " ++ show_nat (departmentCount stats)
            ++ " department(s) with " ++ show_nat (totalStudents stats)
            ++ " total students. " ++ name ++ " has the most students ("
            ++ show_nat n ++ ").")%string,
           departmentDistribution stats)
        /\ 0 < n
        /\ n = count (fun s => String.eqb (department s) name) (records st)
        /\ forall d, count (fun s => String.eqb (department s) d) (records st)
                     <= n).
Proof.
  intros _. cbn zeta.
  destruct (distribution_counts department (records st)) as (Hnd & Hin & Hsum).
  pose proof (distribution_length department (records st)) as Hlen.
  assert (totalStudents (getStatistics st) = length (records st)) as Htot
    by reflexivity.
  change (distribution department (records st))
    with (departmentDistribution (getStatistics st)) in Hnd, Hin, Hsum, Hlen.
  change (length (dedupe [] (map department (records st))))
    with (departmentCount (getStatistics st)) in Hlen.
  unfold getDepartmentComparison, getStats. split.
  - intros E. unfold getStatistics. cbn [departmentDistribution].
    rewrite E. reflexivity.
  - intros Hne.
    destruct (departmentDistribution (getStatistics st)) as [|d dist'] eqn:E.
    { simpl in Hsum. destruct (records st); [contradiction|discriminate]. }
    destruct (top_count_max d dist') as [Htop Hmax].
    exists (top_count d dist').1, (top_count d dist').2.
    split.
    { rewrite <- Hlen, Htot, <- Hsum. reflexivity. }
    destruct (top_count d dist') as [name n] eqn:Et. cbn [fst snd] in *.
    apply Hin in Htop. destruct Htop as [Hpos Hn].
    split; [exact Hpos|]. split; [exact Hn|].
    intros d'.
    destruct (Nat.eq_dec (count (fun s => String.eqb (department s) d')
                                (records st)) 0) as [->|Hd]; [lia|].
    assert (In (d', count (fun s => String.eqb (department s) d') (records st))
               (d :: dist')) as Hd'.
    { apply Hin. split; [lia|reflexivity]. }
    exact (Hmax _ Hd').
Qed.

Lemma department_comparison_true_witness :
  exists name n,
    getDepartmentComparison one_at_risk
    = (("There are " ++ show_nat (departmentCount (getStatistics one_at_risk))
        ++ " department(s) with "
        ++ show_nat (totalStudents (getStatistics one_at_risk))
        ++ " total students. " ++ name ++ " has the most students ("
        ++ show_nat n ++ ").")%string,
       departmentDistribution (getStatistics one_at_risk))
    /\ 0 < n
    /\ n = count (fun s => String.eqb (department s) name)
                 (records one_at_risk)
    /\ forall d, count (fun s => String.eqb (department s) d)
                       (records one_at_risk) <= n.
Proof.
  apply (department_comparison_true one_at_risk).
  - vm_compute. reflexivity.
  - intros H. vm_compute in H. discriminate H.
Defined.
(** *** The matcher against what a pattern matches *)

Import AssistantView RegexSpec.

Lemma star_loop_sound (body : pos -> (pos -> option (list (nat * string)))
                              -> option (list (nat * string)))
    (r : regex) (k : pos -> option (list (nat * string))) :
  (forall p k' c, body p k' = Some c ->
                  exists q, matches r p q /\ k' q = Some c) ->
  forall fuel p c,
    star_loop body k fuel p = Some c ->
    exists q, matches (Star r) p q /\ k q = Some c.
Proof.
  intros Hbody. induction fuel as [|fuel IH]; intros p c; simpl.
  - intros H. exists p. split; [constructor|exact H].
  - destruct (body p _) as [c'|] eqn:E.
    + intros [= ->]. apply Hbody in E. destruct E as (q & Hq & Hk).
      destruct (String.length (rest q) <? String.length (rest p)) eqn:Hlt;
        [|discriminate Hk].
      apply Nat.ltb_lt in Hlt.
      destruct (IH _ _ Hk) as (q' & Hq' & Hk').
      exists q'. split; [|exact Hk']. eapply m_star_more; eassumption.
    + intros H. exists p. split; [constructor|exact H].
Qed.

Lemma rmatch_sound (r : regex) (p : pos)
    (k : pos -> option (list (nat * string))) (c : list (nat * string)) :
  rmatch r p k = Some c -> exists q, matches r p q /\ k q = Some c.
Proof.
  revert p k c. induction r as [|a|f| |r1 IH1 r2 IH2|r1 IH1 r2 IH2|r IH|i r IH];
    intros p k c; simpl.
  - intros H. exists p. split; [constructor|exact H].
  - destruct (rest p) as [|d s] eqn:E; [discriminate|].
    destruct (Ascii.eqb_spec a d) as [->|]; [|discriminate].
    intros H. exists (advance p d s). split; [constructor; exact E|exact H].
  - destruct (rest p) as [|d s] eqn:E; [discriminate|].
    destruct (f d) eqn:Ef; [|discriminate].
    intros H. exists (advance p d s). split; [constructor; assumption|exact H].
  - destruct (xorb (word_before p) (word_after p)) eqn:E; [|discriminate].
    intros H. exists p. split; [constructor; exact E|exact H].
  - intros H. apply IH1 in H. destruct H as (q & Hq & H).
    apply IH2 in H. destruct H as (q' & Hq' & H).
    exists q'. split; [econstructor; eassumption|exact H].
  - destruct (rmatch r1 p k) as [c'|] eqn:E.
    + intros [= ->]. apply IH1 in E. destruct E as (q & Hq & H).
      exists q. split; [apply m_alt_l; exact Hq|exact H].
    + intros H. apply IH2 in H. destruct H as (q & Hq & H).
      exists q. split; [apply m_alt_r; exact Hq|exact H].
  - apply star_loop_sound. exact IH.
  - intros H. apply IH in H. destruct H as (q & Hq & H).
    exists (capture i p q). split; [constructor; exact Hq|exact H].
Qed.

Lemma star_loop_ext (body : pos -> (pos -> option (list (nat * string)))
                             -> option (list (nat * string)))
    (k1 k2 : pos -> option (list (nat * string))) :
  (forall p k k', (forall q, k q = k' q) -> body p k = body p k') ->
  (forall q, k1 q = k2 q) ->
  forall fuel p, star_loop body k1 fuel p = star_loop body k2 fuel p.
Proof.
  intros Hbody Hk. induction fuel as [|fuel IH]; intros p; simpl; [apply Hk|].
  rewrite (Hbody p _ (fun q =>
             if String.length (rest q) <? String.length (rest p)
             then star_loop body k2 fuel q else None)).
  - rewrite Hk. reflexivity.
  - intros q. destruct (_ <? _); [apply IH|reflexivity].
Qed.

Lemma rmatch_ext (r : regex) (p : pos)
    (k k' : pos -> option (list (nat * string))) :
  (forall q, k q = k' q) -> rmatch r p k = rmatch r p k'.
Proof.
  revert p k k'. induction r as [|a|f| |r1 IH1 r2 IH2|r1 IH1 r2 IH2|r IH|i r IH];
    intros p k k' H; simpl.
  - apply H.
  - destruct (rest p); [reflexivity|]. destruct (Ascii.eqb a a0); [apply H|reflexivity].
  - destruct (rest p); [reflexivity|]. destruct (f a); [apply H|reflexivity].
  - destruct (xorb _ _); [apply H|reflexivity].
  - apply IH1. intros q. apply IH2. exact H.
  - rewrite (IH1 p k k' H), (IH2 p k k' H). reflexivity.
  - apply star_loop_ext; [|exact H]. intros p0 k0 k0' H0. apply IH. exact H0.
  - apply IH. intros q. apply H.
Qed.

Lemma star_loop_fail (body : pos -> (pos -> option (list (nat * string)))
                              -> option (list (nat * string))) :
  (forall p, body p (fun _ => None) = None) ->
  (forall p k k', (forall q, k q = k' q) -> body p k = body p k') ->
  forall fuel p, star_loop body (fun _ => None) fuel p = None.
Proof.
  intros Hbody Hext. induction fuel as [|fuel IH]; intros p; simpl; [reflexivity|].
  rewrite (Hext p _ (fun _ => None)); [rewrite Hbody; reflexivity|].
  intros q. destruct (_ <? _); [apply IH|reflexivity].
Qed.

Lemma rmatch_fail (r : regex) (p : pos) : rmatch r p (fun _ => None) = None.
Proof.
  revert p. induction r as [|a|f| |r1 IH1 r2 IH2|r1 IH1 r2 IH2|r IH|i r IH];
    intros p; simpl.
  - reflexivity.
  - destruct (rest p); [reflexivity|]. destruct (Ascii.eqb a a0); reflexivity.
  - destruct (rest p); [reflexivity|]. destruct (f a); reflexivity.
  - destruct (xorb _ _); reflexivity.
  - rewrite (rmatch_ext r1 p _ (fun _ => None)); [apply IH1|].
    intros q. apply IH2.
  - rewrite IH1, IH2. reflexivity.
  - apply star_loop_fail; [exact IH|]. intros p0 k0 k0' H0.
    apply rmatch_ext. exact H0.
  - apply IH.
Qed.

(** More fuel than the text is long changes nothing. *)
Lemma star_loop_fuel (r : regex) (k : pos -> option (list (nat * string)))
    (n : nat) :
  forall p fuel1 fuel2,
    String.length (rest p) <= n ->
    String.length (rest p) <= fuel1 -> String.length (rest p) <= fuel2 ->
    star_loop (rmatch r) k fuel1 p = star_loop (rmatch r) k fuel2 p.
Proof.
  induction n as [|n IH]; intros p fuel1 fuel2 Hn H1 H2.
  - assert (forall fuel, star_loop (rmatch r) k fuel p = k p) as Hzero.
    { intros [|fuel]; simpl; [reflexivity|].
      rewrite (rmatch_ext r p _ (fun _ => None)); [rewrite rmatch_fail; reflexivity|].
      intros q. destruct (Nat.ltb_spec (String.length (rest q))
                                       (String.length (rest p))); [lia|reflexivity]. }
    rewrite !Hzero. reflexivity.
  - destruct fuel1 as [|fuel1], fuel2 as [|fuel2]; simpl.
    + reflexivity.
    + rewrite (rmatch_ext r p _ (fun _ => None)); [rewrite rmatch_fail; reflexivity|].
      intros q. destruct (Nat.ltb_spec (String.length (rest q))
                                       (String.length (rest p))); [lia|reflexivity].
    + rewrite (rmatch_ext r p _ (fun _ => None)); [rewrite rmatch_fail; reflexivity|].
      intros q. destruct (Nat.ltb_spec (String.length (rest q))
                                       (String.length (rest p))); [lia|reflexivity].
    + rewrite (rmatch_ext r p _
                 (fun q => if String.length (rest q) <? String.length (rest p)
                           then star_loop (rmatch r) k fuel2 q else None));
        [reflexivity|].
      intros q. destruct (Nat.ltb_spec (String.length (rest q))
                                       (String.length (rest p))); [|reflexivity].
      apply IH; lia.
Qed.

Lemma rmatch_complete (r : regex) (p q : pos) :
  matches r p q ->
  forall k, is_Some (k q) -> is_Some (rmatch r p k).
Proof.
  induction 1 as [p|c p s E|f p d s E Ef|p E|r1 r2 p q q' _ IH1 _ IH2
                 |r1 r2 p q _ IH|r1 r2 p q _ IH|r p
                 |r p q q' _ IH1 Hlt _ IH2|i r p q _ IH];
    intros k Hk; simpl.
  - exact Hk.
  - rewrite E, Ascii.eqb_refl. exact Hk.
  - rewrite E, Ef. exact Hk.
  - rewrite E. exact Hk.
  - apply IH1. apply IH2. exact Hk.
  - destruct (IH k Hk) as [c ->]. eauto.
  - destruct (rmatch r1 p k); [eauto|]. apply IH. exact Hk.
  - destruct (String.length (rest p)) as [|n]; simpl; [exact Hk|].
    destruct (rmatch r p _); [eauto|exact Hk].
  - destruct (String.length (rest p)) as [|n] eqn:En; [lia|]. simpl.
    assert (is_Some (rmatch r p
              (fun q0 => if String.length (rest q0) <? S n
                         then star_loop (rmatch r) k n q0 else None))) as Hs.
    { apply IH1. destruct (Nat.ltb_spec (String.length (rest q)) (S n)); [|lia].
      rewrite (star_loop_fuel r k (String.length (rest q)) q n
                 (String.length (rest q))) by lia.
      apply (IH2 k Hk). }
    rewrite En in *.
    destruct Hs as [c ->]. eauto.
  - apply IH. exact Hk.
Qed.

(** [/^r$/.test(s)] holds exactly when [r] matches the whole text. *)
Lemma test_whole_matches (r : regex) (s : string) :
  test_whole r s = true <-> exists q, matches r (start s) q /\ rest q = "".
Proof.
  unfold test_whole. fold (start s). split.
  - destruct (rmatch r (start s) _) as [c|] eqn:E; [|discriminate].
    intros _. apply rmatch_sound in E. destruct E as (q & Hq & Hk).
    exists q. split; [exact Hq|].
    destruct (String.eqb_spec (rest q) ""); [assumption|discriminate].
  - intros (q & Hq & Hend).
    destruct (rmatch_complete r _ _ Hq
                (fun q => if String.eqb (rest q) "" then Some (caps q) else None))
      as [c ->]; [|reflexivity].
    rewrite Hend. simpl. eauto.
Qed.
(** *** Runs of a character class *)

Lemma matches_class_inv (f : ascii -> bool) (p q : pos) :
  matches (Class f) p q ->
  exists d, rest p = String d (rest q) /\ f d = true.
Proof. inversion 1; subst. simpl. eauto. Qed.

Lemma matches_chr_inv (c : ascii) (p q : pos) :
  matches (Chr c) p q -> rest p = String c (rest q).
Proof. inversion 1; subst. simpl. assumption. Qed.

Lemma matches_star_class_inv (f : ascii -> bool) (p q : pos) :
  matches (Star (Class f)) p q ->
  exists t, rest p = (t ++ rest q)%string /\ all_chars f t = true.
Proof.
  intros H. remember (Star (Class f)) as r eqn:Er.
  induction H as [| | | | | | |r p|r p q q' H1 _ Hlt _ IH2|]; try discriminate Er.
  - exists "". split; reflexivity.
  - injection Er as ->. destruct (IH2 eq_refl) as (t & Ht & Hf).
    apply matches_class_inv in H1. destruct H1 as (d & Hd & Hfd).
    exists (String d t). split.
    + rewrite Hd, Ht. reflexivity.
    + unfold all_chars in *. simpl. rewrite Hfd, Hf. reflexivity.
Qed.

Lemma matches_star_class (f : ascii -> bool) (t u : string) :
  all_chars f t = true ->
  forall p, rest p = (t ++ u)%string ->
            exists q, matches (Star (Class f)) p q /\ rest q = u.
Proof.
  unfold all_chars. induction t as [|d t IH]; intros Hf p Hp.
  - exists p. split; [constructor|exact Hp].
  - simpl in Hf. apply andb_true_iff in Hf. destruct Hf as [Hd Hf].
    destruct (IH Hf (advance p d (t ++ u)%string) eq_refl) as (q & Hq & Hu).
    exists q. split; [|exact Hu].
    eapply m_star_more; [|idtac|exact Hq].
    + apply m_class; [exact Hp|exact Hd].
    + rewrite Hp. simpl. lia.
Qed.

Lemma matches_plus_class_inv (f : ascii -> bool) (p q : pos) :
  matches (plus (Class f)) p q ->
  exists t, t <> "" /\ rest p = (t ++ rest q)%string /\ all_chars f t = true.
Proof.
  unfold plus. inversion 1 as [| | | |r1 r2 p0 q0 q1 H1 H2| | | | |]; subst.
  apply matches_class_inv in H1. destruct H1 as (d & Hd & Hfd).
  apply matches_star_class_inv in H2. destruct H2 as (t & Ht & Hf).
  exists (String d t). split; [discriminate|]. split.
  - rewrite Hd, Ht. reflexivity.
  - unfold all_chars in *. simpl. rewrite Hfd, Hf. reflexivity.
Qed.

Lemma matches_plus_class (f : ascii -> bool) (t u : string) :
  t <> "" -> all_chars f t = true ->
  forall p, rest p = (t ++ u)%string ->
            exists q, matches (plus (Class f)) p q /\ rest q = u.
Proof.
  destruct t as [|d t]; [contradiction|]. intros _ Hf p Hp.
  unfold all_chars in Hf. simpl in Hf. apply andb_true_iff in Hf.
  destruct Hf as [Hd Hf].
  destruct (matches_star_class f t u Hf (advance p d (t ++ u)%string) eq_refl)
    as (q & Hq & Hu).
  exists q. split; [|exact Hu].
  unfold plus. eapply m_seq; [|exact Hq]. apply m_class; assumption.
Qed.

Lemma matches_chr (c : ascii) (u : string) (p : pos) :
  rest p = String c u -> exists q, matches (Chr c) p q /\ rest q = u.
Proof.
  intros Hp. exists (advance p c u). split; [constructor; exact Hp|reflexivity].
Qed.

(** *** E-mail addresses and phone numbers *)

Lemma isValidEmail_shape (email : string) :
  isValidEmail email = true <-> email_shape email.
Proof.
  unfold isValidEmail. rewrite test_whole_matches. cbn [cat]. split.
  - intros (q & H & Hend).
    inversion H as [| | | |? ? ? p1 ? Ha H1| | | | |]; subst.
    inversion H1 as [| | | |? ? ? p2 ? Hat H2| | | | |]; subst.
    inversion H2 as [| | | |? ? ? p3 ? Hb H3| | | | |]; subst.
    inversion H3 as [| | | |? ? ? p4 ? Hdot Hc| | | | |]; subst.
    apply matches_plus_class_inv in Ha, Hb, Hc.
    apply matches_chr_inv in Hat, Hdot.
    destruct Ha as (a & Hane & Ha & Hfa), Hb as (b & Hbne & Hb & Hfb),
             Hc as (c & Hcne & Hc & Hfc).
    exists a, b, c. repeat split; try assumption.
    change (rest (start email)) with email in Ha.
    rewrite Ha, Hat, Hb, Hdot, Hc, Hend.
    clear. f_equal. simpl. f_equal. f_equal. simpl. f_equal.
    induction c as [|x c IH]; simpl; [reflexivity|]. rewrite IH. reflexivity.
  - intros (a & b & c & -> & Hane & Hbne & Hcne & Hfa & Hfb & Hfc).
    destruct (matches_plus_class email_char a ("@" ++ b ++ "." ++ c)%string
                Hane Hfa (start (a ++ "@" ++ b ++ "." ++ c)) eq_refl)
      as (p1 & H1 & E1).
    destruct (matches_chr "@" (b ++ "." ++ c)%string p1 E1) as (p2 & H2 & E2).
    destruct (matches_plus_class email_char b ("." ++ c)%string Hbne Hfb p2 E2)
      as (p3 & H3 & E3).
    destruct (matches_chr "." c p3 E3) as (p4 & H4 & E4).
    destruct (matches_plus_class email_char c "" Hcne Hfc p4) as (q & H5 & E5).
    { rewrite E4. clear. induction c as [|x c IH]; simpl; [reflexivity|].
      rewrite <- IH. reflexivity. }
    exists q. split; [|exact E5].
    repeat (eapply m_seq; [eassumption|]). exact H5.
Qed.

Lemma matches_at_least_inv (f : ascii -> bool) (n : nat) (p q : pos) :
  matches (at_least n (Class f)) p q ->
  exists t, rest p = (t ++ rest q)%string /\ n <= String.length t
            /\ all_chars f t = true.
Proof.
  revert p. induction n as [|n IH]; intros p; simpl.
  - intros H. apply matches_star_class_inv in H. destruct H as (t & Ht & Hf).
    exists t. repeat split; [exact Ht|lia|exact Hf].
  - inversion 1 as [| | | |? ? ? p1 ? H1 H2| | | | |]; subst.
    apply matches_class_inv in H1. destruct H1 as (d & Hd & Hfd).
    destruct (IH _ H2) as (t & Ht & Hn & Hf).
    exists (String d t). split; [rewrite Hd, Ht; reflexivity|].
    split; [simpl; lia|]. unfold all_chars in *. simpl. rewrite Hfd, Hf.
    reflexivity.
Qed.

Lemma matches_at_least (f : ascii -> bool) (n : nat) (t u : string) :
  n <= String.length t -> all_chars f t = true ->
  forall p, rest p = (t ++ u)%string ->
            exists q, matches (at_least n (Class f)) p q /\ rest q = u.
Proof.
  revert t. induction n as [|n IH]; intros t Hn Hf p Hp; simpl.
  - exact (matches_star_class f t u Hf p Hp).
  - destruct t as [|d t]; [simpl in Hn; lia|].
    unfold all_chars in Hf. simpl in Hf. apply andb_true_iff in Hf.
    destruct Hf as [Hd Hf]. simpl in Hn.
    destruct (IH t ltac:(lia) Hf (advance p d (t ++ u)%string) eq_refl)
      as (q & Hq & Hu).
    exists q. split; [|exact Hu].
    eapply m_seq; [|exact Hq]. apply m_class; assumption.
Qed.

Lemma string_app_empty (s : string) : (s ++ "")%string = s.
Proof. induction s as [|c s IH]; simpl; [reflexivity|]. rewrite IH. reflexivity. Qed.

Lemma remove_spaces_chars (f : ascii -> bool) (s : string) :
  (forall c, is_space c = true -> f c = true) ->
  all_chars f (remove_spaces s) = all_chars f s.
Proof.
  intros Hsp. unfold all_chars. induction s as [|c s IH]; simpl; [reflexivity|].
  destruct (is_space c) eqn:E; simpl; rewrite IH; [|reflexivity].
  rewrite (Hsp c E). reflexivity.
Qed.

Lemma isValidPhone_count (phone : string) :
  isValidPhone phone
  = (10 <=? String.length (remove_spaces phone)) && all_chars phone_char phone.
Proof.
  apply eq_true_iff_eq. unfold isValidPhone.
  rewrite test_whole_matches, andb_true_iff, Nat.leb_le.
  rewrite <- (remove_spaces_chars phone_char phone).
  2:{ intros c Hc. unfold phone_char. rewrite Hc, orb_true_r. reflexivity. }
  split.
  - intros (q & H & Hend). apply matches_at_least_inv in H.
    destruct H as (t & Ht & Hn & Hf).
    rewrite Hend, string_app_empty in Ht.
    change (rest (start (remove_spaces phone))) with (remove_spaces phone) in Ht.
    rewrite Ht. tauto.
  - intros [Hn Hf].
    apply (matches_at_least phone_char 10 (remove_spaces phone) "" Hn Hf).
    simpl. rewrite string_app_empty. reflexivity.
Qed.
Lemma all_chars_app (f : ascii -> bool) (a b : string) :
  all_chars f (a ++ b) = all_chars f a && all_chars f b.
Proof.
  unfold all_chars. rewrite list_ascii_app. apply forallb_app.
Qed.

Lemma all_chars_weaken (f g : ascii -> bool) (s : string) :
  (forall c, f c = true -> g c = true) ->
  all_chars f s = true -> all_chars g s = true.
Proof.
  intros Hfg. unfold all_chars. rewrite !forallb_forall. auto.
Qed.

(** X21: [Utils.isValidEmail] accepts exactly the texts of the shape
    [local@domain.tld]: three non-empty parts without white space or [@],
    joined by one [@] and a dot (the domain part may hold further dots).
    An accepted address therefore holds no white space. *)
Theorem isValidEmail_accepts_shape :
  (forall email, isValidEmail email = true <-> email_shape email)
  /\ (forall email, isValidEmail email = true ->
                    all_chars (fun c => negb (is_space c)) email = true)
  /\ isValidEmail "asha.rao@university.edu" = true
  /\ isValidEmail "a@b..c" = true
  /\ isValidEmail "asha@university" = false
  /\ isValidEmail "asha rao@university.edu" = false
  /\ isValidEmail "asha@@university.edu" = false
  /\ isValidEmail "@university.edu" = false.
Proof.
  split; [exact isValidEmail_shape|].
  split; [|repeat split; vm_compute; reflexivity].
  intros email H. apply isValidEmail_shape in H.
  destruct H as (a & b & c & -> & _ & _ & _ & Ha & Hb & Hc).
  assert (forall s, all_chars email_char s = true ->
                    all_chars (fun c => negb (is_space c)) s = true) as Hw.
  { intros s. apply all_chars_weaken. intros x. unfold email_char.
    destruct (is_space x); [discriminate|reflexivity]. }
  rewrite !all_chars_app, (Hw a Ha), (Hw b Hb), (Hw c Hc). reflexivity.
Qed.

(** X22: [Utils.isValidPhone] accepts a text exactly when it holds only
    digits, white space, hyphens, plus signs and parentheses, at least ten
    of them not white space.  Ten such characters are enough even when
    none of them is a digit. *)
Theorem isValidPhone_counts_characters :
  (forall phone,
     isValidPhone phone
     = (10 <=? String.length (remove_spaces phone))
       && all_chars phone_char phone)
  /\ isValidPhone "+91 98765 43210" = true
  /\ isValidPhone "(022) 555-0199" = true
  /\ isValidPhone "(((--++--)))" = true
  /\ isValidPhone "98765 4321" = false
  /\ isValidPhone "98765 43210 ext 2" = false.
Proof.
  split; [exact isValidPhone_count|].
  repeat split; vm_compute; reflexivity.
Qed.
(** *** Formatting a message *)













(** *** Searching *)

Lemma prefix_app (k s : string) :
  String.prefix k s = true <-> exists b, s = (k ++ b)%string.
Proof.
  revert s. induction k as [|c k IH]; intros s; simpl.
  - destruct s; split; eauto.
  - destruct s as [|d s]; simpl.
    + split; [discriminate|]. intros (b & H). discriminate H.
    + destruct (ascii_dec c d) as [->|Hne].
      * rewrite IH. split; intros (b & H); exists b; [rewrite H|]; congruence.
      * split; [discriminate|]. intros (b & H). congruence.
Qed.

Lemma includes_unfold (s key : string) :
  includes s key
  = String.prefix key s
    || match s with
       | EmptyString => false
       | String _ s' => includes s' key
       end.
Proof. destruct s; reflexivity. Qed.

Lemma includes_app (s key : string) :
  includes s key = true <-> exists a b, s = (a ++ key ++ b)%string.
Proof.
  induction s as [|c s IH]; rewrite includes_unfold.
  - rewrite orb_false_r, prefix_app. split.
    + intros (b & H). exists "", b. exact H.
    + intros ([|x a] & b & H); [eauto|discriminate H].
  - rewrite orb_true_iff, prefix_app, IH. split.
    + intros [(b & H)|(a & b & H)].
      * exists "", b. exact H.
      * exists (String c a), b. rewrite H. reflexivity.
    + intros ([|x a] & b & H).
      * left. eauto.
      * right. injection H as -> H. eauto.
Qed.

Lemma includes_refl (s : string) : includes s s = true.
Proof.
  apply includes_app. exists "", "". simpl. symmetry. apply string_app_empty.
Qed.

Lemma includes_trans (v t2 t1 : string) :
  includes v t2 = true -> includes t2 t1 = true -> includes v t1 = true.
Proof.
  rewrite !includes_app. intros (a & b & ->) (c & d & ->).
  exists (a ++ c)%string, (d ++ b)%string.
  rewrite !string_app_assoc. reflexivity.
Qed.

Lemma searchArray_narrows {A} (array : list A) (t1 t2 : string)
    (fields : list (A -> value)) (x : A) :
  includes (toLowerCase t2) (toLowerCase t1) = true ->
  In x (searchArray array t2 fields) -> In x (searchArray array t1 fields).
Proof.
  intros Hinc. unfold searchArray. rewrite !filter_In.
  intros [Hin H]. split; [exact Hin|].
  apply existsb_exists in H. destruct H as (f & Hf & H).
  apply existsb_exists. exists f. split; [exact Hf|].
  apply andb_true_iff in H. destruct H as [Ht Hi].
  rewrite Ht. simpl. eapply includes_trans; eassumption.
Qed.

Lemma filter_sublist {A} (p : A -> bool) (l : list A) :
  sublist (List.filter p l) l.
Proof.
  induction l as [|a l IH]; simpl; [constructor|].
  destruct (p a); [apply sublist_skip|apply sublist_cons]; exact IH.
Qed.

(** X24: [searchStudents] answers with objects of the store itself, in the
    order of the store.  Letter case does not matter; a longer search term
    that contains the shorter one can only narrow the result; and a student
    is found under the full text of each of its id, first name, last name
    and e-mail address that is not empty. *)
Theorem search_finds_and_narrows (st : State) :
  (forall t, sublist (searchStudents t st) (students st))
  /\ (forall t, searchStudents (toLowerCase t) st = searchStudents t st)
  /\ (forall t1 t2 l,
        includes (toLowerCase t2) (toLowerCase t1) = true ->
        In l (searchStudents t2 st) -> In l (searchStudents t1 st))
  /\ (forall l field,
        In l (students st) ->
        In field [id; firstName; lastName; email] ->
        field (read (heap st) l) <> "" ->
        In l (searchStudents (field (read (heap st) l)) st)).
Proof.
  split; [|split; [|split]].
  - intros t. apply filter_sublist.
  - intros t. unfold searchStudents, searchArray.
    rewrite toLowerCase_idem. reflexivity.
  - intros t1 t2 l. apply searchArray_narrows.
  - intros l field Hl Hf Hne. unfold searchStudents, searchArray.
    apply filter_In. split; [exact Hl|].
    assert (forall v, v <> "" ->
              is_truthy (JStr v)
              && includes (toLowerCase (ToString (JStr v))) (toLowerCase v)
              = true) as Hhit.
    { intros v Hv. simpl. rewrite eqb_empty_false by exact Hv.
      apply includes_refl. }
    simpl in Hf. cbn [existsb].
    destruct Hf as [<-|[<-|[<-|[<-|[]]]]]; rewrite (Hhit _ Hne);
      rewrite ?orb_true_r; reflexivity.
Qed.
(** *** Filtering *)

Lemma trimStart_empty (s : string) : trimStart s = "" -> trim s = "".
Proof. unfold trim. intros ->. reflexivity. Qed.

Lemma tag_condition_normalized (t : string) (tags : option (list string)) :
  tag_condition (Some (normalizeTag t)) tags = tag_condition (Some t) tags.
Proof.
  assert (forall u, trim u = "" -> tag_condition (Some u) tags = true) as Hblank.
  { intros u Hu. unfold tag_condition. rewrite Hu. simpl.
    destruct (String.eqb u ""); reflexivity. }
  destruct (String.eqb_spec (trim t) "") as [E|E].
  - rewrite (Hblank t E).
    assert (normalizeTag t = "") as -> by (unfold normalizeTag; rewrite E; reflexivity).
    reflexivity.
  - assert (t <> "") as Ht by (intros ->; apply E; reflexivity).
    assert (toLowerCase (trim (normalizeTag t)) = toLowerCase (trim t)
            /\ normalizeTag t <> "") as [Hsame Hne].
    { unfold normalizeTag. rewrite (eqb_empty_false _ E).
      destruct (find _ PREDEFINED_TAGS) as [found|] eqn:F.
      - apply find_some in F. destruct F as [Hin Heq].
        apply String.eqb_eq in Heq. rewrite <- Heq.
        unfold PREDEFINED_TAGS in Hin. simpl in Hin.
        repeat (destruct Hin as [<-|Hin]; [split; [reflexivity|discriminate]|]).
        destruct Hin.
      - rewrite trim_idem. split; [reflexivity|exact E]. }
    unfold tag_condition.
    rewrite (eqb_empty_false _ Hne), (eqb_empty_false _ Ht), Hsame.
    reflexivity.
Qed.

Lemma filter_filter {A} (p q : A -> bool) (l : list A) :
  List.filter q (List.filter p l) = List.filter (fun x => p x && q x) l.
Proof.
  induction l as [|a l IH]; simpl; [reflexivity|].
  destruct (p a); simpl; [destruct (q a)|]; rewrite IH; reflexivity.
Qed.

(** X25: [Utils.filterArray] keeps the order and returns the whole list
    when every condition is absent or empty; two filterings commute, and
    one filtering twice is the same as once.  The tag condition does not
    care how the tag is spelled: a tag and its normalized form (letter
    case and surrounding white space put right) select the same students,
    and a blank tag selects all.  [filterStudents] applies the same
    conditions to the records of the store and answers with the store's
    own objects. *)
Theorem filterArray_conditions (array : list Student) :
  (forall c, sublist (filterArray array c) array)
  /\ (forall c,
        (c_department c = None \/ c_department c = Some "") ->
        (c_year c = None \/ c_year c = Some "") ->
        (c_gender c = None \/ c_gender c = Some "") ->
        (c_tag c = None \/ exists t, c_tag c = Some t /\ trim t = "") ->
        filterArray array c = array)
  /\ (forall c1 c2,
        filterArray (filterArray array c1) c2
        = filterArray (filterArray array c2) c1)
  /\ (forall c, filterArray (filterArray array c) c = filterArray array c)
  /\ (forall d y g t,
        filterArray array {| c_department := d; c_year := y; c_gender := g;
                             c_tag := Some (normalizeTag t) |}
        = filterArray array {| c_department := d; c_year := y; c_gender := g;
                               c_tag := Some t |})
  /\ (forall c st,
        sublist (filterStudents c st) (students st)
        /\ map (read (heap st)) (filterStudents c st)
           = filterArray (records st) c).
Proof.
  split; [|split; [|split; [|split; [|split]]]].
  - intros c. apply filter_sublist.
  - intros c Hd Hy Hg Ht. unfold filterArray. apply filter_fixed.
    intros x _. unfold every_condition.
    assert (forall o v, o = None \/ o = Some "" -> field_condition o v = true)
      as Hf by (intros o v [-> | ->]; reflexivity).
    rewrite (Hf _ _ Hd), (Hf _ _ Hy), (Hf _ _ Hg). simpl.
    destruct Ht as [-> |(t & -> & Ht)]; [reflexivity|].
    unfold tag_condition. rewrite Ht. simpl.
    destruct (String.eqb t ""); reflexivity.
  - intros c1 c2. unfold filterArray. rewrite !filter_filter.
    apply filter_ext. intros x. apply andb_comm.
  - intros c. unfold filterArray. rewrite filter_filter.
    apply filter_ext. intros x. apply andb_diag.
  - intros d y g t. unfold filterArray. apply filter_ext. intros x.
    unfold every_condition. cbn [c_department c_year c_gender c_tag].
    rewrite tag_condition_normalized. reflexivity.
  - intros c st. split; [apply filter_sublist|].
    unfold filterStudents, filterArray, records.
    induction (students st) as [|l ls IH]; simpl; [reflexivity|].
    destruct (every_condition c (read (heap st) l)); simpl; rewrite IH;
      reflexivity.
Qed.

(** *** The chat history *)

(** X26: what [loadHistory] reads after [saveHistory] are the last hundred
    messages handed over, in order, and all of them when there are fewer;
    older messages are dropped.  Saving what was loaded changes nothing,
    and with nothing stored, or after saving something that is not an
    array, the history is empty. *)
Theorem chat_history_keeps_last_hundred (messages : list Chat.Message) :
  let loaded := Chat.loadHistory (Chat.saveHistory (Some messages)) in
  length loaded = Nat.min 100 (length messages)
  /\ (exists dropped,
        messages = dropped ++ loaded
        /\ length dropped = length messages - 100)
  /\ (length messages <= 100 -> loaded = messages)
  /\ Chat.loadHistory (Chat.saveHistory (Some loaded)) = loaded
  /\ Chat.loadHistory None = []
  /\ Chat.loadHistory (Chat.saveHistory None) = [].
Proof.
  cbn zeta. unfold Chat.loadHistory, Chat.saveHistory.
  split; [apply length_slice_last|].
  split.
  { exists (take (length messages - 100) messages).
    split; [apply slice_last_split|]. rewrite length_take. lia. }
  split; [apply slice_last_short|].
  split; [|split; reflexivity].
  apply slice_last_short. rewrite length_slice_last. lia.
Qed.

(** *** The activity log *)

Lemma trimmed_or_nonempty (d x : string) :
  d <> "" -> Activity.trimmed_or d x <> "".
Proof.
  intros Hd. unfold Activity.trimmed_or.
  destruct (String.eqb_spec (trim (if String.eqb x "" then d else x)) "");
    assumption.
Qed.

(** X27: [log] puts the new activity in front of the stored ones, so
    [getAll] lists the activities newest first; the student name it stores
    is never empty (a dash stands for a missing or blank name) and the
    description is trimmed.  [getFiltered] without filters, or with all
    three filters blank, is [getAll]; a filter by action type keeps exactly
    the activities of that type, in order; after [clearAll] the log is
    empty. *)
Theorem activity_log_newest_first
    (is_today is_yesterday is_older : string -> bool)
    (generated_id now actionType studentName description : string)
    (stored : option (list Activity.Activity)) :
  let r := Activity.log generated_id now actionType studentName description
                        stored in
  Activity.getAll r.2 = r.1 :: Activity.getAll stored
  /\ Activity.studentName r.1 <> ""
  /\ (trim studentName = "" -> Activity.studentName r.1 = Activity.dash)
  /\ (trim studentName <> "" -> Activity.studentName r.1 = trim studentName)
  /\ Activity.description r.1 = trim description
  /\ Activity.actionType r.1 = actionType
  /\ Activity.getFiltered is_today is_yesterday is_older None stored
     = Activity.getAll stored
  /\ (forall search, trim search = "" ->
        Activity.getFiltered is_today is_yesterday is_older
          (Some {| Activity.f_actionType := ""; Activity.f_dateGroup := "";
                   Activity.f_search := search |}) stored
        = Activity.getAll stored)
  /\ (forall type, type <> "" ->
        Activity.getFiltered is_today is_yesterday is_older
          (Some {| Activity.f_actionType := type; Activity.f_dateGroup := "";
                   Activity.f_search := "" |}) stored
        = List.filter (fun a => String.eqb (Activity.actionType a) type)
                      (Activity.getAll stored))
  /\ Activity.getAll (Activity.clearAll r.2) = [].
Proof.
  cbn zeta. unfold Activity.log, Activity.getAll. cbn [fst snd].
  split; [reflexivity|].
  split; [apply trimmed_or_nonempty; discriminate|].
  split.
  { intros Hblank. cbn [Activity.studentName]. unfold Activity.trimmed_or.
    destruct (String.eqb_spec studentName "") as [->|Hne].
    - reflexivity.
    - rewrite Hblank. reflexivity. }
  split.
  { intros Hname. cbn [Activity.studentName]. unfold Activity.trimmed_or.
    destruct (String.eqb_spec studentName "") as [->|Hne].
    - destruct Hname. reflexivity.
    - rewrite (eqb_empty_false _ Hname). reflexivity. }
  split; [reflexivity|]. split; [reflexivity|]. split; [reflexivity|].
  split.
  { intros search Hs. unfold Activity.getFiltered.
    cbn [Activity.f_actionType Activity.f_dateGroup Activity.f_search].
    rewrite Hs. simpl. rewrite andb_false_r. reflexivity. }
  split; [|reflexivity].
  intros type Ht. unfold Activity.getFiltered.
  cbn [Activity.f_actionType Activity.f_dateGroup Activity.f_search].
  rewrite (eqb_empty_false _ Ht). reflexivity.
Qed.
(** *** Low attendance and risk *)

Lemma ltb_leb_trans (x y z : number) :
  (x <? y)%float = true -> (y <=? z)%float = true -> (x <? z)%float = true.
Proof.
  rewrite !ltb_below, leb_below.
  intros (a & b & Ha & Hb & Hab) (b' & c & Hb' & Hc & Hbc).
  rewrite Hb in Hb'. injection Hb' as <-.
  exists a, c. split; [exact Ha|]. split; [exact Hc|].
  destruct Hbc as [Hbc| <-]; [|exact Hab].
  eapply below_trans; eassumption.
Qed.

Lemma ltb_not_nan (x y : number) : (x <? y)%float = true -> isNaN x = false.
Proof.
  rewrite ltb_below, isNaN_place. intros (a & b & Ha & _). eauto.
Qed.

(** X28: whoever [getLowAttendanceStudents] lists has an attendance that
    parses; raising the threshold can only add students; and at the
    default threshold, or any threshold up to 70, everyone it lists is
    also listed by [getAtRiskStudents]. *)
Theorem low_attendance_within_at_risk (st : State) :
  (forall t s, In s (objects (getLowAttendanceStudents t st)) ->
               In s (map snapshot (records st))
               /\ isNaN (parseInt10 (attendance s)) = false)
  /\ (forall x y s,
        (parseInt10 (JNum x) <=? parseInt10 (JNum y))%float = true ->
        In s (objects (getLowAttendanceStudents (Some x) st)) ->
        In s (objects (getLowAttendanceStudents (Some y) st)))
  /\ (forall s, In s (objects (getLowAttendanceStudents None st)) ->
                In s (objects (getAtRiskStudents st)))
  /\ (forall x s,
        (parseInt10 (JNum x) <=? 70)%float = true ->
        In s (objects (getLowAttendanceStudents (Some x) st)) ->
        In s (objects (getAtRiskStudents st))).
Proof.
  split; [|split; [|split]].
  - intros t s. rewrite getLowAttendanceStudents_objects, filter_In.
    intros [Hin H]. split; [exact Hin|].
    apply andb_true_iff in H. apply negb_true_iff. exact (proj1 H).
  - intros x y s Hxy. rewrite !getLowAttendanceStudents_objects, !filter_In.
    intros [Hin H]. split; [exact Hin|].
    apply andb_true_iff in H. destruct H as [Hn Hlt].
    rewrite Hn. simpl. eapply ltb_leb_trans; eassumption.
  - intros s. rewrite getLowAttendanceStudents_objects,
      getAtRiskStudents_objects, !filter_In.
    intros [Hin H]. split; [exact Hin|].
    apply andb_true_iff in H. destruct H as [_ Hlt].
    unfold at_risk. rewrite Hlt. reflexivity.
  - intros x s Hx. rewrite getLowAttendanceStudents_objects,
      getAtRiskStudents_objects, !filter_In.
    intros [Hin H]. split; [exact Hin|].
    apply andb_true_iff in H. destruct H as [_ Hlt].
    unfold at_risk. rewrite (ltb_leb_trans _ _ _ Hlt Hx). reflexivity.
Qed.

(** *** Letter case and white space in a query *)

Lemma is_space_lower (c : ascii) : is_space (lower_char c) = is_space c.
Proof.
  destruct c as [[] [] [] [] [] [] [] []]; vm_compute; reflexivity.
Qed.

Lemma trimStart_lower (s : string) :
  trimStart (toLowerCase s) = toLowerCase (trimStart s).
Proof.
  induction s as [|c s IH]; simpl; [reflexivity|].
  rewrite is_space_lower. destruct (is_space c); [exact IH|reflexivity].
Qed.

Lemma trimEnd_lower (s : string) :
  trimEnd (toLowerCase s) = toLowerCase (trimEnd s).
Proof.
  induction s as [|c s IH]; [reflexivity|].
  change (toLowerCase (String c s)) with (String (lower_char c) (toLowerCase s)).
  rewrite !trimEnd_cons, IH, is_space_lower.
  destruct (trimEnd s); simpl; [destruct (is_space c)|]; reflexivity.
Qed.

Lemma trim_lower (s : string) : trim (toLowerCase s) = toLowerCase (trim s).
Proof. unfold trim. rewrite trimStart_lower, trimEnd_lower. reflexivity. Qed.

Lemma interpretQuery_by_text (q q' : string) :
  toLowerCase (trim q) = toLowerCase (trim q') ->
  intent (interpretQuery q) = intent (interpretQuery q')
  /\ params (interpretQuery q) = params (interpretQuery q').
Proof.
  intros H. unfold interpretQuery. cbv zeta. rewrite H.
  repeat match goal with
         | |- context [if ?c then _ else _] => destruct c
         end; split; reflexivity.
Qed.

(** X29: the intent and the parameters [interpretQuery] reads off a
    message do not depend on letter case nor on white space around it: the
    message in lower case, the trimmed message and the message itself are
    interpreted alike; [rawQuery] is the trimmed message. *)
Theorem interpretQuery_ignores_case (q : string) :
  intent (interpretQuery (toLowerCase q)) = intent (interpretQuery q)
  /\ params (interpretQuery (toLowerCase q)) = params (interpretQuery q)
  /\ intent (interpretQuery (trim q)) = intent (interpretQuery q)
  /\ params (interpretQuery (trim q)) = params (interpretQuery q)
  /\ rawQuery (interpretQuery q) = trim q
  /\ (forall q', toLowerCase (trim q) = toLowerCase (trim q') ->
                 intent (interpretQuery q) = intent (interpretQuery q')
                 /\ params (interpretQuery q) = params (interpretQuery q')).
Proof.
  destruct (interpretQuery_by_text (toLowerCase q) q) as [H1 H2].
  { rewrite trim_lower, toLowerCase_idem. reflexivity. }
  destruct (interpretQuery_by_text (trim q) q) as [H3 H4].
  { rewrite trim_idem. reflexivity. }
  repeat split; try assumption.
  - unfold interpretQuery. cbv zeta.
    repeat match goal with
           | |- context [if ?c then _ else _] => destruct c
           end; reflexivity.
  - apply interpretQuery_by_text. assumption.
  - apply interpretQuery_by_text. assumption.
Qed.
(** *** The table and the assistant's lists *)

Import Dashboard.

Lemma toLowerCase_app (a b : string) :
  toLowerCase (a ++ b) = (toLowerCase a ++ toLowerCase b)%string.
Proof. induction a as [|c a IH]; simpl; [reflexivity|]. rewrite IH. reflexivity. Qed.

Lemma trimStart_suffix (s : string) : exists a, s = (a ++ trimStart s)%string.
Proof.
  induction s as [|c s (a & IH)]; simpl; [exists ""; reflexivity|].
  destruct (is_space c); [|exists ""; reflexivity].
  exists (String c a). simpl. rewrite <- IH. reflexivity.
Qed.

Lemma trimEnd_prefix (s : string) : exists b, s = (trimEnd s ++ b)%string.
Proof.
  induction s as [|c s (b & IH)]; [exists ""; reflexivity|].
  rewrite trimEnd_cons. destruct (trimEnd s) as [|d t] eqn:E.
  - destruct (is_space c).
    + exists (String c s). reflexivity.
    + exists s. reflexivity.
  - exists b. simpl. simpl in IH. rewrite <- IH. reflexivity.
Qed.

Lemma includes_trim (s : string) :
  includes (toLowerCase s) (toLowerCase (trim s)) = true.
Proof.
  apply includes_app. unfold trim.
  destruct (trimStart_suffix s) as (a & Ha).
  destruct (trimEnd_prefix (trimStart s)) as (b & Hb).
  exists (toLowerCase a), (toLowerCase b).
  rewrite <- !toLowerCase_app. rewrite <- Hb, <- Ha. reflexivity.
Qed.

Lemma table_rows_all (v : Controls) (st : State) :
  trim (searchInput v) = "" ->
  (table_rows v st).1
  = if has_keys (table_filters v)
    then filterArray (map snapshot (records st)) (table_filters v)
    else map snapshot (records st).
Proof.
  intros Hs. unfold table_rows. cbv zeta. rewrite Hs. cbn [fst String.eqb].
  change (map (read (heap (getAllStudents st).2)) (getAllStudents st).1)
    with (objects (getAllStudents st)).
  rewrite getAllStudents_objects. reflexivity.
Qed.

Lemma table_rows_filtered (v : Controls) (st : State) (s : Student) :
  trim (searchInput v) = "" ->
  In s (table_rows v st).1 ->
  In s (map snapshot (records st))
  /\ every_condition (table_filters v) s = true.
Proof.
  intros Hs. rewrite (table_rows_all v st Hs).
  destruct (has_keys (table_filters v)) eqn:E.
  - unfold filterArray. rewrite filter_In. tauto.
  - intros H. split; [exact H|].
    unfold has_keys in E. unfold every_condition.
    destruct (c_department _), (c_year _), (c_gender _), (c_tag _);
      try discriminate E. reflexivity.
Qed.

(** X30: with an empty search box, the rows of the students table are
    snapshots that meet every selector.  Filtered by the department, or by
    the tag "Placement Ready", that an action of the assistant asks for,
    the table shows only students the assistant listed in its reply.  With
    a search term the rows are the records of the store themselves, not
    snapshots.  The store is unchanged. *)
Theorem table_within_reply (v : Controls) (st : State) :
  trim (searchInput v) = "" ->
  (forall s, In s (table_rows v st).1 ->
             In s (map snapshot (records st))
             /\ every_condition (table_filters v) s = true)
  /\ (departmentFilter v <> "" ->
      forall s, In s (table_rows v st).1 ->
                department s = departmentFilter v
                /\ In s (objects (getStudentsByDepartment (departmentFilter v)
                                                          st)))
  /\ (toLowerCase (trim (tagFilter v)) = "placement ready" ->
      forall s, In s (table_rows v st).1 ->
                In s (objects (getPlacementReadyStudents st)))
  /\ (forall v', trim (searchInput v') <> "" -> allocated st ->
        forall s, In s (table_rows v' st).1 -> In s (records st))
  /\ unchanged st (table_rows v st).2.
Proof.
  intros Hs.
  split; [|split; [|split; [|split]]].
  - intros s. apply table_rows_filtered. exact Hs.
  - intros Hd s Hin.
    destruct (table_rows_filtered v st s Hs Hin) as [Hsnap Hc].
    unfold every_condition, table_filters in Hc. cbn [c_department] in Hc.
    rewrite (eqb_empty_false _ Hd) in Hc.
    apply andb_true_iff in Hc. destruct Hc as [Hc _].
    apply andb_true_iff in Hc. destruct Hc as [Hc _].
    apply andb_true_iff in Hc. destruct Hc as [Hc _].
    unfold field_condition in Hc. rewrite (eqb_empty_false _ Hd) in Hc.
    apply String.eqb_eq in Hc. split; [exact Hc|].
    rewrite getStudentsByDepartment_objects.
    destruct (String.eqb (toLowerCase (trim (departmentFilter v))) "");
      [exact Hsnap|].
    apply filter_In. split; [exact Hsnap|].
    rewrite Hc. apply includes_trim.
  - intros Ht s Hin.
    destruct (table_rows_filtered v st s Hs Hin) as [Hsnap Hc].
    rewrite getPlacementReadyStudents_objects. apply filter_In.
    split; [exact Hsnap|].
    assert (tagFilter v <> "") as Hne.
    { intros E. rewrite E in Ht. discriminate Ht. }
    unfold every_condition, table_filters in Hc. cbn [c_tag] in Hc.
    rewrite (eqb_empty_false _ Hne) in Hc.
    apply andb_true_iff in Hc. destruct Hc as [_ Hc].
    unfold tag_condition in Hc. rewrite (eqb_empty_false _ Hne), Ht in Hc.
    simpl in Hc. unfold is_placement_ready.
    destruct (tags s) as [ts|]; [|discriminate Hc].
    change (toLowerCase "Placement Ready") with "placement ready".
    cbv zeta. rewrite Hc. reflexivity.
  - intros v' Hs' Halloc s. unfold table_rows. cbv zeta.
    rewrite (eqb_empty_false _ Hs'). cbn [fst snd].
    assert (forall l, In l (searchStudents (trim (searchInput v'))
                                            (getAllStudents st).2) ->
                      In (read (heap (getAllStudents st).2) l) (records st))
      as Hraw.
    { intros l Hl. unfold searchStudents, searchArray in Hl.
      apply filter_In in Hl. destruct Hl as [Hl _].
      rewrite <- (unchanged_records st (getAllStudents st).2
                    (getAllStudents_unchanged st) Halloc).
      unfold records. apply in_map. exact Hl. }
    assert (forall x, In x (map (read (heap (getAllStudents st).2))
                                (searchStudents (trim (searchInput v'))
                                                (getAllStudents st).2)) ->
                      In x (records st)) as Hrows.
    { intros x Hx. apply in_map_iff in Hx. destruct Hx as (l & <- & Hl).
      apply Hraw. exact Hl. }
    destruct (has_keys (table_filters v')); [|apply Hrows].
    unfold filterArray. rewrite filter_In. intros [Hx _]. apply Hrows. exact Hx.
  - apply getAllStudents_unchanged.
Qed.

Lemma table_within_reply_witness :
  map id (table_rows placement_controls three_students).1 = ["STU-2025-001"]
  /\ map id (objects (getPlacementReadyStudents three_students))
     = ["STU-2025-001"; "STU-2025-002"]
  /\ Forall (fun s => In s (objects (getPlacementReadyStudents three_students)))
            (table_rows placement_controls three_students).1
  /\ map id (table_rows engineering_controls three_students).1
     = ["STU-2025-001"; "STU-2025-002"]
  /\ Forall (fun s => department s = "Engineering"
                      /\ In s (objects (getStudentsByDepartment "Engineering"
                                                                three_students)))
            (table_rows engineering_controls three_students).1
  /\ unchanged three_students
       (table_rows placement_controls three_students).2.
Proof.
  pose proof (table_within_reply placement_controls three_students eq_refl)
    as (_ & _ & Htag & _ & Hsame).
  pose proof (table_within_reply engineering_controls three_students eq_refl)
    as (_ & Hdept & _).
  split; [vm_compute; reflexivity |].
  split; [vm_compute; reflexivity |].
  split; [apply List.Forall_forall; apply Htag; reflexivity |].
  split; [vm_compute; reflexivity |].
  split; [| exact Hsame].
  apply List.Forall_forall. apply Hdept. discriminate.
Defined.
